(** * inet-dash: the scraper and the dashboard refresh, embedded in Rocq

    Shallow embedding of [inet_scraper_async_table.py] (the authenticated
    session, [login], [scrape_table]) and of [app.py]
    ([categorize_equipment], [update_equipment_data], [refresh_data]).

    Python values are modelled as the code has them:
    - [str] is [string]; a character is a code point below 256;
    - a [dict] is an insertion-ordered association list without repeated
      keys ([PyDict]): assigning to a present key replaces the value in
      place, assigning to a new key appends;
    - a parsed document is a tree of [Tag]s and [NavigableString]s, as
      BeautifulSoup builds it ([Soup]);
    - exceptions are the [Raise] outcome of [result];
    - the cookie jar of aiohttp and the exchanges with the portal are
      parameters ([CookieLib], [Http.portal]). *)

From Stdlib Require Import Ascii ZArith Lia.
From stdpp Require Import base decidable option list strings gmap.

Set Warnings "-register-all".

(* ================================================================== *)
(** ** Python strings *)

Module PyStr.

(** [str.isspace] on one character, for code points below 256. *)
Definition isspace (c : ascii) : bool :=
  let n := nat_of_ascii c in
  ((9 <=? n) && (n <=? 13)) || ((28 <=? n) && (n <=? 32))
  || (n =? 133) || (n =? 160).

Fixpoint lstrip (s : string) : string :=
  match s with
  | String c s' => if isspace c then lstrip s' else s
  | EmptyString => EmptyString
  end.

Fixpoint rstrip (s : string) : string :=
  match s with
  | String c s' =>
      match rstrip s' with
      | EmptyString => if isspace c then EmptyString else String c EmptyString
      | r => String c r
      end
  | EmptyString => EmptyString
  end.

(** [s.strip()] *)
Definition strip (s : string) : string := rstrip (lstrip s).

(** [str.lower] on one character: A-Z, and the Latin-1 capitals. *)
Definition lower_char (c : ascii) : ascii :=
  let n := nat_of_ascii c in
  if ((65 <=? n) && (n <=? 90))
     || ((192 <=? n) && (n <=? 222) && negb (n =? 215))
  then ascii_of_nat (n + 32) else c.

(** [s.lower()] *)
Fixpoint lower (s : string) : string :=
  match s with
  | String c s' => String (lower_char c) (lower s')
  | EmptyString => EmptyString
  end.

(** [s.startswith(p)] *)
Fixpoint startswith (p s : string) : bool :=
  match p, s with
  | EmptyString, _ => true
  | String a p', String b s' => if decide (a = b) then startswith p' s' else false
  | String _ _, EmptyString => false
  end.

(** [sub in s] *)
Fixpoint contains (sub s : string) : bool :=
  startswith sub s ||
  match s with
  | String _ s' => contains sub s'
  | EmptyString => false
  end.

(** truth value of a [str]: non-empty *)
Definition truthy (s : string) : bool :=
  match s with EmptyString => false | String _ _ => true end.

(** [''.join(parts)] *)
Definition join (parts : list string) : string :=
  fold_right String.append EmptyString parts.

(** [a < b] on [str]: lexicographic on code points. *)
Fixpoint ltb (a b : string) : bool :=
  match a, b with
  | _, EmptyString => false
  | EmptyString, String _ _ => true
  | String x a', String y b' =>
      if nat_of_ascii x <? nat_of_ascii y then true
      else if nat_of_ascii y <? nat_of_ascii x then false
      else ltb a' b'
  end.

End PyStr.

(* ================================================================== *)
(** ** Python dictionaries with [str] keys *)

Module PyDict.

Definition dict (V : Type) : Type := list (string * V).

(** [d.get(k)]: [None] when the key is absent *)
Fixpoint get {V} (d : dict V) (k : string) : option V :=
  match d with
  | [] => None
  | (k', v) :: d' => if decide (k' = k) then Some v else get d' k
  end.

(** [d[k] = v] *)
Fixpoint set {V} (d : dict V) (k : string) (v : V) : dict V :=
  match d with
  | [] => [(k, v)]
  | (k', v') :: d' =>
      if decide (k' = k) then (k', v) :: d' else (k', v') :: set d' k v
  end.

(** [k in d] *)
Definition mem {V} (d : dict V) (k : string) : bool :=
  match get d k with Some _ => true | None => false end.

(** [list(d.keys())] *)
Definition keys {V} (d : dict V) : list string := d.*1.

(** [d.get(k, dflt)] *)
Definition get_default {V} (d : dict V) (k : string) (dflt : V) : V :=
  default dflt (get d k).

(** [dict(pairs)]: the pairs assigned one after the other *)
Definition of_pairs {V} (pairs : list (string * V)) : dict V :=
  foldl (fun d kv => set d kv.1 kv.2) [] pairs.

End PyDict.

(* ================================================================== *)
(** ** BeautifulSoup documents *)

Module Soup.

(** A parsed node. [attrs] holds the single-valued attributes ([id],
    [action], [name], ...); [class] is the multi-valued [class] attribute,
    which BeautifulSoup keeps as the list of its tokens. *)
Inductive node : Type :=
| Tag (name : string) (attrs : list (string * string)) (class : list string)
      (contents : list node)
| NavigableString (text : string).

Definition is_tag (n : node) : bool :=
  match n with Tag _ _ _ _ => true | NavigableString _ => false end.

Definition tag_name (n : node) : string :=
  match n with Tag nm _ _ _ => nm | NavigableString _ => "" end.

(** [tag.get(a)] *)
Definition attr (a : string) (n : node) : option string :=
  match n with
  | Tag _ attrs _ _ => PyDict.get attrs a
  | NavigableString _ => None
  end.

Definition classes (n : node) : list string :=
  match n with Tag _ _ cl _ => cl | NavigableString _ => [] end.

Definition children (n : node) : list node :=
  match n with Tag _ _ _ cs => cs | NavigableString _ => [] end.

(** [tag.descendants]: every node below [n], in document order. *)
Fixpoint descendants (n : node) : list node :=
  match n with
  | Tag _ _ _ cs =>
      (fix below (l : list node) : list node :=
         match l with
         | [] => []
         | c :: l' => c :: descendants c ++ below l'
         end) cs
  | NavigableString _ => []
  end.

(** [tag.find_all(name, <attribute filter>, recursive=...)] *)
Definition find_all (name : string) (flt : node -> bool) (recursive : bool)
    (n : node) : list node :=
  filter (fun c => is_tag c && bool_decide (tag_name c = name) && flt c)
         (if recursive then descendants n else children n).

(** [tag.find(name, <attribute filter>)]: the first match, or [None] *)
Definition find (name : string) (flt : node -> bool) (n : node) : option node :=
  head (find_all name flt true n).

(** the filter that accepts every tag *)
Definition any : node -> bool := fun _ => true.

(** [id=<string>] *)
Definition id_is (v : string) : node -> bool :=
  fun n => bool_decide (attr "id" n = Some v).

(** [id=lambda x: x and marker in x] *)
Definition id_contains (marker : string) : node -> bool :=
  fun n =>
    match attr "id" n with
    | Some x => PyStr.truthy x && PyStr.contains marker x
    | None => false
    end.

(** [class_=<one token>] *)
Definition has_class (c : string) : node -> bool :=
  fun n => bool_decide (c ∈ classes n).

(** [<attribute>=<string>] *)
Definition attr_is (a v : string) : node -> bool :=
  fun n => bool_decide (attr a n = Some v).

(** the strings below [n], in document order *)
Definition strings (n : node) : list string :=
  omap (fun c => match c with NavigableString s => Some s | _ => None end)
       (descendants n).

(** [tag.get_text(strip=True)]: every string stripped, the empty ones
    dropped, the rest concatenated. *)
Definition get_text_strip (n : node) : string :=
  PyStr.join (filter (fun s => PyStr.truthy s) (PyStr.strip <$> strings n)).

End Soup.

(* ================================================================== *)
(** ** Outcomes of code that may raise *)

Inductive result (A : Type) : Type :=
| Ok (a : A)
| Raise.
Arguments Ok {A} a.
Arguments Raise {A}.

#[export] Instance result_ret : MRet result := fun A a => Ok a.
#[export] Instance result_bind : MBind result := fun A B k r =>
  match r with Ok a => k a | Raise => Raise end.

(* ================================================================== *)
(** ** inet_scraper_async_table.py: the table extraction of [scrape_table] *)

Module Extract.
Import Soup.

(** The text a header cell contributes (lines 496-521): the first cell of
    the first row of the nested table when there is one, the cell's own
    text otherwise; an empty text stays as the placeholder [""]. *)
Definition header_text (header_cell : node) : string :=
  match find "table" any header_cell with
  | Some nested_table =>
      match find "tr" any nested_table with
      | Some first_row =>
          match find "td" any first_row with
          | Some first_cell =>
              let header_text := get_text_strip first_cell in
              if PyStr.truthy header_text then header_text else ""
          | None => ""
          end
      | None => ""
      end
  | None =>
      let header_text := get_text_strip header_cell in
      if PyStr.truthy header_text then header_text else ""
  end.

(** [header_row.find_all('td', class_='dxgvHeader_Moderno', recursive=False)] *)
Definition header_cells (header_row : node) : list node :=
  find_all "td" (has_class "dxgvHeader_Moderno") false header_row.

(** the loop of lines 494-521: one entry per header cell *)
Definition extract_headers (header_row : node) : list string :=
  header_text <$> header_cells header_row.

(** [table.find_all('tr', id=lambda x: x and 'DXDataRow' in x)] *)
Definition data_rows (table : node) : list node :=
  find_all "tr" (id_contains "DXDataRow") true table.

(** [row.find_all('td')] *)
Definition cells_of (row : node) : list node := find_all "td" any true row.

(** The inner loop of lines 535-538, from index [i] on:
    [row_data[headers[i]] = cell.get_text(strip=True)].
    [headers[i]] raises [IndexError] out of range. *)
Fixpoint fill_row (headers : list string) (i : nat) (cells : list node)
    (row_data : PyDict.dict string) : result (PyDict.dict string) :=
  match cells with
  | [] => Ok row_data
  | cell :: rest =>
      match headers !! i with
      | Some h => fill_row headers (S i) rest (PyDict.set row_data h (get_text_strip cell))
      | None => Raise
      end
  end.

(** The loop of lines 530-539 over the data rows. *)
Fixpoint extract_rows (headers : list string) (rows : list node)
    (results : list (PyDict.dict string)) : result (list (PyDict.dict string)) :=
  match rows with
  | [] => Ok results
  | row :: rest =>
      let cells := cells_of row in
      if decide (length cells = length headers) then
        row_data ← fill_row headers 0 cells [];
        extract_rows headers rest (results ++ [row_data])
      else extract_rows headers rest results
  end.

(** Lines 477-542 of [scrape_table]: from the parsed page to the list of
    row dictionaries. The two early [return []] are the missing table and
    the missing header row. *)
Definition extract_table (soup : node) (table_id : string)
    : result (list (PyDict.dict string)) :=
  match find "table" (id_is table_id) soup with
  | None => Ok []
  | Some table =>
      match find "tr" (id_contains "DXHeadersRow0") table with
      | None => Ok []
      | Some header_row =>
          let headers := extract_headers header_row in
          extract_rows headers (data_rows table) []
      end
  end.

(** For the statements below: a row the loop keeps (line 533), and
    [dict(zip(headers, texts))] for the texts of its cells. *)
Definition kept (headers : list string) (row : node) : Prop :=
  length (cells_of row) = length headers.

#[export] Instance kept_dec headers row : Decision (kept headers row).
Proof. unfold kept. apply _. Defined.

Definition row_record (headers : list string) (cells : list node)
    : PyDict.dict string :=
  PyDict.of_pairs (zip headers (get_text_strip <$> cells)).

End Extract.

(* ================================================================== *)
(** ** The cookie jar, as the code uses it *)

(** [aiohttp.CookieJar] keeps its cookies by domain, path and name and
    replaces and drops them by rules of its own. The code only builds a
    jar, adds name-value pairs to it, iterates over it and clears it, so
    the jar is left to the library:
    - [CookieJar] are the jars and [new_jar] is [aiohttp.CookieJar()];
    - [legal_key name] says that [http.cookies] takes [name] as the key of
      a cookie; for any other name both [SimpleCookie()[name] = value] and
      [jar.update_cookies({name: value})] raise [CookieError];
    - [jar_update jar name value] is the jar after
      [jar.update_cookies({name: value})], for such a name;
    - [jar_items jar] are the pairs [(cookie.key, cookie.value)] of the
      cookies that [for cookie in jar] yields, in that order (a name may
      come more than once);
    - [jar_clear jar] is the jar after [jar.clear()]. *)
Class CookieLib : Type := {
  CookieJar : Type;
  new_jar : CookieJar;
  legal_key : string -> bool;
  jar_update : CookieJar -> string -> string -> CookieJar;
  jar_items : CookieJar -> list (string * string);
  jar_clear : CookieJar -> CookieJar;
}.

(* ================================================================== *)
(** ** The portal, as the HTTP client sees it *)

Module Http.

Inductive method : Type := GET | POST.

(** [fields] are the [params] of a GET and the [data] of a POST. *)
Record request : Type := Request {
  meth : method;
  url : string;
  fields : PyDict.dict string;
}.

(** [status_ok]: [raise_for_status] passes; [final_url]: [str(response.url)],
    after redirects; [page]: the body as [BeautifulSoup] parses it. *)
Record response : Type := Response {
  status_ok : bool;
  final_url : string;
  page : Soup.node;
}.

(** An exchange: the request goes out from a session with the given jar;
    what comes back is the response, or [None] when aiohttp raises
    (connection error, timeout), and the jar as the exchange leaves it. *)
Definition portal `{CookieLib} : Type :=
  request -> CookieJar -> option response * CookieJar.

End Http.

(* ================================================================== *)
(** ** inet_scraper_async_table.py: [WebScraperAsync] *)

Module Scraper.
Import Soup Http.

Record session_t `{CookieLib} : Type := Session {
  closed : bool;
  cookie_jar : CookieJar;
}.
Arguments Session {_} _ _.

(** The attributes of a [WebScraperAsync] object. *)
Record scraper `{CookieLib} : Type := Scraper_ {
  session : option session_t;
  cookies : PyDict.dict string;
  current_url : option string;
  current_response : option node;
}.
Arguments Scraper_ {_} _ _ _ _.

(** What the code reads and writes: the object, and the cookie file
    ([None]: the file does not exist). *)
Record state `{CookieLib} : Type := State {
  self : scraper;
  cookie_file : option (PyDict.dict string);
}.
Arguments State {_} _ _.

(** Code that updates the state and may raise; the state reached when an
    exception is raised is kept. *)
Definition M `{CookieLib} (A : Type) : Type := state -> result A * state.

Definition ret `{CookieLib} {A} (a : A) : M A := fun s => (Ok a, s).
Definition raise `{CookieLib} {A} : M A := fun s => (Raise, s).
Definition bindM `{CookieLib} {A B} (m : M A) (k : A -> M B) : M B :=
  fun s => match m s with
           | (Ok a, s') => k a s'
           | (Raise, s') => (Raise, s')
           end.
(** [try: body except Exception: return v] *)
Definition catch `{CookieLib} {A} (body : M A) (v : A) : M A :=
  fun s => match body s with
           | (Ok a, s') => (Ok a, s')
           | (Raise, s') => (Ok v, s')
           end.
Definition get_self `{CookieLib} : M scraper := fun s => (Ok (self s), s).
Definition put_self `{CookieLib} (o : scraper) : M unit :=
  fun s => (Ok tt, State o (cookie_file s)).

Notation "'do' x <- m 'in' k" := (bindM m (fun x => k))
  (at level 10, x name, m at level 100, k at level 200, only parsing).
Notation "m >> k" := (bindM m (fun _ => k))
  (at level 61, left associativity, only parsing).

Section Session.
Context `{CookieLib}.

(** [load_cookies] (lines 80-90), run by [__init__] *)
Definition init (file : option (PyDict.dict string)) : state :=
  State (Scraper_ None (default [] file) None None) file.

(** [add_cookie] (lines 118-140): the dictionary takes the pair; on an
    open session the pair then goes through [SimpleCookie], which raises
    on a name it does not take, and into the jar. *)
Definition add_cookie (name value : string) : M unit :=
  do o <- get_self in
  put_self (Scraper_ (session o) (PyDict.set (cookies o) name value)
                     (current_url o) (current_response o)) >>
  match session o with
  | Some ss =>
      if closed ss then ret tt
      else if legal_key name then
        put_self (Scraper_ (Some (Session false (jar_update (cookie_jar ss) name value)))
                           (PyDict.set (cookies o) name value)
                           (current_url o) (current_response o))
      else raise
  | None => ret tt
  end.

Definition AWSALB_value : string :=
  "lO9Hx450KJM1R9A3hpoGvXvEKzx2H90bLYmykxwR1OoQhSG97IrvBUjeBHMyy9Ab48bP3Ko1sBbEkt1LO3ZnALGvuOYskuAXtTjUSCSzqpZO4G50nsU5iazAXeOM".

(** lines 58-62: the stored cookies enter the new jar one after the
    other; [update_cookies] raises on a name that is not a legal key. *)
Fixpoint load_jar (jar : CookieJar) (cs : PyDict.dict string) : result CookieJar :=
  match cs with
  | [] => Ok jar
  | (name, value) :: rest =>
      if legal_key name then load_jar (jar_update jar name value) rest
      else Raise
  end.

(** [create_session] (lines 41-78): when line 62 raises, no session has
    been assigned. *)
Definition create_session : M unit :=
  do o <- get_self in
  let fresh :=
    match session o with
    | None => true
    | Some ss => closed ss
    end in
  if fresh then
    match load_jar new_jar (cookies o) with
    | Ok jar =>
        put_self (Scraper_ (Some (Session false jar))
                           (cookies o) (current_url o) (current_response o)) >>
        add_cookie "AWSALB" AWSALB_value >>
        add_cookie "AWSALBCORS" AWSALB_value
    | Raise => raise
    end
  else ret tt.

(** lines 96-99 and 159-162: the dictionary made of the cookies of a jar *)
Definition cookie_dict (jar : CookieJar) : PyDict.dict string :=
  PyDict.of_pairs (jar_items jar).

(** [save_cookies] (lines 92-104): the jar, as a dictionary, replaces the
    file's content. *)
Definition save_cookies : M unit :=
  fun s =>
    match session (self s) with
    | Some ss => (Ok tt, State (self s) (Some (cookie_dict (cookie_jar ss))))
    | None => (Ok tt, s)
    end.

(** [async with self.session.get/post(...) as response]: the request goes
    out with the jar, and the session keeps the jar the exchange leaves.
    Without a session, or on a closed one, the call raises. *)
Definition send (P : portal) (rq : request) : M response :=
  do o <- get_self in
  match session o with
  | Some ss =>
      if closed ss then raise
      else
        let '(answer, jar) := P rq (cookie_jar ss) in
        put_self (Scraper_ (Some (Session false jar))
                           (cookies o) (current_url o) (current_response o)) >>
        match answer with
        | Some r => ret r
        | None => raise
        end
  | None => raise
  end.

(** [response.raise_for_status()] *)
Definition raise_for_status (r : response) : M unit :=
  if status_ok r then ret tt else raise.

(** [close] (lines 332-336) *)
Definition close : M unit :=
  save_cookies >>
  do o <- get_self in
  match session o with
  | Some ss =>
      put_self (Scraper_ (Some (Session true (cookie_jar ss)))
                         (cookies o) (current_url o) (current_response o))
  | None => ret tt
  end.

End Session.

Section Portal.
Context `{CookieLib}.
Variable urljoin : string -> string -> string.
Variable P : portal.

(** the hidden fields of the form (lines 216-223) *)
Definition hidden_fields (form : node) : PyDict.dict string :=
  foldl (fun form_data hidden_input =>
           match attr "name" hidden_input with
           | Some name =>
               if PyStr.truthy name
               then PyDict.set form_data name (default "" (attr "value" hidden_input))
               else form_data
           | None => form_data
           end)
        [] (find_all "input" (attr_is "type" "hidden") true form).

(** the check of line 252 on the URL the submission ended on *)
Definition still_on_login_page (login_url current_url : string) : bool :=
  PyStr.contains login_url current_url
  || PyStr.contains "login" (PyStr.lower current_url).

(** [login] (lines 166-266) *)
Definition login (login_url username_field username_value
    password_field password_value : string) (submit_button : option string)
    : M bool :=
  catch
    (create_session >>
     do response <- send P (Request GET login_url []) in
     raise_for_status response >>
     let soup := page response in
     match find "form" any soup with
     | None => ret false
     | Some form =>
         let form_action := default "" (attr "action" form) in
         let form_method := PyStr.lower (default "post" (attr "method" form)) in
         let submit_url :=
           if PyStr.startswith "http" form_action then form_action
           else urljoin login_url form_action in
         let form_data := hidden_fields form in
         let form_data := PyDict.set form_data username_field username_value in
         let form_data := PyDict.set form_data password_field password_value in
         let form_data :=
           match submit_button with
           | Some b => if PyStr.truthy b then PyDict.set form_data b b else form_data
           | None => form_data
           end in
         do response <-
           send P (Request (if decide (form_method = "get") then GET else POST)
                           submit_url form_data) in
         raise_for_status response >>
         do o <- get_self in
         put_self (Scraper_ (session o) (cookies o)
                            (Some (final_url response)) (Some (page response))) >>
         if still_on_login_page login_url (final_url response)
         then ret false
         else save_cookies >> ret true
     end)
    false.

(** For the statements below: lines 188-247 of [login] on their own, up
    to the response to the submitted form ([None]: the page has no form). *)
Definition submit_login_form (login_url username_field username_value
    password_field password_value : string) (submit_button : option string)
    : M (option response) :=
  create_session >>
  do response <- send P (Request GET login_url []) in
  raise_for_status response >>
  let soup := page response in
  match find "form" any soup with
  | None => ret None
  | Some form =>
      let form_action := default "" (attr "action" form) in
      let form_method := PyStr.lower (default "post" (attr "method" form)) in
      let submit_url :=
        if PyStr.startswith "http" form_action then form_action
        else urljoin login_url form_action in
      let form_data := hidden_fields form in
      let form_data := PyDict.set form_data username_field username_value in
      let form_data := PyDict.set form_data password_field password_value in
      let form_data :=
        match submit_button with
        | Some b => if PyStr.truthy b then PyDict.set form_data b b else form_data
        | None => form_data
        end in
      do response <-
        send P (Request (if decide (form_method = "get") then GET else POST)
                        submit_url form_data) in
      raise_for_status response >>
      do o <- get_self in
      put_self (Scraper_ (session o) (cookies o)
                         (Some (final_url response)) (Some (page response))) >>
      ret (Some response)
  end.

(** [check_if_logged_in] (lines 339-357) *)
Definition check_if_logged_in : M bool :=
  catch
    (create_session >>
     do response <-
       send P (Request GET "https://inet.indsci.com/Dashboard/LandingPage.aspx" []) in
     if PyStr.contains "login" (PyStr.lower (final_url response))
        || PyStr.contains "Login.aspx" (final_url response)
     then ret false else ret true)
    false.

Definition login_url : string := "https://inet.indsci.com/Login.aspx".
Definition username_field : string := "ctl00$cph1$main$Login1$UserName".
Definition username_value : string := "jporcelli".
Definition password_field : string := "ctl00$cph1$main$Login1$Password".
Definition submit_button : string := "ctl00$cph1$main$Login1$LoginButton".
Definition default_table_id : string :=
  "ctl00_ctl00_ctl00_cph1_main_dr_Grid_DXMainTable".

(** The body of [scrape_table] inside [try] (lines 453-542).
    [password_value] stands for the literal of line 462. *)
Definition scrape_table_body (password_value url table_id : string)
    : M (list (PyDict.dict string)) :=
  do logged_in <- check_if_logged_in in
  do proceed <-
    (if logged_in then ret true
     else login login_url username_field username_value
                password_field password_value (Some submit_button)) in
  if negb proceed then ret []
  else
    create_session >>
    do response <- send P (Request GET url []) in
    raise_for_status response >>
    match Extract.extract_table (page response) table_id with
    | Ok results => ret results
    | Raise => raise
    end.

(** [scrape_table] (lines 440-546), from the cookie file it finds to the
    rows it returns and the cookie file it leaves:
    [async with WebScraperAsync(cookie_file=...) as scraper] runs
    [__init__], [create_session], the body, and [close]. When
    [create_session] raises on the way in, the exception leaves
    [scrape_table]: the body and [close] do not run. *)
Definition scrape_table (password_value url table_id : string)
    (file : option (PyDict.dict string))
    : result (list (PyDict.dict string)) * option (PyDict.dict string) :=
  let run :=
    create_session >>
    do results <- catch (scrape_table_body password_value url table_id) [] in
    close >>
    ret results in
  let '(r, s) := run (init file) in (r, cookie_file s).

End Portal.

End Scraper.

(* ================================================================== *)
(** ** app.py: [categorize_equipment] *)

(** A naive [datetime], as its position on the time line in microseconds;
    a [timedelta] is a difference of two. *)
Definition datetime : Type := Z.

(** The library functions the code calls and this development does not
    define: [urllib.parse.urljoin], [datetime.strptime] ([None] for
    [ValueError]) and [datetime.isoformat]. *)
Class Library : Type := {
  urljoin : string -> string -> string;
  strptime : string -> string -> option datetime;
  isoformat : datetime -> string;
}.

Module App.

(** The values stored in an equipment dictionary: the cell texts, and the
    derived fields ([int], [str] or [None]). *)
Inductive pyval : Type :=
| VStr (s : string)
| VInt (n : Z)
| VNone.

#[export] Instance pyval_eq_dec : EqDecision pyval.
Proof. solve_decision. Defined.

(** An equipment dictionary. *)
Abbreviation record := (PyDict.dict pyval).

Definition truthy (v : pyval) : bool :=
  match v with
  | VStr s => PyStr.truthy s
  | VInt n => negb (n =? 0)%Z
  | VNone => false
  end.

(** The rows [scrape_table] returns hold [str] values; from the first
    derived field on, the same dictionary holds [pyval]s. *)
Definition widen (row : PyDict.dict string) : record :=
  (fun kv => (kv.1, VStr kv.2)) <$> row.

(** [d.get(k, dflt)] for a field that holds a cell text. The fields read
    this way are never derived fields, so they hold a [str] when present. *)
Definition text_of (d : record) (k dflt : string) : string :=
  match PyDict.get d k with
  | Some (VStr s) => s
  | _ => dflt
  end.

Definition formats : list string :=
  [ "%m/%d/%Y %I:%M %p";
    "%m/%d/%Y %H:%M";
    "%m/%d/%Y";
    "%Y-%m-%d %H:%M:%S";
    "%Y-%m-%d %H:%M";
    "%Y-%m-%d";
    "%d/%m/%Y %I:%M %p";
    "%d/%m/%Y";
    "%m-%d-%Y" ].

Definition microseconds_per_day : Z := 86400000000.

(** [(cal_date - today).days]: a [timedelta] is normalised with
    [0 <= seconds < 86400], so [days] is the floor. *)
Definition days_between (cal_date today : datetime) : Z :=
  ((cal_date - today) `div` microseconds_per_day)%Z.

(** lines 180-185 *)
Definition status_of_days (days_diff : Z) : string :=
  if (days_diff <? 0)%Z then "danger"
  else if (days_diff <=? 10)%Z then "warning"
  else "ok".

Section Categorize.
Context `{Library}.
(** [clock k] is what the [k]-th call of [datetime.now()] returns. *)
Variable clock : nat -> datetime.

(** The loop of lines 173-188; [n] counts the calls of [datetime.now()]. *)
Fixpoint parse_loop (date_str : string) (fmts : list string) (item : record)
    (n : nat) : record * nat :=
  match fmts with
  | [] => (item, n)
  | fmt :: rest =>
      match strptime date_str fmt with
      | Some cal_date =>
          let today := clock n in
          let days_diff := days_between cal_date today in
          let item := PyDict.set item "_days_until_calibration" (VInt days_diff) in
          let item := PyDict.set item "_calibration_status" (VStr (status_of_days days_diff)) in
          (item, S n)
      | None => parse_loop date_str rest item n
      end
  end.

(** lines 153-190 for one item *)
Definition annotate (row : PyDict.dict string) (n : nat) : record * nat :=
  let item := widen row in
  let item := PyDict.set item "_days_until_calibration" VNone in
  let item := PyDict.set item "_calibration_status" (VStr "ok") in
  match PyDict.get item "Next Calibration Date" with
  | Some v =>
      if truthy v then
        match v with
        | VStr s => parse_loop (PyStr.strip s) formats item n
        | _ => (item, n)
        end
      else (item, n)
  | None => (item, n)
  end.

(** the body of the loop of lines 149-195 *)
Definition categorize_step (acc : list record * list record * nat)
    (row : PyDict.dict string) : list record * list record * nat :=
  let '(instruments, docking_stations, n) := acc in
  let category := PyStr.strip (PyDict.get_default row "Category" "") in
  let '(item, n) := annotate row n in
  if decide (PyStr.lower category = "instrument")
  then (instruments ++ [item], docking_stations, n)
  else if decide (PyStr.lower category = "docking station")
  then (instruments, docking_stations ++ [item], n)
  else (instruments, docking_stations, n).

(** the key of line 198 *)
Definition sort_key (x : record) : string * string :=
  (text_of x "Equipment Group" "", text_of x "Type" "").

(** [a < b] on pairs of [str] *)
Definition key_lt (a b : string * string) : bool :=
  PyStr.ltb a.1 b.1 || (bool_decide (a.1 = b.1) && PyStr.ltb a.2 b.2).

Fixpoint insert_sorted (x : record) (l : list record) : list record :=
  match l with
  | [] => [x]
  | y :: l' =>
      if key_lt (sort_key x) (sort_key y) then x :: y :: l'
      else y :: insert_sorted x l'
  end.

(** [l.sort(key=sort_key)]: the stable sort, as an insertion sort that
    puts each element behind the ones that are not greater. *)
Definition sort_by_key (l : list record) : list record :=
  foldl (fun sorted x => insert_sorted x sorted) [] l.

(** line 202, the dictionary comprehension: what one instrument adds *)
Definition lookup_step (lookup : gmap string record) (instr : record)
    : gmap string record :=
  if truthy (default VNone (PyDict.get instr "Serial Number"))
  then <[text_of instr "Serial Number" "" := instr]> lookup
  else lookup.

Definition instrument_lookup (instruments : list record) : gmap string record :=
  foldl lookup_step ∅ instruments.

(** the body of the loop of lines 204-210 *)
Definition dock (lookup : gmap string record) (station : record) : record :=
  let docked_serial :=
    PyStr.strip (text_of station "Instrument Currently Docked" "") in
  match (if PyStr.truthy docked_serial then lookup !! docked_serial else None) with
  | Some docked_instrument =>
      PyDict.set station "_docked_unit"
        (PyDict.get_default docked_instrument "Equipment Group" (VStr "N/A"))
  | None => PyDict.set station "_docked_unit" VNone
  end.

(** [categorize_equipment] (lines 141-212); the third component is the
    number of clock readings so far. *)
Definition categorize_equipment (equipment_list : list (PyDict.dict string))
    (n : nat) : list record * list record * nat :=
  match equipment_list with
  | [] => ([], [], n)
  | _ =>
      let '(instruments, docking_stations, n) :=
        foldl categorize_step ([], [], n) equipment_list in
      let instruments := sort_by_key instruments in
      let lookup := instrument_lookup instruments in
      (instruments, dock lookup <$> docking_stations, n)
  end.

(** For the statements below: the date the loop over [formats] settles
    on, which is the result of the first format, in the order of the list,
    that parses the text. *)
Definition first_parse (date_str : string) : option datetime :=
  head (omap (strptime date_str) formats).

(** What [annotate] does with the calibration date of a row. *)
Inductive calibration (row : PyDict.dict string) (n : nat)
    : record -> nat -> Prop :=
| calibration_parsed s cal_date item :
    PyDict.get row "Next Calibration Date" = Some s ->
    s <> "" ->
    first_parse (PyStr.strip s) = Some cal_date ->
    PyDict.get item "_days_until_calibration"
      = Some (VInt (days_between cal_date (clock n))) ->
    PyDict.get item "_calibration_status"
      = Some (VStr (status_of_days (days_between cal_date (clock n)))) ->
    calibration row n item (S n)
| calibration_unparsed s item :
    PyDict.get row "Next Calibration Date" = Some s ->
    s <> "" ->
    first_parse (PyStr.strip s) = None ->
    PyDict.get item "_days_until_calibration" = Some VNone ->
    PyDict.get item "_calibration_status" = Some (VStr "ok") ->
    calibration row n item n
| calibration_missing item :
    (PyDict.get row "Next Calibration Date" = None
     \/ PyDict.get row "Next Calibration Date" = Some "") ->
    PyDict.get item "_days_until_calibration" = Some VNone ->
    PyDict.get item "_calibration_status" = Some (VStr "ok") ->
    calibration row n item n.

(** An item the loop built from one of [rows], with the clock read [k]
    times before and at most [n'] times after, filed under [category]. *)
Definition annotated_from (rows : list (PyDict.dict string)) (n n' : nat)
    (category : string) (item : record) : Prop :=
  exists row k,
    row ∈ rows /\ n <= k /\ (annotate row k).2 <= n'
    /\ item = (annotate row k).1
    /\ PyStr.lower (PyStr.strip (PyDict.get_default row "Category" "")) = category.

End Categorize.

(** *** [update_equipment_data] and the shared [equipment_data] *)

(** What a cycle meets outside the process: the two credentials
    [load_config] returns, the portal, the literal of line 462, and the
    clock. *)
Record world `{CookieLib} : Type := World {
  inet_username : string;
  inet_password : string;
  portal : Http.portal;
  password_value : string;
  clock : nat -> datetime;
}.
Arguments World {_} _ _ _ _ _.

(** The values of the [equipment_data] dictionary. *)
Inductive value : Type :=
| Records (l : list record)
| Text (s : string)
| NoneValue.

(** The state a cycle reads and writes: the global [equipment_data], the
    cookie file, the number of clock readings so far, and the payloads
    sent with [socketio.emit('equipment_update', ...)]. *)
Record state : Type := State {
  equipment_data : PyDict.dict value;
  cookie_file : option (PyDict.dict string);
  clock_reads : nat;
  emitted : list (PyDict.dict value);
}.

(** lines 45-49 *)
Definition initial_equipment_data : PyDict.dict value :=
  [("instruments", Records []); ("docking_stations", Records []);
   ("last_update", NoneValue)].

Definition equipment_list_url : string :=
  "https://inet.indsci.com/Dashboard/EquipmentList.aspx".

Section Pipeline.
Context `{Library} `{CookieLib}.

(** [scrape_equipment] (lines 127-138) around [scrape_equipment_async]
    (lines 107-124): [None] without credentials and on an exception. *)
Definition scrape_equipment (w : world) (file : option (PyDict.dict string))
    : option (list (PyDict.dict string)) * option (PyDict.dict string) :=
  if negb (PyStr.truthy (inet_username w)) || negb (PyStr.truthy (inet_password w))
  then (None, file)
  else
    let '(r, file) :=
      Scraper.scrape_table urljoin (portal w) (password_value w)
        equipment_list_url Scraper.default_table_id file in
    match r with
    | Ok results => (Some results, file)
    | Raise => (None, file)
    end.

(** [update_equipment_data] (lines 215-242) *)
Definition update_equipment_data (w : world) (st : state) : state :=
  let n := S (clock_reads st) in
  let '(equipment_list, file) := scrape_equipment w (cookie_file st) in
  match equipment_list with
  | Some equipment_list =>
      let '(instruments, docking_stations, n) :=
        categorize_equipment (clock w) equipment_list n in
      let data :=
        [("instruments", Records instruments);
         ("docking_stations", Records docking_stations);
         ("last_update", Text (isoformat (clock w n)))] in
      let payload :=
        [("instruments", Records instruments);
         ("docking_stations", Records docking_stations);
         ("last_update", PyDict.get_default data "last_update" NoneValue)] in
      State data file (S n) (emitted st ++ [payload])
  | None => State (equipment_data st) file n (emitted st)
  end.

End Pipeline.

(** *** [refresh_data] and the background executions *)

(** An execution of [update_equipment_data] started with
    [socketio.start_background_task]: still running, or returned. *)
Inductive task : Type := InFlight | Returned.

#[export] Instance task_eq_dec : EqDecision task.
Proof. solve_decision. Defined.

Record server : Type := Server {
  shared : state;
  background : list task;
}.

(** [socketio.start_background_task(update_equipment_data)] *)
Definition start_background_task (srv : server) : server :=
  Server (shared srv) (background srv ++ [InFlight]).

(** What [/api/refresh] answers: the JSON body of the handler, or the
    redirect to the login page that [login_required] sends to a client
    that is not logged in. *)
Inductive answer : Type :=
| Json (body : PyDict.dict string)
| ToLogin.

(** [refresh_data] behind [login_required] (lines 357-362), called by a
    client that is logged in or not: the new server state and the answer.
    Flask-Login turns a client that is not logged in away before the
    handler runs. *)
Definition refresh_data (authenticated : bool) (srv : server) : server * answer :=
  if authenticated
  then (start_background_task srv, Json [("status", "refresh_started")])
  else (srv, ToLogin).

(** the executions of [update_equipment_data] that are running *)
Definition in_flight (srv : server) : nat :=
  length (filter (fun t => t = InFlight) (background srv)).

(** calls of [refresh_data] one after the other, each by a client that is
    logged in or not, with their answers *)
Fixpoint fire (callers : list bool) (srv : server) : server * list answer :=
  match callers with
  | [] => (srv, [])
  | authenticated :: callers' =>
      let '(srv, answer) := refresh_data authenticated srv in
      let '(srv, answers) := fire callers' srv in
      (srv, answer :: answers)
  end.

Section Background.
Context `{Library} `{CookieLib}.

(** The [i]-th background execution runs to its end. *)
Definition complete (w : world) (i : nat) (srv : server) : server :=
  match background srv !! i with
  | Some InFlight =>
      Server (update_equipment_data w (shared srv)) (<[i := Returned]> (background srv))
  | _ => srv
  end.

End Background.

End App.

(* ================================================================== *)
(** ** Pages and rows used in the examples *)

Module Sample.
Import Soup.

Definition text_cell (s : string) : node := Tag "td" [] [] [NavigableString s].

(** a header cell as the grid renders it: the caption sits in the first
    cell of a nested table *)
Definition header_cell (caption : string) : node :=
  Tag "td" [] ["dxgvHeader_Moderno"]
    [Tag "table" [] [] [Tag "tr" [] [] [Tag "td" [] [] [NavigableString caption]]]].

Definition header_row (captions : list string) : node :=
  Tag "tr" [("id", "grid_DXHeadersRow0")] [] (header_cell <$> captions).

Definition data_row (id : string) (texts : list string) : node :=
  Tag "tr" [("id", id)] [] (text_cell <$> texts).

Definition grid (rows : list node) : node :=
  Tag "table" [("id", Scraper.default_table_id)] [] rows.

Definition document (body : list node) : node :=
  Tag "[document]" [] [] [Tag "html" [] [] [Tag "body" [] [] body]].

(** a page without the grid *)
Definition page_without_table : node :=
  document [Tag "p" [] [] [NavigableString "Session expired"]].

(** a page whose grid has no header row *)
Definition headless_grid : node :=
  grid [data_row "grid_DXDataRow0" ["ABC123"; "Instrument"]].
Definition page_without_header : node := document [headless_grid].

(** a page whose grid has its header row and no data row *)
Definition two_captions : node := header_row ["Serial Number"; "Category"].
Definition empty_grid : node := grid [two_captions].
Definition page_without_rows : node := document [empty_grid].

(** a grid with a short row between two full ones *)
Definition short_row : node := data_row "grid_DXDataRow1" ["broken"].
Definition grid_with_short_row : node :=
  grid [two_captions;
        data_row "grid_DXDataRow0" ["ABC123"; "Instrument"];
        short_row;
        data_row "grid_DXDataRow2" ["DS-1"; "Docking Station"]].
Definition page_with_short_row : node := document [grid_with_short_row].

(** a grid with two header cells without a caption: one with an empty
    nested table cell, one with no content at all *)
Definition blank_captions : node :=
  Tag "tr" [("id", "grid_DXHeadersRow0")] []
    [Tag "td" [] ["dxgvHeader_Moderno"]
       [Tag "table" [] [] [Tag "tr" [] [] [Tag "td" [] [] []]]];
     Tag "td" [] ["dxgvHeader_Moderno"] [];
     header_cell "Serial Number"].
Definition row_under_blank_captions : node :=
  data_row "grid_DXDataRow0" ["first"; "second"; "ABC123"].
Definition grid_with_blank_captions : node :=
  grid [blank_captions; row_under_blank_captions].
Definition page_with_blank_captions : node := document [grid_with_blank_captions].

(** *** A library instance for the examples *)

Local Open Scope Z_scope.

(** days from 1970-01-01 to the given date of the proleptic Gregorian
    calendar *)
Definition days_from_civil (y m d : Z) : Z :=
  let y := if m <=? 2 then y - 1 else y in
  let era := y `div` 400 in
  let yoe := y - era * 400 in
  let mp := (m + 9) `mod` 12 in
  let doy := (153 * mp + 2) `div` 5 + d - 1 in
  let doe := yoe * 365 + yoe `div` 4 - yoe `div` 100 + doy in
  era * 146097 + doe - 719468.

Definition civil_from_days (z : Z) : Z * Z * Z :=
  let z := z + 719468 in
  let era := z `div` 146097 in
  let doe := z - era * 146097 in
  let yoe := (doe - doe `div` 1460 + doe `div` 36524 - doe `div` 146096) `div` 365 in
  let doy := doe - (365 * yoe + yoe `div` 4 - yoe `div` 100) in
  let mp := (5 * doy + 2) `div` 153 in
  let d := doy - (153 * mp + 2) `div` 5 + 1 in
  let m := if mp <? 10 then mp + 3 else mp - 9 in
  (if m <=? 2 then yoe + era * 400 + 1 else yoe + era * 400, m, d).

Definition days_in_month (y m : Z) : Z :=
  if m =? 2 then
    if ((y `mod` 4 =? 0) && negb (y `mod` 100 =? 0)) || (y `mod` 400 =? 0)
    then 29 else 28
  else if (m =? 4) || (m =? 6) || (m =? 9) || (m =? 11) then 30 else 31.

Definition digit (c : ascii) : option Z :=
  let n := Z.of_nat (nat_of_ascii c) in
  if (48 <=? n) && (n <=? 57) then Some (n - 48) else None.

(** the number a string of digits denotes; [None] for anything else *)
Fixpoint number_from (acc : Z) (s : string) : option Z :=
  match s with
  | EmptyString => Some acc
  | String c s' =>
      match digit c with
      | Some v => number_from (10 * acc + v) s'
      | None => None
      end
  end.

Definition number (s : string) : option Z :=
  match s with EmptyString => None | _ => number_from 0 s end.

(** [s.split(sep)] for a one-character separator *)
Fixpoint split_on (sep : ascii) (s : string) : list string :=
  match s with
  | EmptyString => [EmptyString]
  | String c s' =>
      if decide (c = sep) then EmptyString :: split_on sep s'
      else match split_on sep s' with
           | part :: parts => String c part :: parts
           | [] => [String c EmptyString]
           end
  end.

(** midnight of a date, when the date exists *)
Definition midnight (y m d : option Z) : option datetime :=
  match y, m, d with
  | Some y, Some m, Some d =>
      if (1 <=? y) && (y <=? 9999) && (1 <=? m) && (m <=? 12)
         && (1 <=? d) && (d <=? days_in_month y m)
      then Some (days_from_civil y m d * App.microseconds_per_day)
      else None
  | _, _, _ => None
  end.

(** the two date-only formats [%Y-%m-%d] and [%m/%d/%Y]; every other
    format is taken not to match *)
Definition strptime (date_str fmt : string) : option datetime :=
  if decide (fmt = "%Y-%m-%d") then
    match split_on "-"%char date_str with
    | [y; m; d] =>
        if decide (String.length y = 4%nat) then midnight (number y) (number m) (number d)
        else None
    | _ => None
    end
  else if decide (fmt = "%m/%d/%Y") then
    match split_on "/"%char date_str with
    | [m; d; y] =>
        if decide (String.length y = 4%nat) then midnight (number y) (number m) (number d)
        else None
    | _ => None
    end
  else None.

Definition digit_char (v : Z) : ascii := ascii_of_nat (Z.to_nat (48 + v `mod` 10)).

(** [v] in decimal, on [width] digits *)
Fixpoint padded (width : nat) (v : Z) : string :=
  match width with
  | O => EmptyString
  | S w => String.append (padded w (v `div` 10)) (String (digit_char v) EmptyString)
  end.

(** [YYYY-MM-DDTHH:MM:SS], with [.ffffff] when the microseconds are not 0 *)
Definition isoformat (t : datetime) : string :=
  let days := t `div` App.microseconds_per_day in
  let rest := t `mod` App.microseconds_per_day in
  let '(y, m, d) := civil_from_days days in
  let secs := rest `div` 1000000 in
  let us := rest `mod` 1000000 in
  String.append (padded 4 y) (String.append "-" (String.append (padded 2 m)
   (String.append "-" (String.append (padded 2 d) (String.append "T"
   (String.append (padded 2 (secs `div` 3600)) (String.append ":"
   (String.append (padded 2 ((secs `div` 60) `mod` 60)) (String.append ":"
   (String.append (padded 2 (secs `mod` 60))
     (if us =? 0 then EmptyString else String.append "." (padded 6 us)))))))))))).

(** references are resolved against the root of the portal *)
Definition urljoin (base ref : string) : string :=
  if PyStr.truthy ref then String.append "https://inet.indsci.com/" ref else base.

Definition library : Library := Build_Library urljoin strptime isoformat.

(** 2025-11-04 00:00:00, and one second per reading *)
Definition clock (k : nat) : datetime :=
  days_from_civil 2025 11 4 * App.microseconds_per_day + Z.of_nat k * 1000000.

Local Close Scope Z_scope.

(** *** The portal *)

Definition landing_url : string :=
  "https://inet.indsci.com/Dashboard/LandingPage.aspx".

Definition login_redirect : string :=
  "https://inet.indsci.com/Login.aspx?ReturnUrl=%2fDashboard%2fLandingPage.aspx".

Definition login_page : node :=
  document
    [Tag "form" [("method", "post"); ("action", "Login.aspx")] []
       [Tag "input" [("type", "hidden"); ("name", "__VIEWSTATE"); ("value", "dDwtMTA4")] [] [];
        Tag "input" [("type", "text"); ("name", Scraper.username_field)] [] [];
        Tag "input" [("type", "password"); ("name", Scraper.password_field)] [] [];
        Tag "input" [("type", "submit"); ("name", Scraper.submit_button)] [] []]].

Definition dashboard_page : node :=
  document [Tag "h1" [] [] [NavigableString "Dashboard"]].

(** *** A cookie jar for the examples *)

(** the characters [http.cookies] takes in a key *)
Definition legal_char (c : ascii) : bool :=
  let n := nat_of_ascii c in
  ((65 <=? n) && (n <=? 90)) || ((97 <=? n) && (n <=? 122))
  || ((48 <=? n) && (n <=? 57))
  || bool_decide (c ∈ String.list_ascii_of_string "!#$%&'*+-.^_`|~:").

(** the attribute names a key must not be *)
Definition reserved : list string :=
  ["expires"; "path"; "comment"; "domain"; "max-age"; "secure"; "httponly";
   "version"; "samesite"].

Definition legal_key (name : string) : bool :=
  PyStr.truthy name
  && forallb legal_char (String.list_ascii_of_string name)
  && negb (bool_decide (PyStr.lower name ∈ reserved)).

(** A jar keeps, for every domain in the order they came, its cookies by
    name; the cookies of the empty domain go to every host. *)
Definition jar : Type := PyDict.dict (PyDict.dict string).

Definition store (domain : string) (j : jar) (name value : string) : jar :=
  PyDict.set j domain (PyDict.set (PyDict.get_default j domain []) name value).

Definition items (j : jar) : list (string * string) := concat (j.*2).

Definition cookie_lib : CookieLib :=
  Build_CookieLib jar [] legal_key (store "") items (fun _ => []).

Definition host : string := "inet.indsci.com".

(** A portal that keeps its pages behind a ticket cookie, sends a client
    without the ticket to the login page, and hands out the ticket when the
    login form comes back with the password it [accepts] ([None]: no
    password is accepted). *)
Definition portal (accepts : option string) (equipment_page : node)
    : @Http.portal cookie_lib :=
  fun rq jar =>
    let ticket := bool_decide (".ASPXAUTH" ∈ (items jar).*1) in
    if decide (Http.url rq = Scraper.login_url) then
      match Http.meth rq with
      | Http.GET =>
          (Some (Http.Response true Scraper.login_url login_page),
           store host jar "ASP.NET_SessionId" "0vkq")
      | Http.POST =>
          if bool_decide (is_Some accepts)
             && bool_decide (PyDict.get (Http.fields rq) Scraper.password_field = accepts)
          then (Some (Http.Response true landing_url dashboard_page),
                store host jar ".ASPXAUTH" "6F1A")
          else (Some (Http.Response true Scraper.login_url login_page), jar)
      end
    else if decide (Http.url rq = landing_url) then
      if ticket then (Some (Http.Response true landing_url dashboard_page), jar)
      else (Some (Http.Response true login_redirect login_page), jar)
    else if decide (Http.url rq = App.equipment_list_url) then
      if ticket
      then (Some (Http.Response true App.equipment_list_url equipment_page), jar)
      else (Some (Http.Response true login_redirect login_page), jar)
    else (None, jar).

(** a portal that cannot be reached *)
Definition unreachable : @Http.portal cookie_lib := fun _ jar => (None, jar).

(** the page of a failed request *)
Definition error_page : node :=
  document [Tag "h1" [] [] [NavigableString "Server Error"]].

(** A portal whose login fails on its side: it serves the login page, and
    answers the submitted form with an error status from the landing
    page's address. *)
Definition failing_portal : @Http.portal cookie_lib :=
  fun rq jar =>
    match Http.meth rq with
    | Http.GET =>
        if decide (Http.url rq = Scraper.login_url)
        then (Some (Http.Response true Scraper.login_url login_page),
              store host jar "ASP.NET_SessionId" "0vkq")
        else (Some (Http.Response true login_redirect login_page), jar)
    | Http.POST => (Some (Http.Response false landing_url error_page), jar)
    end.

(** *** Equipment rows *)

Definition equipment_row (serial category group type calibration docked : string)
    : PyDict.dict string :=
  [("Serial Number", serial); ("Category", category);
   ("Equipment Group", group); ("Type", type);
   ("Next Calibration Date", calibration);
   ("Instrument Currently Docked", docked)].

Definition equipment_list : list (PyDict.dict string) :=
  [ equipment_row "ABC123" "Instrument" "Unit-7" "Ventis" "2025-11-14" "";
    equipment_row "DS-1" "Docking Station" "Bay" "DSX" "11/15/2025" " ABC123 ";
    equipment_row "XYZ9" "instrument" "Unit-2" "Ventis" "2025-11-03" "";
    equipment_row "DS-2" "Docking Station" "Bay" "DSX" "soon" "QQQ";
    equipment_row "DS-3" "Docking Station" "Bay" "DSX" "" "   ";
    equipment_row "" "Instrument" "Unit-0" "Tango" "" "";
    equipment_row "LB-4" "Label printer" "Office" "LP" "" "" ].

(** what [categorize_equipment] makes of the first two rows *)
Definition instrument_ABC123 : App.record :=
  [("Serial Number", App.VStr "ABC123"); ("Category", App.VStr "Instrument");
   ("Equipment Group", App.VStr "Unit-7"); ("Type", App.VStr "Ventis");
   ("Next Calibration Date", App.VStr "2025-11-14");
   ("Instrument Currently Docked", App.VStr "");
   ("_days_until_calibration", App.VInt 10);
   ("_calibration_status", App.VStr "warning")].

Definition station_DS1 : App.record :=
  [("Serial Number", App.VStr "DS-1"); ("Category", App.VStr "Docking Station");
   ("Equipment Group", App.VStr "Bay"); ("Type", App.VStr "DSX");
   ("Next Calibration Date", App.VStr "11/15/2025");
   ("Instrument Currently Docked", App.VStr " ABC123 ");
   ("_days_until_calibration", App.VInt 10);
   ("_calibration_status", App.VStr "warning");
   ("_docked_unit", App.VStr "Unit-7")].

Definition instruments : list App.record :=
  (@App.categorize_equipment library clock equipment_list 0).1.1.

Definition stations : list App.record :=
  (@App.categorize_equipment library clock equipment_list 0).1.2.

(** *** Cycles *)

(** the state a successful cycle left behind; the cookie file is gone *)
Definition published : App.state :=
  App.State
    [("instruments", App.Records [instrument_ABC123]);
     ("docking_stations", App.Records [station_DS1]);
     ("last_update", App.Text "2025-11-03T09:00:00")]
    None 0 [].

(** credentials configured; the portal takes the password of line 462 or
    not, and serves [equipment_page] *)
Definition world (accepts : bool) (equipment_page : node)
    : @App.world cookie_lib :=
  App.World "operator" "secret"
    (portal (if accepts then Some "pw" else Some "changed") equipment_page)
    "pw" clock.

Definition world_offline : @App.world cookie_lib :=
  App.World "operator" "secret" unreachable "pw" clock.

Definition world_unconfigured : @App.world cookie_lib :=
  App.World "" "" (portal (Some "pw") page_with_short_row) "pw" clock.

(** a server on which one cycle is running *)
Definition busy : App.server := App.Server published [App.InFlight].

End Sample.

From stdpp Require Import sorting.

(* ================================================================== *)
(** ** inet_scraper_async_table.py: the other cookie methods *)

Module Cookies.
Import Scraper.

Section Jar.
Context `{CookieLib}.

(** [self.session and not self.session.closed] *)
Definition is_open (s : state) : bool :=
  match session (self s) with
  | Some ss => negb (closed ss)
  | None => false
  end.

(** [get_cookies] (lines 152-164) *)
Definition get_cookies (s : state) : PyDict.dict string :=
  match session (self s) with
  | Some ss =>
      if closed ss then cookies (self s)
      else cookie_dict (cookie_jar ss)
  | None => cookies (self s)
  end.

(** [clear_cookies] (lines 106-116): the dictionary and the jar are
    emptied and the cookie file is removed. *)
Definition clear_cookies : M unit :=
  fun s =>
    let o := self s in
    let sess :=
      match session o with
      | Some ss => Some (Session (closed ss) (jar_clear (cookie_jar ss)))
      | None => None
      end in
    (Ok tt, State (Scraper_ sess [] (current_url o) (current_response o)) None).

(** [clear_cookies_async] (lines 577-581), from the cookie file it finds
    to the one it leaves: [__init__], [create_session], [clear_cookies],
    and [close] on the way out of [async with]; when [create_session]
    raises, the other two do not run. *)
Definition clear_cookies_async (file : option (PyDict.dict string))
    : result unit * option (PyDict.dict string) :=
  let '(r, s) := (create_session >> clear_cookies >> close) (init file) in
  (r, cookie_file s).

(** the jar of the session a new scraper opens over a cookie file, when
    [create_session] does not raise *)
Definition first_jar (file : option (PyDict.dict string)) : option CookieJar :=
  match create_session (init file) with
  | (Ok _, s) => cookie_jar <$> session (self s)
  | (Raise, _) => None
  end.

(** every name of a dictionary is a legal key *)
Definition legal_names (cs : PyDict.dict string) : bool :=
  forallb legal_key (PyDict.keys cs).

End Jar.

End Cookies.

(* ================================================================== *)
(** ** app.py: notions for the statements on [categorize_equipment] *)

Module Categories.
Import App.

(** the test of lines 192-195 on a row *)
Definition is_category (category : string) (row : PyDict.dict string) : Prop :=
  PyStr.lower (PyStr.strip (PyDict.get_default row "Category" "")) = category.

#[export] Instance is_category_dec category row : Decision (is_category category row).
Proof. unfold is_category. apply _. Defined.

(** [item] has the cell texts of [row]: under every key but the three
    derived ones it holds what the row holds. *)
Definition cells_kept (row : PyDict.dict string) (item : record) : Prop :=
  forall key,
    key <> "_days_until_calibration" -> key <> "_calibration_status" ->
    key <> "_docked_unit" ->
    PyDict.get item key = VStr <$> PyDict.get row key.

(** [x] may stand before [y] in a list sorted with the key of line 198:
    the key of [y] is not smaller. *)
Definition key_le (x y : record) : Prop :=
  key_lt (sort_key y) (sort_key x) = false.

End Categories.

(* ================================================================== *)
(** ** app.py: cycles one after the other *)

Module Cycles.
Import App.

(** the state the process starts in (lines 45-49), over the cookie file
    it finds *)
Definition startup (file : option (PyDict.dict string)) : state :=
  State initial_equipment_data file 0 [].

(** [update_equipment_data] run once per world of [ws], each run after the
    one before has returned *)
Definition run_cycles `{Library} `{CookieLib} (ws : list world) (st : state)
    : state :=
  foldl (fun st w => update_equipment_data w st) st ws.

End Cycles.

(* ================================================================== *)
(** ** app.py: the configuration file, the scheduler and the admin pages *)

Module Web.

(** The values of config.json as this application writes them. *)
Inductive jval : Type :=
| JStr (s : string)
| JInt (n : Z).

#[export] Instance jval_eq_dec : EqDecision jval.
Proof. solve_decision. Defined.

Definition truthy (v : jval) : bool :=
  match v with
  | JStr s => PyStr.truthy s
  | JInt n => negb (n =? 0)%Z
  end.

(** config.json: not there; there, with [json.load] or the loop over
    the keys raising; or holding a JSON object. *)
Inductive file : Type :=
| Absent
| Unreadable
| Holds (config : PyDict.dict jval).

(** What the handlers read and write: the configuration file and whether
    it can be opened for writing, the number of calls of
    [generate_password_hash] so far, the jobs of the scheduler (id and
    minutes), the flashed messages, and the number of background
    executions of [update_equipment_data] started. *)
Record site : Type := Site {
  config_file : file;
  writable : bool;
  hashes : nat;
  jobs : list (string * Z);
  flashes : list (string * string);
  started : nat;
}.

(** What a handler answers. *)
Inductive response : Type :=
| Redirect (endpoint : string)
| Render (template : string) (config : PyDict.dict jval)
| ServerError.

Definition with_file (st : site) (f : file) : site :=
  Site f (writable st) (hashes st) (jobs st) (flashes st) (started st).
Definition with_jobs (st : site) (js : list (string * Z)) : site :=
  Site (config_file st) (writable st) (hashes st) js (flashes st) (started st).
Definition hashed (st : site) : site :=
  Site (config_file st) (writable st) (S (hashes st)) (jobs st) (flashes st) (started st).
(** [flash(message, category)] *)
Definition flash (message category : string) (st : site) : site :=
  Site (config_file st) (writable st) (hashes st) (jobs st)
       (flashes st ++ [(message, category)]) (started st).
(** [socketio.start_background_task(update_equipment_data)] *)
Definition start_update (st : site) : site :=
  Site (config_file st) (writable st) (hashes st) (jobs st) (flashes st) (S (started st)).

Section Handlers.
(** [generate_password_hash]: the hash depends on a fresh salt, so on the
    number of calls before. [check_password_hash] may raise. [parse_int]
    is [int] on a [str], [None] for [ValueError]. [accepts_minutes] says
    whether the interval trigger can be built from that many minutes;
    [add_job] raises otherwise. *)
Variable generate_password_hash : nat -> string -> string.
Variable check_password_hash : jval -> option string -> result bool.
Variable parse_int : string -> option Z.
Variable accepts_minutes : Z -> bool.

(** lines 71-77, at a state *)
Definition default_config (st : site) : PyDict.dict jval :=
  [("admin_username", JStr "admin");
   ("admin_password_hash", JStr (generate_password_hash (hashes st) "admin"));
   ("inet_username", JStr "");
   ("inet_password", JStr "");
   ("update_frequency", JInt 60)].

(** [save_config] (lines 96-104) *)
Definition save_config (config : PyDict.dict jval) (st : site) : bool * site :=
  if writable st then (true, with_file st (Holds config)) else (false, st).

(** lines 84-86: the keys the file lacks get their default *)
Definition fill_defaults (defaults config : PyDict.dict jval) : PyDict.dict jval :=
  foldl (fun config kv =>
           if PyDict.mem config kv.1 then config else PyDict.set config kv.1 kv.2)
        config defaults.

(** [load_config] (lines 69-93) *)
Definition load_config (st : site) : PyDict.dict jval * site :=
  let default_config := default_config st in
  let st := hashed st in
  match config_file st with
  | Holds config => (fill_defaults default_config config, st)
  | Absent => (default_config, (save_config default_config st).2)
  | Unreadable => (default_config, st)
  end.

(** [scheduler.add_job(..., id=id, replace_existing=True)] *)
Definition add_job (id : string) (minutes : Z) (js : list (string * Z))
    : list (string * Z) :=
  PyDict.set js id minutes.

(** [schedule_updates] (lines 245-263); the trigger is built, and may
    raise, after the jobs are removed and before the job is added. *)
Definition schedule_updates (st : site) : result unit * site :=
  let '(config, st) := load_config st in
  let frequency_minutes := PyDict.get_default config "update_frequency" (JInt 60) in
  let st := with_jobs st [] in
  match frequency_minutes with
  | JInt minutes =>
      if accepts_minutes minutes
      then (Ok tt, with_jobs st (add_job "update_equipment" minutes (jobs st)))
      else (Raise, st)
  | JStr _ => (Raise, st)
  end.

(** line 330: [int(request.form.get('update_frequency', 60))] *)
Definition form_frequency (form : PyDict.dict string) : option Z :=
  match PyDict.get form "update_frequency" with
  | Some text => parse_int text
  | None => Some 60%Z
  end.

(** the POST branch of [admin] (lines 316-348), as it runs for a client
    that [login_required] let through *)
Definition admin_post (form : PyDict.dict string) (st : site) : response * site :=
  let '(config, st) := load_config st in
  let '(config, st) :=
    match PyDict.get form "admin_password" with
    | Some new_admin_password =>
        if PyStr.truthy new_admin_password
        then (PyDict.set config "admin_password_hash"
                (JStr (generate_password_hash (hashes st) new_admin_password)),
              hashed st)
        else (config, st)
    | None => (config, st)
    end in
  let config :=
    PyDict.set config "inet_username"
      (JStr (default "" (PyDict.get form "inet_username"))) in
  let config :=
    PyDict.set config "inet_password"
      (JStr (default "" (PyDict.get form "inet_password"))) in
  match form_frequency form with
  | None => (Redirect "admin", flash "Invalid update frequency" "danger" st)
  | Some frequency =>
      let frequency := if (frequency <? 1)%Z then 1%Z else frequency in
      let config := PyDict.set config "update_frequency" (JInt frequency) in
      let '(saved, st) := save_config config st in
      if saved then
        let st := flash "Configuration saved successfully!" "success" st in
        match schedule_updates st with
        | (Ok _, st) =>
            if PyStr.truthy (default "" (PyDict.get form "inet_username"))
               || PyStr.truthy (default "" (PyDict.get form "inet_password"))
            then (Redirect "admin", start_update st)
            else (Redirect "admin", st)
        | (Raise, st) => (ServerError, st)
        end
      else (Redirect "admin", flash "Error saving configuration" "danger" st)
  end.

(** the GET branch of [admin] (lines 314, 350-354), as it runs for a
    client that [login_required] let through *)
Definition admin_get (st : site) : response * site :=
  let '(config, st) := load_config st in
  let template_config :=
    PyDict.set config "inet_password"
      (JStr (if truthy (PyDict.get_default config "inet_password" (JStr ""))
             then "********" else "")) in
  (Render "admin.html" template_config, st).

(** What [login_required] does with a client that is not logged in:
    Flask-Login flashes its message and sends the client to [login_view];
    the handler does not run. *)
Definition unauthorized (st : site) : response * site :=
  (Redirect "login", flash "Please log in to access this page." "message" st).

(** [admin] (lines 310-354) behind [login_required], for a client that is
    logged in or not; [post] is the form of a POST and [None] for a GET. *)
Definition admin (authenticated : bool) (post : option (PyDict.dict string))
    (st : site) : response * site :=
  if authenticated then
    match post with
    | Some form => admin_post form st
    | None => admin_get st
    end
  else unauthorized st.

(** The POST branch of [login] (lines 283-298); the second component says
    whether [login_user] was called. *)
Definition login_post (form : PyDict.dict string) (st : site)
    : response * bool * site :=
  let username := PyDict.get form "username" in
  let password := PyDict.get form "password" in
  let '(config, st) := load_config st in
  match PyDict.get config "admin_username", PyDict.get config "admin_password_hash" with
  | Some admin_username, Some admin_password_hash =>
      if bool_decide (JStr <$> username = Some admin_username) then
        match check_password_hash admin_password_hash password with
        | Ok true =>
            (Redirect "admin", true, flash "Logged in successfully!" "success" st)
        | Ok false =>
            (Render "login.html" [], false,
             flash "Invalid username or password" "danger" st)
        | Raise => (ServerError, false, st)
        end
      else (Render "login.html" [], false,
            flash "Invalid username or password" "danger" st)
  | _, _ => (ServerError, false, st)
  end.

End Handlers.

End Web.

(* ================================================================== *)
(** ** A sample installation for the admin pages *)

Module WebSample.
Import Web.

(** A password hashing with the contract of werkzeug's: a hash checks
    against the text it was made from. *)
Definition generate_password_hash (salt : nat) (text : string) : string :=
  "plain$" +:+ text.

Definition check_password_hash (pwhash : jval) (password : option string)
    : result bool :=
  match pwhash, password with
  | JStr h, Some text => Ok (bool_decide (h = "plain$" +:+ text))
  | _, _ => Raise
  end.

(** [int] on unsigned decimal numerals *)
Definition digit (c : ascii) : option Z :=
  let n := Z.of_nat (nat_of_ascii c) in
  if (48 <=? n)%Z && (n <=? 57)%Z then Some (n - 48)%Z else None.

Fixpoint digits (acc : Z) (s : string) : option Z :=
  match s with
  | EmptyString => Some acc
  | String c s' =>
      match digit c with
      | Some d => digits (10 * acc + d)%Z s'
      | None => None
      end
  end.

Definition parse_int (s : string) : option Z :=
  if PyStr.truthy s then digits 0 s else None.

(** [timedelta] takes less than a thousand million days *)
Definition accepts_minutes (minutes : Z) : bool :=
  (Z.abs minutes <? 1440000000000)%Z.

(** The installation after its first start: the defaults on file and the
    hourly job. *)
Definition installed : site :=
  Site (Holds [("admin_username", JStr "admin");
               ("admin_password_hash", JStr "plain$admin");
               ("inet_username", JStr "");
               ("inet_password", JStr "");
               ("update_frequency", JInt 60)])
       true 2 [("update_equipment", 60%Z)] [] 1.

(** Forms of the admin page *)
Definition credentials_form : PyDict.dict string :=
  [("admin_password", ""); ("inet_username", "operator");
   ("inet_password", "hunter2"); ("update_frequency", "0")].

Definition password_form : PyDict.dict string :=
  [("admin_password", "s3cret"); ("inet_username", "");
   ("inet_password", ""); ("update_frequency", "15")].

Definition misspelt_form : PyDict.dict string :=
  [("admin_password", "s3cret"); ("inet_username", "operator");
   ("inet_password", "hunter2"); ("update_frequency", "soon")].

Definition huge_form : PyDict.dict string :=
  [("admin_password", ""); ("inet_username", "operator");
   ("inet_password", "hunter2"); ("update_frequency", "9999999999999")].

Definition login_form : PyDict.dict string :=
  [("username", "admin"); ("password", "s3cret")].

End WebSample.

(* ================================================================== *)
(** * Properties *)

(** ** Dictionaries *)

Section DictFacts.
Context {V : Type}.
Implicit Types (d : PyDict.dict V) (k : string) (v : V).

Lemma get_set_eq d k v : PyDict.get (PyDict.set d k v) k = Some v.
Proof.
  induction d as [|[k' v'] d IH]; simpl.
  - by rewrite decide_True.
  - destruct (decide (k' = k)) as [->|Hne]; simpl.
    + by rewrite decide_True.
    + by rewrite decide_False.
Qed.

Lemma get_set_ne d k k' v :
  k ≠ k' -> PyDict.get (PyDict.set d k v) k' = PyDict.get d k'.
Proof.
  intros Hne. induction d as [|[k0 v0] d IH]; simpl.
  - by rewrite decide_False.
  - destruct (decide (k0 = k)) as [->|Hne0]; simpl.
    + by rewrite !decide_False.
    + destruct (decide (k0 = k')); done.
Qed.

Lemma get_None_keys d k : PyDict.get d k = None <-> k ∉ PyDict.keys d.
Proof.
  unfold PyDict.keys. induction d as [|[k0 v0] d IH]; simpl.
  - split; [intros _; apply not_elem_of_nil | done].
  - rewrite not_elem_of_cons. destruct (decide (k0 = k)) as [->|Hne].
    + split; [done | by intros [? _]].
    + rewrite IH. split; [by intros ? | by intros [_ ?]].
Qed.

Lemma get_app d1 d2 k :
  PyDict.get (d1 ++ d2) k =
  match PyDict.get d1 k with Some v => Some v | None => PyDict.get d2 k end.
Proof.
  induction d1 as [|[k0 v0] d1 IH]; simpl; [done|].
  by destruct (decide (k0 = k)).
Qed.

Lemma set_fresh d k v : k ∉ PyDict.keys d -> PyDict.set d k v = d ++ [(k, v)].
Proof.
  unfold PyDict.keys. induction d as [|[k0 v0] d IH]; simpl; [done|].
  rewrite not_elem_of_cons. intros [Hne Hnin].
  rewrite decide_False by done. by rewrite IH.
Qed.

Lemma keys_set d k v :
  PyDict.keys (PyDict.set d k v) =
  if PyDict.mem d k then PyDict.keys d else PyDict.keys d ++ [k].
Proof.
  unfold PyDict.keys, PyDict.mem. induction d as [|[k0 v0] d IH]; [done|].
  cbn [PyDict.set PyDict.get]. destruct (decide (k0 = k)) as [->|Hne]; [done|].
  rewrite fmap_cons, IH. by destruct (PyDict.get d k).
Qed.

Lemma assign_all_get (pairs : list (string * V)) d k :
  PyDict.get (foldl (fun d kv => PyDict.set d kv.1 kv.2) d pairs) k =
  match PyDict.get (reverse pairs) k with
  | Some v => Some v
  | None => PyDict.get d k
  end.
Proof.
  revert d. induction pairs as [|[k0 v0] pairs IH]; intros d; simpl; [done|].
  rewrite IH, reverse_cons, get_app. destruct (PyDict.get (reverse pairs) k); [done|].
  simpl. destruct (decide (k0 = k)) as [->|Hne].
  - apply get_set_eq.
  - by apply get_set_ne.
Qed.

Lemma assign_all_fresh (pairs : list (string * V)) d :
  NoDup (PyDict.keys d ++ pairs.*1) ->
  foldl (fun d kv => PyDict.set d kv.1 kv.2) d pairs = d ++ pairs.
Proof.
  revert d. induction pairs as [|[k0 v0] pairs IH]; intros d Hnd; simpl.
  - by rewrite app_nil_r.
  - simpl in Hnd. apply NoDup_app in Hnd as (Hd & Hdisj & Hp).
    apply NoDup_cons in Hp as [Hk0 Hp].
    assert (k0 ∉ PyDict.keys d) as Hfresh.
    { intros Hin. apply (Hdisj _ Hin). left. }
    rewrite (set_fresh _ _ _ Hfresh), IH.
    + by rewrite <- app_assoc.
    + unfold PyDict.keys in *. rewrite fmap_app. simpl.
      rewrite <- app_assoc. simpl. apply NoDup_app. split_and!; [done| |].
      * intros x Hx [->|Hx']%elem_of_cons; [done|].
        apply (Hdisj _ Hx). by right.
      * by apply NoDup_cons.
Qed.

(** [dict(pairs)[k]] is the value of the last pair with key [k]. *)
Lemma of_pairs_get (pairs : list (string * V)) k :
  PyDict.get (PyDict.of_pairs pairs) k = PyDict.get (reverse pairs) k.
Proof.
  unfold PyDict.of_pairs. rewrite assign_all_get.
  by destruct (PyDict.get (reverse pairs) k).
Qed.

(** With pairwise distinct keys, [dict(pairs)] holds the pairs as given. *)
Lemma of_pairs_NoDup (pairs : list (string * V)) :
  NoDup pairs.*1 -> PyDict.of_pairs pairs = pairs.
Proof. intros Hnd. unfold PyDict.of_pairs. by rewrite assign_all_fresh. Qed.

End DictFacts.

(** ** The table extraction *)

Section ExtractFacts.
Import Soup Extract.

Lemma fill_row_assigns headers i cells row_data :
  i + length cells <= length headers ->
  fill_row headers i cells row_data =
  Ok (foldl (fun d kv => PyDict.set d kv.1 kv.2) row_data
            (zip (drop i headers) (get_text_strip <$> cells))).
Proof.
  revert i row_data. induction cells as [|cell rest IH]; intros i row_data Hlen.
  - simpl. by destruct (drop i headers).
  - simpl in Hlen. destruct (lookup_lt_is_Some_2 headers i) as [h Hh]; [lia|].
    cbn [fill_row]. rewrite Hh, IH by lia.
    by rewrite (drop_S _ _ _ Hh).
Qed.

Lemma fill_row_record headers cells :
  length cells = length headers ->
  fill_row headers 0 cells [] = Ok (row_record headers cells).
Proof. intros Hlen. rewrite fill_row_assigns by (simpl; lia). by rewrite drop_0. Qed.

(** The loop over the data rows never raises; it appends the record of
    every kept row, in order. *)
Lemma extract_rows_kept headers rows results :
  extract_rows headers rows results =
  Ok (results ++ ((fun row => row_record headers (cells_of row)) <$>
                  filter (kept headers) rows)).
Proof.
  revert results. induction rows as [|row rest IH]; intros results.
  - simpl. by rewrite app_nil_r.
  - cbn [extract_rows]. destruct (decide (length (cells_of row) = length headers)) as [Hk|Hk].
    + rewrite fill_row_record by done. simpl. rewrite IH.
      rewrite filter_cons_True by done. by rewrite <- app_assoc.
    + rewrite IH. by rewrite filter_cons_False.
Qed.

Lemma extract_headers_length header_row :
  length (extract_headers header_row) = length (header_cells header_row).
Proof. unfold extract_headers. by rewrite length_fmap. Qed.

End ExtractFacts.

(** ** The claims on the extraction *)

Section ExtractClaims.
Import Soup Extract.

(** C5. Whatever the page: when the grid and its header row are found, the
    result holds exactly the records of the data rows whose cell count
    equals the header count, in page order; a row with another cell count
    leaves no record (none padded, nothing raised), and the result is the
    same as for the rows without it. *)
Theorem mismatched_rows_are_dropped soup table_id table header_row :
  find "table" (id_is table_id) soup = Some table ->
  find "tr" (id_contains "DXHeadersRow0") table = Some header_row ->
  let headers := extract_headers header_row in
  extract_table soup table_id =
    Ok ((fun row => row_record headers (cells_of row)) <$>
        filter (kept headers) (data_rows table))
  /\ (forall before row after,
        ~ kept headers row ->
        extract_rows headers (before ++ row :: after) [] =
        extract_rows headers (before ++ after) []).
Proof.
  intros Htable Hheader headers. split.
  - unfold extract_table. rewrite Htable, Hheader.
    fold headers. by rewrite extract_rows_kept.
  - intros before row after Hdrop. rewrite !extract_rows_kept.
    by rewrite !filter_app, filter_cons_False.
Qed.

(** The grid with a short row between two full ones gives the two full
    rows. *)
Lemma mismatched_rows_are_dropped_witness :
  extract_table Sample.page_with_short_row Scraper.default_table_id =
    Ok [[("Serial Number", "ABC123"); ("Category", "Instrument")];
        [("Serial Number", "DS-1"); ("Category", "Docking Station")]]
  /\ ~ kept (extract_headers Sample.two_captions) Sample.short_row.
Proof.
  split.
  - rewrite (proj1 (mismatched_rows_are_dropped
               Sample.page_with_short_row Scraper.default_table_id
               Sample.grid_with_short_row Sample.two_captions eq_refl eq_refl)).
    vm_compute. reflexivity.
  - vm_compute. discriminate.
Defined.

(** C7, as stated, fails on a grid with two header cells without caption:
    the first cell of the row is not found under the first header, and the
    record has fewer entries than there are header columns. *)
Lemma blank_captions_collide :
  let headers := extract_headers Sample.blank_captions in
  let cells := cells_of Sample.row_under_blank_captions in
  let record := row_record headers cells in
  extract_table Sample.page_with_blank_captions Scraper.default_table_id = Ok [record]
  /\ headers = [""; ""; "Serial Number"]
  /\ ~ (forall i h c, headers !! i = Some h -> cells !! i = Some c ->
        PyDict.get record h = Some (get_text_strip c))
  /\ length record <> length headers.
Proof.
  split_and!.
  - vm_compute. reflexivity.
  - vm_compute. reflexivity.
  - intros Hall.
    specialize (Hall 0 "" (Sample.text_cell "first") eq_refl eq_refl).
    vm_compute in Hall. discriminate.
  - vm_compute. discriminate.
Qed.

(** C7, amended. When the grid and its header row are found, the header
    list has one name per header cell, an empty caption staying as [""];
    the result has one record per kept row, in order, and the record is the
    dictionary obtained by assigning the cell texts to the header names by
    position, in header order: under a name it holds the text of the last
    cell in a column of that name. When the names are pairwise distinct,
    the record is the list of (header, text) pairs itself: its [i]-th entry
    is the [i]-th header with the text of the [i]-th cell, and it has one
    entry per header column. *)
Theorem cells_paired_with_headers soup table_id table header_row :
  find "table" (id_is table_id) soup = Some table ->
  find "tr" (id_contains "DXHeadersRow0") table = Some header_row ->
  let headers := extract_headers header_row in
  length headers = length (header_cells header_row)
  /\ exists results,
      extract_table soup table_id = Ok results
      /\ Forall2
           (fun row record =>
              let texts := get_text_strip <$> cells_of row in
              record = PyDict.of_pairs (zip headers texts)
              /\ (forall h, PyDict.get record h = PyDict.get (reverse (zip headers texts)) h)
              /\ (NoDup headers ->
                  record = zip headers texts
                  /\ length record = length headers
                  /\ forall i h c, headers !! i = Some h -> cells_of row !! i = Some c ->
                       record !! i = Some (h, get_text_strip c)
                       /\ PyDict.get record h = Some (get_text_strip c)))
           (filter (kept headers) (data_rows table)) results.
Proof.
  intros Htable Hheader headers. split; [apply extract_headers_length|].
  eexists. split.
  { unfold extract_table. rewrite Htable, Hheader. fold headers.
    by rewrite extract_rows_kept. }
  simpl. apply Forall2_fmap_r, Forall_Forall2_diag, Forall_forall.
  intros row [Hkept _]%list_elem_of_filter. unfold kept in Hkept.
  unfold row_record. split_and!; [done|apply of_pairs_get|].
  intros Hnd.
  assert (PyDict.of_pairs (zip headers (get_text_strip <$> cells_of row))
          = zip headers (get_text_strip <$> cells_of row)) as Heq.
  { apply of_pairs_NoDup. rewrite fst_zip; [done|]. rewrite length_fmap. lia. }
  rewrite Heq. split_and!; [done| |].
  - rewrite length_zip, length_fmap. lia.
  - intros i h c Hh Hc.
    assert (zip headers (get_text_strip <$> cells_of row) !! i
            = Some (h, get_text_strip c)) as Hi.
    { rewrite lookup_zip_with, Hh. simpl. by rewrite list_lookup_fmap, Hc. }
    split; [done|].
    rewrite <- Heq, of_pairs_get.
    clear Heq. revert Hi Hnd Hkept.
    generalize (get_text_strip <$> cells_of row). clear.
    intros texts Hi Hnd Hlen.
    destruct (PyDict.get (reverse (zip headers texts)) h) as [t|] eqn:Hget.
    + f_equal.
      assert ((h, t) ∈ zip headers texts) as Hin.
      { apply elem_of_reverse. clear -Hget.
        induction (reverse (zip headers texts)) as [|[k v] l IH]; [done|].
        simpl in Hget. destruct (decide (k = h)) as [->|?].
        - injection Hget as ->. left.
        - right. by apply IH. }
      apply list_elem_of_lookup in Hin as [j Hj].
      assert (j = i) as ->.
      { apply lookup_zip_with_Some in Hj as (h' & t' & [= <- <-] & Hj1 & Hj2).
        pose proof Hi as (h' & t' & [= <- <-] & Hi1 & Hi2)%lookup_zip_with_Some.
        by eapply NoDup_lookup. }
      rewrite Hi in Hj. by injection Hj.
    + exfalso. apply get_None_keys in Hget. apply Hget.
      unfold PyDict.keys. rewrite fmap_reverse. apply elem_of_reverse.
      apply list_elem_of_fmap. exists (h, get_text_strip c). split; [done|].
      apply list_elem_of_lookup. eauto.
Qed.

(** On the same grid the result has one record per kept row. *)
Lemma cells_paired_with_headers_witness :
  exists results,
    extract_table Sample.page_with_short_row Scraper.default_table_id = Ok results
    /\ length results = 2.
Proof.
  destruct (cells_paired_with_headers
              Sample.page_with_short_row Scraper.default_table_id
              Sample.grid_with_short_row Sample.two_captions eq_refl eq_refl)
    as (_ & results & Hres & Hall).
  exists results. split; [exact Hres|].
  apply Forall2_length in Hall. rewrite <- Hall. vm_compute. reflexivity.
Defined.

(** C8, as stated, fails: a page without the grid, a page whose grid has
    no header row, and a page whose grid has a header row and no data row
    all give the same result, the empty list. *)
Lemma failures_look_like_an_empty_grid :
  find "table" (id_is Scraper.default_table_id) Sample.page_without_table = None
  /\ find "table" (id_is Scraper.default_table_id) Sample.page_without_header
       = Some Sample.headless_grid
  /\ find "tr" (id_contains "DXHeadersRow0") Sample.headless_grid = None
  /\ find "table" (id_is Scraper.default_table_id) Sample.page_without_rows
       = Some Sample.empty_grid
  /\ find "tr" (id_contains "DXHeadersRow0") Sample.empty_grid = Some Sample.two_captions
  /\ data_rows Sample.empty_grid = []
  /\ extract_table Sample.page_without_table Scraper.default_table_id
       = extract_table Sample.page_without_rows Scraper.default_table_id
  /\ extract_table Sample.page_without_header Scraper.default_table_id
       = extract_table Sample.page_without_rows Scraper.default_table_id.
Proof. split_and!; vm_compute; reflexivity. Qed.

(** C8, amended. The extraction never raises and has no error value: it
    returns a list of records for every page, and that list is empty when
    no element has the given identifier, when the grid has no row with the
    header marker, and also when the grid has its header row and no data
    row. *)
Theorem missing_table_or_header_gives_empty_list soup table_id :
  (exists results, extract_table soup table_id = Ok results)
  /\ (find "table" (id_is table_id) soup = None ->
       extract_table soup table_id = Ok [])
  /\ (forall table,
        find "table" (id_is table_id) soup = Some table ->
        find "tr" (id_contains "DXHeadersRow0") table = None ->
        extract_table soup table_id = Ok [])
  /\ (forall table header_row,
        find "table" (id_is table_id) soup = Some table ->
        find "tr" (id_contains "DXHeadersRow0") table = Some header_row ->
        data_rows table = [] ->
        extract_table soup table_id = Ok []).
Proof.
  unfold extract_table. split_and!.
  - destruct (find "table" _ soup) as [table|]; [|by eexists].
    destruct (find "tr" _ table) as [header_row|]; [|by eexists].
    rewrite extract_rows_kept. by eexists.
  - by intros ->.
  - by intros table -> ->.
  - intros table header_row -> -> Hrows. by rewrite Hrows.
Qed.

End ExtractClaims.

(** ** [categorize_equipment] *)

Section CategorizeFacts.
Import App.
Context `{Library}.
Variable clock : nat -> datetime.

Lemma get_widen (row : PyDict.dict string) k :
  PyDict.get (widen row) k = VStr <$> PyDict.get row k.
Proof.
  unfold widen. induction row as [|[k0 v0] row IH]; [done|].
  cbn. by destruct (decide (k0 = k)).
Qed.

Lemma parse_loop_first date_str fmts item n :
  parse_loop clock date_str fmts item n =
  match head (omap (strptime date_str) fmts) with
  | Some cal_date =>
      let days_diff := days_between cal_date (clock n) in
      (PyDict.set (PyDict.set item "_days_until_calibration" (VInt days_diff))
                  "_calibration_status" (VStr (status_of_days days_diff)),
       S n)
  | None => (item, n)
  end.
Proof.
  induction fmts as [|fmt rest IH]; [done|].
  cbn [parse_loop omap list_omap]. by destruct (strptime date_str fmt).
Qed.

Lemma annotate_calibration row n :
  calibration clock row n (annotate clock row n).1 (annotate clock row n).2.
Proof.
  unfold annotate.
  rewrite !get_set_ne, get_widen by done.
  destruct (PyDict.get row "Next Calibration Date") as [s|] eqn:Hs;
    cbn [fmap option_fmap option_map].
  - destruct (decide (s = "")) as [->|Hne].
    + cbn [truthy PyStr.truthy fst snd].
      apply calibration_missing; [by right| |].
      * by rewrite get_set_ne, get_set_eq.
      * by rewrite get_set_eq.
    + replace (truthy (VStr s)) with true by (by destruct s).
      rewrite parse_loop_first.
      destruct (head (omap (strptime (PyStr.strip s)) formats)) as [cal|] eqn:Hp;
        cbn [fst snd].
      * eapply calibration_parsed; eauto.
        -- by rewrite get_set_ne, get_set_eq.
        -- by rewrite get_set_eq.
      * eapply calibration_unparsed; eauto.
        -- by rewrite get_set_ne, get_set_eq.
        -- by rewrite get_set_eq.
  - cbn [fst snd]. apply calibration_missing; [by left| |].
    + by rewrite get_set_ne, get_set_eq.
    + by rewrite get_set_eq.
Qed.

Lemma calibration_reads row n item n' :
  calibration clock row n item n' -> n <= n' <= S n.
Proof. destruct 1; lia. Qed.

Lemma annotate_reads row n :
  n <= (annotate clock row n).2 <= S n.
Proof. eapply calibration_reads, annotate_calibration. Qed.

(** The fields that hold cell texts are the row's, as [str]. *)
Lemma annotate_get_raw row n k :
  k <> "_days_until_calibration" -> k <> "_calibration_status" ->
  PyDict.get (annotate clock row n).1 k = VStr <$> PyDict.get row k.
Proof.
  intros Hk1 Hk2. unfold annotate.
  rewrite !get_set_ne, get_widen by done.
  destruct (PyDict.get row "Next Calibration Date") as [s|];
    cbn [fmap option_fmap option_map fst].
  - destruct (truthy (VStr s)).
    + rewrite parse_loop_first.
      destruct (head (omap (strptime (PyStr.strip s)) formats)); cbn [fst];
        by rewrite !get_set_ne, get_widen by done.
    + cbn [fst]. by rewrite !get_set_ne, get_widen by done.
  - by rewrite !get_set_ne, get_widen by done.
Qed.

Lemma annotated_from_mono rows row n0 n n' category item :
  n0 <= n ->
  annotated_from clock rows n n' category item ->
  annotated_from clock (row :: rows) n0 n' category item.
Proof.
  intros Hle (r & k & Hin & Hk & Hk' & Hitem & Hcat).
  exists r, k. split_and!; [by right|lia|done..].
Qed.

(** Items collected from the later rows were also collected from the
    whole list. *)
Ltac older_items HF :=
  eapply Forall_impl; [exact HF|]; intros ?; apply annotated_from_mono; lia.

(** The loop of lines 149-195: what it appends to the two lists. *)
Lemma categorize_fold rows : forall instruments docking_stations n I' D' n',
  foldl (categorize_step clock) (instruments, docking_stations, n) rows = (I', D', n') ->
  n <= n'
  /\ exists Inew Dnew,
      I' = instruments ++ Inew /\ D' = docking_stations ++ Dnew
      /\ Forall (annotated_from clock rows n n' "instrument") Inew
      /\ Forall (annotated_from clock rows n n' "docking station") Dnew.
Proof.
  induction rows as [|row rest IH]; intros I D n I' D' n' Hfold.
  - simpl in Hfold. injection Hfold as <- <- <-.
    split; [done|]. exists [], []. by rewrite !app_nil_r.
  - cbn [foldl] in Hfold. unfold categorize_step at 2 in Hfold.
    pose proof (annotate_reads row n) as Hn.
    destruct (annotate clock row n) as [item n1] eqn:Hann. cbn [snd] in Hn.
    assert (forall cat,
              PyStr.lower (PyStr.strip (PyDict.get_default row "Category" "")) = cat ->
              n1 <= n' ->
              annotated_from clock (row :: rest) n n' cat item) as Hhere.
    { intros cat Hcat Hle. exists row, n. rewrite Hann.
      split_and!; [left|done..]. }
    destruct (decide (_ = "instrument")) as [Hi|Hi];
      [|destruct (decide (_ = "docking station")) as [Hd|Hd]];
      apply IH in Hfold as (Hle & Inew & Dnew & -> & -> & HI & HD);
      (split; [lia|]).
    + exists (item :: Inew), Dnew.
      rewrite <- app_assoc. split_and!; [done..| |older_items HD].
      constructor; [by apply Hhere|older_items HI].
    + exists Inew, (item :: Dnew).
      rewrite <- app_assoc. split_and!; [done..|older_items HI|].
      constructor; [by apply Hhere|older_items HD].
    + exists Inew, Dnew. split_and!; [done..|older_items HI|older_items HD].
Qed.

Lemma insert_sorted_perm x l : insert_sorted x l ≡ₚ x :: l.
Proof.
  induction l as [|y l IH]; [done|]. simpl.
  destruct (key_lt _ _); [done|]. rewrite IH. apply perm_swap.
Qed.

(** Sorting keeps the elements. *)
Lemma sort_by_key_perm l : sort_by_key l ≡ₚ l.
Proof.
  unfold sort_by_key.
  enough (forall acc, foldl (fun sorted x => insert_sorted x sorted) acc l ≡ₚ acc ++ l)
    as Hgen by apply (Hgen []).
  induction l as [|x l IH]; intros acc; simpl.
  - by rewrite app_nil_r.
  - rewrite IH, insert_sorted_perm. apply Permutation_middle.
Qed.

Lemma dock_get_other lookup station k :
  k <> "_docked_unit" ->
  PyDict.get (dock lookup station) k = PyDict.get station k.
Proof.
  intros Hk. unfold dock.
  destruct (if PyStr.truthy _ then _ else _); by rewrite get_set_ne.
Qed.

Lemma dock_text_of lookup station k dflt :
  k <> "_docked_unit" ->
  text_of (dock lookup station) k dflt = text_of station k dflt.
Proof. intros Hk. unfold text_of. by rewrite dock_get_other. Qed.

(** What [categorize_equipment] returns, from what the loop collected. *)
Lemma categorize_equipment_parts equipment_list n instruments stations n' :
  categorize_equipment clock equipment_list n = (instruments, stations, n') ->
  n <= n'
  /\ exists collected docking_stations,
      instruments ≡ₚ collected
      /\ stations = dock (instrument_lookup instruments) <$> docking_stations
      /\ Forall (annotated_from clock equipment_list n n' "instrument") collected
      /\ Forall (annotated_from clock equipment_list n n' "docking station")
               docking_stations.
Proof.
  unfold categorize_equipment. destruct equipment_list as [|row rest].
  - intros [= <- <- <-]. split; [done|]. by exists [], [].
  - generalize (row :: rest). clear row rest. intros rows.
    destruct (foldl _ _ rows) as [[I' D'] n1] eqn:Hfold.
    intros [= <- <- <-].
    apply categorize_fold in Hfold as (Hle & Inew & Dnew & -> & -> & HI & HD).
    split; [done|]. exists Inew, Dnew. split_and!; [|done..].
    apply sort_by_key_perm.
Qed.

End CategorizeFacts.

Section CalibrationClaim.
Import App.
Context `{Library}.
Variable clock : nat -> datetime.

(** C4. Every record that [categorize_equipment] returns was classified at
    one reading [clock k] of the clock. When its calibration-date field is
    present and not empty and the first format of [formats], in order, that
    parses the stripped text gives [cal_date], the record's days are the
    floor of [cal_date - clock k] in days, and its status is danger below
    0, warning from 0 to 10, ok above. When no format parses the text, the
    days stay [None] and the status stays ok. A date 10 days after the
    reading is a warning, 11 days after is ok, one day before is danger. *)
Theorem calibration_status_by_days equipment_list n instruments stations n' :
  categorize_equipment clock equipment_list n = (instruments, stations, n') ->
  (forall item, item ∈ instruments ++ stations ->
     exists k,
       n <= k
       /\ forall s,
           PyDict.get item "Next Calibration Date" = Some (VStr s) -> s <> "" ->
           match first_parse (PyStr.strip s) with
           | Some cal_date =>
               let days := ((cal_date - clock k) `div` 86400000000)%Z in
               k < n'
               /\ PyDict.get item "_days_until_calibration" = Some (VInt days)
               /\ PyDict.get item "_calibration_status" =
                    Some (VStr (if (days <? 0)%Z then "danger"
                                else if (days <=? 10)%Z then "warning"
                                else "ok"))
           | None =>
               PyDict.get item "_days_until_calibration" = Some VNone
               /\ PyDict.get item "_calibration_status" = Some (VStr "ok")
           end)
  /\ (forall today : datetime,
        status_of_days (days_between (today + 10 * microseconds_per_day)%Z today) = "warning"
        /\ status_of_days (days_between (today + 11 * microseconds_per_day)%Z today) = "ok"
        /\ status_of_days (days_between (today - 1 * microseconds_per_day)%Z today) = "danger").
Proof.
  intros Hcat. split.
  - apply categorize_equipment_parts in Hcat
      as (Hle & collected & docking_stations & Hperm & -> & HI & HD).
    assert (forall category item0 item,
              annotated_from clock equipment_list n n' category item0 ->
              (forall key, key <> "_docked_unit" ->
                 PyDict.get item key = PyDict.get item0 key) ->
              exists k,
                n <= k
                /\ forall s,
                    PyDict.get item "Next Calibration Date" = Some (VStr s) -> s <> "" ->
                    match first_parse (PyStr.strip s) with
                    | Some cal_date =>
                        let days := ((cal_date - clock k) `div` 86400000000)%Z in
                        k < n'
                        /\ PyDict.get item "_days_until_calibration" = Some (VInt days)
                        /\ PyDict.get item "_calibration_status" =
                             Some (VStr (if (days <? 0)%Z then "danger"
                                         else if (days <=? 10)%Z then "warning"
                                         else "ok"))
                    | None =>
                        PyDict.get item "_days_until_calibration" = Some VNone
                        /\ PyDict.get item "_calibration_status" = Some (VStr "ok")
                    end) as Hone.
    { intros category item0 item (row & k & Hrow & Hk & Hk' & -> & _) Hsame.
      exists k. split; [done|]. intros s Hs Hne.
      rewrite !Hsame in * by done.
      rewrite annotate_get_raw in Hs by done.
      destruct (PyDict.get row "Next Calibration Date") as [s0|] eqn:Hs0; [|done].
      cbn in Hs. injection Hs as ->.
      pose proof (annotate_calibration clock row k) as Hcal.
      inversion Hcal as [s' cal it Hs' _ Hparse Hd Hst Hitem Hn
                        |s' it Hs' _ Hparse Hd Hst Hitem Hn
                        |it Hs' Hd Hst Hitem Hn].
      - rewrite Hs0 in Hs'. injection Hs' as <-. rewrite Hparse.
        cbn zeta. split_and!; [lia|exact Hd|exact Hst].
      - rewrite Hs0 in Hs'. injection Hs' as <-. by rewrite Hparse.
      - destruct Hs' as [Hs'|Hs']; rewrite Hs0 in Hs'; [done|]. by injection Hs'. }
    intros item [Hin|Hin]%elem_of_app.
    + rewrite Hperm in Hin.
      eapply Forall_forall in HI; [|exact Hin]. by eapply Hone.
    + apply list_elem_of_fmap in Hin as (item0 & -> & Hin).
      eapply Forall_forall in HD; [|exact Hin].
      eapply Hone; [exact HD|]. intros key Hkey. by apply dock_get_other.
  - intros today. unfold status_of_days, days_between, microseconds_per_day.
    replace (today + 10 * 86400000000 - today)%Z with (10 * 86400000000)%Z by lia.
    replace (today + 11 * 86400000000 - today)%Z with (11 * 86400000000)%Z by lia.
    replace (today - 1 * 86400000000 - today)%Z with (-1 * 86400000000)%Z by lia.
    rewrite !Z.div_mul by done. done.
Qed.

End CalibrationClaim.

Section CalibrationWitness.
Import App.

(** The sample rows at the sample clock: the date 2025-11-14 is exactly
    ten days after the first reading, and the instrument that carries it is
    a warning. *)
Lemma calibration_status_by_days_witness :
  (forall item,
     item ∈ Sample.instruments ++ Sample.stations ->
     exists k,
       0 <= k
       /\ forall s,
           PyDict.get item "Next Calibration Date" = Some (VStr s) -> s <> "" ->
           match @first_parse Sample.library (PyStr.strip s) with
           | Some cal_date =>
               let days := ((cal_date - Sample.clock k) `div` 86400000000)%Z in
               k < 3
               /\ PyDict.get item "_days_until_calibration" = Some (VInt days)
               /\ PyDict.get item "_calibration_status" =
                    Some (VStr (if (days <? 0)%Z then "danger"
                                else if (days <=? 10)%Z then "warning"
                                else "ok"))
           | None =>
               PyDict.get item "_days_until_calibration" = Some VNone
               /\ PyDict.get item "_calibration_status" = Some (VStr "ok")
           end)
  /\ @first_parse Sample.library "2025-11-14"
       = Some (Sample.clock 0 + 10 * microseconds_per_day)%Z
  /\ Sample.instrument_ABC123 ∈ Sample.instruments
  /\ PyDict.get Sample.instrument_ABC123 "_calibration_status" = Some (VStr "warning").
Proof.
  split_and!.
  - exact (proj1 (@calibration_status_by_days Sample.library Sample.clock
                    Sample.equipment_list 0 Sample.instruments Sample.stations 3
                    eq_refl)).
  - vm_compute. reflexivity.
  - vm_compute. do 2 right. left.
  - reflexivity.
Defined.

End CalibrationWitness.

Section DockFacts.
Import App.

Lemma lookup_step_other (lookup : gmap string record) instr serial :
  serial <> "" ->
  PyDict.get instr "Serial Number" <> Some (VStr serial) ->
  lookup_step lookup instr !! serial = lookup !! serial.
Proof.
  intros Hne Hother. unfold lookup_step, text_of.
  destruct (PyDict.get instr "Serial Number") as [[s'| |]|]; simpl;
    try done; try (destruct (negb _); [by rewrite lookup_insert_ne|done]).
  destruct (PyStr.truthy s'); [|done].
  rewrite lookup_insert_ne; [done|]. by intros ->.
Qed.

Lemma lookup_fold_other (lookup : gmap string record) instruments serial :
  serial <> "" ->
  (forall other, other ∈ instruments ->
     PyDict.get other "Serial Number" <> Some (VStr serial)) ->
  foldl lookup_step lookup instruments !! serial = lookup !! serial.
Proof.
  intros Hne. revert lookup.
  induction instruments as [|instr rest IH]; intros lookup Hall; [done|].
  simpl. rewrite IH.
  - apply lookup_step_other; [done|]. apply Hall. left.
  - intros other Hin. apply Hall. by right.
Qed.

Lemma lookup_step_hit (lookup : gmap string record) instr serial :
  serial <> "" ->
  PyDict.get instr "Serial Number" = Some (VStr serial) ->
  lookup_step lookup instr !! serial = Some instr.
Proof.
  intros Hne Hget. unfold lookup_step, text_of. rewrite Hget. simpl.
  destruct serial; [done|]. simpl. apply lookup_insert_eq.
Qed.

(** The last instrument with a serial is the one the lookup holds. *)
Lemma instrument_lookup_last before instr after serial :
  serial <> "" ->
  PyDict.get instr "Serial Number" = Some (VStr serial) ->
  (forall other, other ∈ after ->
     PyDict.get other "Serial Number" <> Some (VStr serial)) ->
  instrument_lookup (before ++ instr :: after) !! serial = Some instr.
Proof.
  intros Hne Hget Hafter. unfold instrument_lookup.
  rewrite foldl_app. cbn [foldl].
  rewrite lookup_fold_other by done. by apply lookup_step_hit.
Qed.

Lemma instrument_lookup_none instruments serial :
  serial <> "" ->
  (forall instr, instr ∈ instruments ->
     PyDict.get instr "Serial Number" <> Some (VStr serial)) ->
  instrument_lookup instruments !! serial = None.
Proof.
  intros Hne Hall. unfold instrument_lookup.
  by rewrite lookup_fold_other.
Qed.

(** An entry of the lookup was put there by one of the instruments. *)
Lemma lookup_fold_sound instruments : forall (lookup : gmap string record) serial instr,
  foldl lookup_step lookup instruments !! serial = Some instr ->
  lookup !! serial = Some instr
  \/ (instr ∈ instruments
      /\ truthy (default VNone (PyDict.get instr "Serial Number")) = true
      /\ text_of instr "Serial Number" "" = serial).
Proof.
  induction instruments as [|x rest IH]; intros lookup serial instr Hl; [by left|].
  simpl in Hl. apply IH in Hl as [Hl|(Hin & Ht & Hk)].
  - unfold lookup_step in Hl.
    destruct (truthy (default VNone (PyDict.get x "Serial Number"))) eqn:Ht; [|by left].
    destruct (decide (text_of x "Serial Number" "" = serial)) as [<-|Hne].
    + rewrite lookup_insert_eq in Hl. injection Hl as <-.
      right. split_and!; [left|done..].
    + rewrite lookup_insert_ne in Hl by done. by left.
  - right. split_and!; [by right|done..].
Qed.

Lemma dock_docked_unit lookup station :
  PyDict.get (dock lookup station) "_docked_unit" =
  Some (let docked_serial :=
          PyStr.strip (text_of station "Instrument Currently Docked" "") in
        match (if PyStr.truthy docked_serial then lookup !! docked_serial else None) with
        | Some docked_instrument =>
            PyDict.get_default docked_instrument "Equipment Group" (VStr "N/A")
        | None => VNone
        end).
Proof.
  unfold dock. cbn zeta.
  destruct (if PyStr.truthy _ then _ else _); apply get_set_eq.
Qed.

Lemma truthy_nonempty s : PyStr.truthy s = true <-> s <> "".
Proof. by destruct s. Qed.

End DockFacts.

Section DockClaims.
Import App.
Context `{Library}.
Variable clock : nat -> datetime.

(** C6. For every docking station that [categorize_equipment] returns,
    with [docked] its currently-docked field stripped of surrounding
    whitespace: when [docked] is the serial number of an instrument of the
    returned list, the station's docked unit is the equipment group of the
    last such instrument in that list (the text N/A when that instrument
    has no equipment group field); when no returned instrument has that
    serial number, the docked unit is [None]. Nothing is raised. *)
Theorem docked_unit_from_serial equipment_list n instruments stations n' :
  categorize_equipment clock equipment_list n = (instruments, stations, n') ->
  forall station, station ∈ stations ->
    let docked := PyStr.strip (text_of station "Instrument Currently Docked" "") in
    (forall before instr after,
       instruments = before ++ instr :: after ->
       docked <> "" ->
       PyDict.get instr "Serial Number" = Some (VStr docked) ->
       (forall other, other ∈ after ->
          PyDict.get other "Serial Number" <> Some (VStr docked)) ->
       PyDict.get station "_docked_unit"
         = Some (PyDict.get_default instr "Equipment Group" (VStr "N/A"))
       /\ forall group, PyDict.get instr "Equipment Group" = Some group ->
            PyDict.get station "_docked_unit" = Some group)
    /\ ((forall instr, instr ∈ instruments ->
           PyDict.get instr "Serial Number" <> Some (VStr docked)) ->
        PyDict.get station "_docked_unit" = Some VNone).
Proof.
  intros Hcat station Hin docked.
  apply categorize_equipment_parts in Hcat
    as (_ & collected & docking_stations & _ & -> & _ & _).
  apply list_elem_of_fmap in Hin as (station0 & -> & _).
  subst docked. rewrite dock_text_of by done. rewrite dock_docked_unit. cbn zeta.
  set (docked := PyStr.strip (text_of station0 "Instrument Currently Docked" "")).
  split.
  - intros before instr after -> Hne Hserial Hlast.
    apply truthy_nonempty in Hne as Htruthy. rewrite Htruthy.
    rewrite (instrument_lookup_last before instr after docked) by done.
    split; [done|]. intros group Hgroup.
    unfold PyDict.get_default. by rewrite Hgroup.
  - intros Hnone. destruct (PyStr.truthy docked) eqn:Htruthy; [|done].
    apply truthy_nonempty in Htruthy.
    by rewrite instrument_lookup_none.
Qed.

(** C10. The lookup that [categorize_equipment] joins the docking stations
    against holds, under a key, an instrument of the returned list whose
    serial number field is present, not empty, and equal to the key; and a
    docking station whose stripped currently-docked field is empty gets
    the docked unit [None]. *)
Theorem lookup_skips_empty_serials equipment_list n instruments stations n' :
  categorize_equipment clock equipment_list n = (instruments, stations, n') ->
  (exists docking_stations,
     stations = dock (instrument_lookup instruments) <$> docking_stations)
  /\ (forall serial instr,
        instrument_lookup instruments !! serial = Some instr ->
        instr ∈ instruments /\ serial <> ""
        /\ PyDict.get instr "Serial Number" = Some (VStr serial))
  /\ (forall station, station ∈ stations ->
        PyStr.strip (text_of station "Instrument Currently Docked" "") = "" ->
        PyDict.get station "_docked_unit" = Some VNone).
Proof.
  intros Hcat.
  apply categorize_equipment_parts in Hcat
    as (_ & collected & docking_stations & Hperm & -> & HI & _).
  split_and!.
  - by exists docking_stations.
  - intros serial instr Hl. unfold instrument_lookup in Hl.
    apply lookup_fold_sound in Hl as [Hl|(Hin & Ht & Hk)]; [done|].
    split; [done|].
    rewrite Hperm in Hin. eapply Forall_forall in HI; [|exact Hin].
    destruct HI as (row & k & _ & _ & _ & -> & _).
    unfold text_of in Hk.
    rewrite annotate_get_raw in Ht, Hk |- * by done.
    destruct (PyDict.get row "Serial Number") as [s|]; simpl in *; [|done].
    subst s. split; [|done]. by apply truthy_nonempty.
  - intros station (station0 & -> & _)%list_elem_of_fmap Hempty.
    rewrite dock_text_of in Hempty by done.
    rewrite dock_docked_unit. cbn zeta. by rewrite Hempty.
Qed.

End DockClaims.

Section DockWitnesses.
Import App.

(** The station that reports [" ABC123 "] gets the unit of the instrument
    with the serial number ABC123. *)
Lemma docked_unit_from_serial_witness :
  Sample.station_DS1 ∈ Sample.stations
  /\ PyStr.strip (App.text_of Sample.station_DS1 "Instrument Currently Docked" "")
       = "ABC123"
  /\ PyDict.get Sample.instrument_ABC123 "Serial Number" = Some (App.VStr "ABC123")
  /\ PyDict.get Sample.station_DS1 "_docked_unit" = Some (App.VStr "Unit-7").
Proof.
  assert (Sample.station_DS1 ∈ Sample.stations) as Hin.
  { vm_compute. left. }
  split_and!; [exact Hin|reflexivity|reflexivity|].
  destruct (@docked_unit_from_serial Sample.library Sample.clock
              Sample.equipment_list 0 Sample.instruments Sample.stations 3
              eq_refl Sample.station_DS1 Hin) as [Hhit _].
  destruct (Hhit (take 2 Sample.instruments) Sample.instrument_ABC123 [])
    as [_ Hgroup].
  - vm_compute. reflexivity.
  - vm_compute. discriminate.
  - vm_compute. reflexivity.
  - intros other Hother. by apply elem_of_nil in Hother.
  - apply Hgroup. reflexivity.
Defined.

(** One sample instrument has an empty serial number; the lookup has no
    entry for it. *)
Lemma lookup_skips_empty_serials_witness :
  (forall serial instr,
     @App.instrument_lookup Sample.instruments !! serial = Some instr ->
     instr ∈ Sample.instruments /\ serial <> ""
     /\ PyDict.get instr "Serial Number" = Some (App.VStr serial))
  /\ length (filter (fun instr => PyDict.get instr "Serial Number" = Some (App.VStr ""))
                    Sample.instruments) = 1.
Proof.
  split.
  - exact (proj1 (proj2 (@lookup_skips_empty_serials Sample.library Sample.clock
                           Sample.equipment_list 0 Sample.instruments
                           Sample.stations 3 eq_refl))).
  - vm_compute. reflexivity.
Defined.

End DockWitnesses.

(** ** The session *)

Section LoginFacts.
Import Soup Http Scraper.
Context `{CookieLib}.
Variable urljoin : string -> string -> string.
Variable P : portal.

Lemma bindM_run {A B} (m : M A) (k : A -> M B) s :
  bindM m k s =
  match m s with
  | (Ok a, s') => k a s'
  | (Raise, s') => (Raise, s')
  end.
Proof. done. Qed.

Lemma catch_bind {A B} (m : M A) (k : A -> M B) v s :
  catch (bindM m k) v s =
  match m s with
  | (Ok a, s') => catch (k a) v s'
  | (Raise, s') => (Ok v, s')
  end.
Proof. unfold catch, bindM. by destruct (m s) as [[a|] s']. Qed.

Lemma add_cookie_cookie_file name value s r s' :
  add_cookie name value s = (r, s') -> cookie_file s' = cookie_file s.
Proof.
  unfold add_cookie, bindM, get_self, put_self, ret, raise. cbn.
  destruct (session (self s)) as [[[] ?]|]; cbn;
    [| destruct (legal_key name) |]; by intros [= <- <-].
Qed.

Lemma create_session_cookie_file s r s' :
  create_session s = (r, s') -> cookie_file s' = cookie_file s.
Proof.
  unfold create_session. rewrite bindM_run. unfold get_self at 1.
  destruct (match session (self s) with
            | Some ss => closed ss
            | None => true
            end); [|by intros [= <- <-]].
  destruct (load_jar new_jar (cookies (self s))) as [jar|];
    [|by intros [= <- <-]].
  rewrite !bindM_run. unfold put_self at 1.
  destruct (add_cookie "AWSALB" AWSALB_value _) as [[[]|] s1] eqn:H1;
    apply add_cookie_cookie_file in H1; cbn in H1.
  - intros H2. apply add_cookie_cookie_file in H2. congruence.
  - intros [= <- <-]. congruence.
Qed.

Lemma send_cookie_file rq s r s' :
  send P rq s = (r, s') ->
  cookie_file s' = cookie_file s
  /\ (forall response, r = Ok response -> is_Some (session (self s'))).
Proof.
  unfold send, bindM, get_self, put_self, ret, raise.
  destruct (session (self s)) as [ss|] eqn:Hs; cbn.
  - destruct (closed ss); [intros [= <- <-]; split; [done|by intros ? [=]]|].
    destruct (P rq (cookie_jar ss)) as [[answer|] jar]; cbn;
      intros [= <- <-]; (split; [done|]).
    + intros ? _. cbn. by eexists.
    + by intros ? [=].
  - intros [= <- <-]. split; [done|]. by intros ? [=].
Qed.

(** The submission leaves the cookie file alone; when it brings back a
    response, that response passed [raise_for_status] and the session is
    open. *)
Lemma submit_login_form_cookie_file login_url uf uv pf pv sb s r s' :
  submit_login_form urljoin P login_url uf uv pf pv sb s = (r, s') ->
  cookie_file s' = cookie_file s
  /\ (forall response, r = Ok (Some response) ->
        status_ok response = true /\ is_Some (session (self s'))).
Proof.
  unfold submit_login_form. unfold bindM at 1.
  destruct (create_session s) as [r0 s0] eqn:H0.
  apply create_session_cookie_file in H0.
  destruct r0 as [[]|]; [|intros [= <- <-]; split; [congruence|done]].
  unfold bindM at 1.
  destruct (send P _ s0) as [[r1|] s1] eqn:H1;
    apply send_cookie_file in H1 as [H1 _]; [|intros [= <- <-]; split; [congruence|done]].
  unfold bindM at 1. unfold raise_for_status at 1.
  destruct (status_ok r1); cbn; [|intros [= <- <-]; split; [congruence|done]].
  destruct (find "form" any (page r1)) as [form|]; cbn;
    [|intros [= <- <-]; split; [congruence|done]].
  unfold bindM at 1.
  destruct (send P _ s1) as [[r2|] s2] eqn:H2;
    apply send_cookie_file in H2 as [H2 Hopen];
    [|intros [= <- <-]; split; [congruence|done]].
  unfold bindM, raise_for_status, get_self, put_self, ret, raise.
  destruct (status_ok r2) eqn:Hok; cbn; intros [= <- <-]; (split; [cbn; congruence|]);
    [|done].
  intros ? [= <-]. split; [done|]. cbn. by eapply Hopen.
Qed.

(** [login] is the submission followed by the check of line 252. *)
Lemma login_after_submission login_url uf uv pf pv sb s :
  login urljoin P login_url uf uv pf pv sb s =
  match submit_login_form urljoin P login_url uf uv pf pv sb s with
  | (Ok (Some response), s') =>
      if still_on_login_page login_url (final_url response)
      then (Ok false, s')
      else (Ok true, (save_cookies s').2)
  | (_, s') => (Ok false, s')
  end.
Proof.
  unfold login, submit_login_form.
  rewrite catch_bind, bindM_run.
  destruct (create_session s) as [[[]|] s0]; [|done].
  rewrite catch_bind, bindM_run.
  destruct (send P _ s0) as [[r1|] s1]; [|done].
  rewrite catch_bind, bindM_run.
  destruct (raise_for_status r1 s1) as [[[]|] s1']; [|done].
  cbv zeta.
  destruct (find "form" any (page r1)) as [form|]; [|done].
  rewrite catch_bind, bindM_run.
  destruct (send P _ s1') as [[r2|] s2]; [|done].
  rewrite catch_bind, bindM_run.
  destruct (raise_for_status r2 s2) as [[[]|] s2']; [|done].
  rewrite catch_bind, bindM_run. unfold get_self at 1 2.
  rewrite catch_bind, bindM_run.
  destruct (put_self _ s2') as [[[]|] s3]; [|done].
  unfold ret at 3. cbv iota beta.
  destruct (still_on_login_page login_url (final_url r2)); [done|].
  unfold catch, bindM, ret, save_cookies.
  by destruct (session (self s3)).
Qed.

(** [close] writes the jar to the cookie file, whatever [login] returned. *)
Lemma close_persists_the_jar s sess :
  session (self s) = Some sess ->
  cookie_file (close s).2 = Some (cookie_dict (cookie_jar sess)).
Proof.
  intros Hsess. unfold close, bindM, save_cookies, get_self, put_self.
  by rewrite Hsess; cbn; rewrite Hsess.
Qed.

(** C9, amended. [login] never raises. It returns [True] exactly when the
    response to the submitted form arrives, passes [raise_for_status],
    and ended on a URL that neither contains the login URL nor contains
    the text login in any case; the cookie file then holds the cookies of
    the session's jar. In every other case it returns [False] and the
    cookie file is as it was before the call. Whatever [login] returned,
    the [close] that follows writes the cookies of the session's jar to
    the cookie file. *)
Theorem login_outcome_follows_final_url login_url uf uv pf pv sb s :
  exists outcome s',
    login urljoin P login_url uf uv pf pv sb s = (Ok outcome, s')
    /\ (outcome = true <->
        exists response s1,
          submit_login_form urljoin P login_url uf uv pf pv sb s
            = (Ok (Some response), s1)
          /\ status_ok response = true
          /\ still_on_login_page login_url (final_url response) = false)
    /\ (outcome = true ->
        exists sess,
          session (self s') = Some sess
          /\ cookie_file s' = Some (cookie_dict (cookie_jar sess)))
    /\ (outcome = false -> cookie_file s' = cookie_file s)
    /\ (forall sess,
         session (self s') = Some sess ->
         cookie_file (close s').2 = Some (cookie_dict (cookie_jar sess))).
Proof.
  cut (exists outcome s',
    login urljoin P login_url uf uv pf pv sb s = (Ok outcome, s')
    /\ (outcome = true <->
        exists response s1,
          submit_login_form urljoin P login_url uf uv pf pv sb s
            = (Ok (Some response), s1)
          /\ status_ok response = true
          /\ still_on_login_page login_url (final_url response) = false)
    /\ (outcome = true ->
        exists sess,
          session (self s') = Some sess
          /\ cookie_file s' = Some (cookie_dict (cookie_jar sess)))
    /\ (outcome = false -> cookie_file s' = cookie_file s)).
  { intros (outcome & s' & Hrun & Hiff & Hsaved & Hkept).
    exists outcome, s'. split_and!; [done..|].
    intros sess Hsess. by apply close_persists_the_jar. }
  rewrite login_after_submission.
  destruct (submit_login_form urljoin P login_url uf uv pf pv sb s)
    as [r s1] eqn:Hsub.
  apply submit_login_form_cookie_file in Hsub as [Hfile Hopen].
  destruct r as [[response|]|].
  - destruct (Hopen response eq_refl) as [Hok [sess Hsess]].
    destruct (still_on_login_page login_url (final_url response)) eqn:Hstill.
    + exists false, s1. split_and!; [done| |done|done].
      split; [done|]. intros (r & s2 & [= <- <-] & _ & Hr). congruence.
    + exists true, (save_cookies s1).2. split_and!; [done| | |done].
      * split; [|done]. intros _. by exists response, s1.
      * intros _. exists sess. unfold save_cookies. by rewrite Hsess.
  - exists false, s1. split_and!; [done| |done|done].
    split; [done|]. by intros (r & s2 & [=] & _).
  - exists false, s1. split_and!; [done| |done|done].
    split; [done|]. by intros (r & s2 & [=] & _).
Qed.

(** Whatever made [login] return [False], the cookie file is untouched. *)
Lemma login_failure_keeps_cookie_file login_url uf uv pf pv sb s s' :
  login urljoin P login_url uf uv pf pv sb s = (Ok false, s') ->
  cookie_file s' = cookie_file s.
Proof.
  rewrite login_after_submission.
  destruct (submit_login_form _ _ _ _ _ _ _ _ s) as [r s1] eqn:Hsub.
  apply submit_login_form_cookie_file in Hsub as [Hfile _].
  destruct r as [[response|]|]; try by intros [= <-].
  destruct (still_on_login_page _ _); by intros [= <-].
Qed.

Lemma catch_returns {A} (body : M A) (v : A) s :
  exists a s', catch body v s = (Ok a, s').
Proof. unfold catch. destruct (body s) as [[a|] s']; by eexists _, _. Qed.

Lemma close_returns s : exists s', close s = (Ok tt, s').
Proof.
  unfold close, bindM, save_cookies, get_self, put_self, ret.
  destruct (session (self s)) as [ss|] eqn:Hs; cbn; rewrite ?Hs; by eexists.
Qed.

(** Once the session is open, [scrape_table] does not raise: every failure
    inside its [try] comes out as a list. *)
Lemma scrape_table_returns_a_list password_value url table_id file :
  (create_session (init file)).1 = Ok tt ->
  exists results file',
    scrape_table urljoin P password_value url table_id file = (Ok results, file').
Proof.
  intros Hopen. unfold scrape_table. rewrite bindM_run.
  destruct (create_session (init file)) as [r0 s0] eqn:H0.
  cbn [fst] in Hopen. subst r0.
  rewrite bindM_run.
  destruct (catch_returns (scrape_table_body urljoin P password_value url table_id) [] s0)
    as (results & s1 & ->).
  rewrite bindM_run. destruct (close_returns s1) as [s2 ->].
  by eexists _, _.
Qed.

(** When the session cannot be opened, the exception leaves
    [scrape_table] and the cookie file stays as it was found. *)
Lemma scrape_table_raises password_value url table_id file :
  (create_session (init file)).1 = Raise ->
  scrape_table urljoin P password_value url table_id file = (Raise, file).
Proof.
  intros Hopen. unfold scrape_table. rewrite bindM_run.
  destruct (create_session (init file)) as [r0 s0] eqn:H0.
  cbn [fst] in Hopen. subst r0.
  by apply create_session_cookie_file in H0 as ->.
Qed.

(** A rejected login ends the body of [scrape_table] with the empty list. *)
Lemma rejected_login_gives_no_rows password_value url table_id s s1 s2 :
  check_if_logged_in P s = (Ok false, s1) ->
  login urljoin P login_url username_field username_value
        password_field password_value (Some submit_button) s1 = (Ok false, s2) ->
  scrape_table_body urljoin P password_value url table_id s = (Ok [], s2).
Proof.
  intros Hprobe Hlogin. unfold scrape_table_body.
  rewrite bindM_run, Hprobe, bindM_run, Hlogin. done.
Qed.

End LoginFacts.

(** C9, as stated, fails: the portal answers the submitted form with an
    error status from the address of the landing page, which has no login
    marker; [login] returns [False] and writes no cookie file. *)
Lemma error_status_off_the_login_page_fails :
  (forall rq jar,
     Http.meth rq = Http.POST ->
     (Sample.failing_portal rq jar).1
     = Some (Http.Response false Sample.landing_url Sample.error_page))
  /\ Scraper.still_on_login_page Scraper.login_url Sample.landing_url = false
  /\ ~ (exists s',
          @Scraper.login Sample.cookie_lib Sample.urljoin Sample.failing_portal
            Scraper.login_url Scraper.username_field Scraper.username_value
            Scraper.password_field "pw" (Some Scraper.submit_button)
            (Scraper.init None) = (Ok true, s'))
  /\ Scraper.cookie_file
       (@Scraper.login Sample.cookie_lib Sample.urljoin Sample.failing_portal
          Scraper.login_url Scraper.username_field Scraper.username_value
          Scraper.password_field "pw" (Some Scraper.submit_button)
          (Scraper.init None)).2 = None.
Proof.
  split_and!; [|vm_compute; reflexivity| |vm_compute; reflexivity].
  { intros rq jar Hpost. unfold Sample.failing_portal. by rewrite Hpost. }
  intros [s' Hlogin].
  apply (f_equal fst) in Hlogin. vm_compute in Hlogin. discriminate.
Qed.

(** ** The refresh cycle *)

Section PipelineFacts.
Import App.
Context `{Library} `{CookieLib}.

(** What a cycle leaves in [equipment_data], from what the scrape gave. *)
Lemma update_publishes_the_scrape w st equipment_list file :
  scrape_equipment w (cookie_file st) = (Some equipment_list, file) ->
  equipment_data (update_equipment_data w st) =
    let '(instruments, docking_stations, n) :=
      categorize_equipment (clock w) equipment_list (S (clock_reads st)) in
    [("instruments", Records instruments);
     ("docking_stations", Records docking_stations);
     ("last_update", Text (isoformat (clock w n)))].
Proof.
  intros Hscrape. unfold update_equipment_data. rewrite Hscrape.
  by destruct (categorize_equipment _ _ _) as [[instruments stations] n].
Qed.

(** The branch of line 241: only a scrape that returns [None] keeps the
    snapshot. *)
Lemma update_keeps_snapshot_on_None w st file :
  scrape_equipment w (cookie_file st) = (None, file) ->
  equipment_data (update_equipment_data w st) = equipment_data st.
Proof. intros Hscrape. unfold update_equipment_data. by rewrite Hscrape. Qed.

Lemma scrape_equipment_without_credentials w file :
  inet_username w = "" \/ inet_password w = "" ->
  scrape_equipment w file = (None, file).
Proof.
  intros Hcred. unfold scrape_equipment.
  by destruct Hcred as [-> | ->]; cbn; rewrite ?orb_true_r.
Qed.

(** With both credentials configured and a session that opens, the scrape
    returns a list, so the cycle does not take the branch that keeps the
    snapshot. *)
Lemma configured_cycle_publishes w file :
  inet_username w <> "" -> inet_password w <> "" ->
  (Scraper.create_session (Scraper.init file)).1 = Ok tt ->
  exists rows file', scrape_equipment w file = (Some rows, file').
Proof.
  intros Hu Hp Hopen. unfold scrape_equipment.
  apply truthy_nonempty in Hu as ->. apply truthy_nonempty in Hp as ->. cbn.
  destruct (scrape_table_returns_a_list urljoin (portal w) (password_value w)
              equipment_list_url Scraper.default_table_id file Hopen)
    as (results & file' & ->).
  by eexists _, _.
Qed.

(** When the session cannot be opened the scrape gives [None], with or
    without credentials, and the cookie file stays. *)
Lemma scrape_equipment_without_session w file :
  (Scraper.create_session (Scraper.init file)).1 = Raise ->
  scrape_equipment w file = (None, file).
Proof.
  intros Hopen. unfold scrape_equipment.
  destruct (negb _ || negb _); [done|].
  by rewrite (scrape_table_raises urljoin (portal w) (password_value w)
                equipment_list_url Scraper.default_table_id file Hopen).
Qed.

(** A scrape that comes back with no row, for whatever reason, puts an
    empty snapshot in place of the previous one. *)
Lemma update_after_empty_scrape w st file :
  scrape_equipment w (cookie_file st) = (Some [], file) ->
  equipment_data (update_equipment_data w st) =
    [("instruments", Records []); ("docking_stations", Records []);
     ("last_update", Text (isoformat (clock w (S (clock_reads st)))))].
Proof. intros Hscrape. by rewrite (update_publishes_the_scrape _ _ _ _ Hscrape). Qed.


End PipelineFacts.

Section PipelineExamples.
Import App.

(** C1, on the code. A cycle whose login is rejected, one that cannot
    reach the portal, one whose page has no grid and one whose grid has no
    header row each replace the published snapshot by an empty one with a
    new time; only the cycle without configured credentials leaves it as it
    was. *)
Theorem failed_cycle_replaces_snapshot :
  let empty_snapshot :=
    [("instruments", Records []); ("docking_stations", Records []);
     ("last_update", Text "2025-11-04T00:00:01")] in
  equipment_data Sample.published <> empty_snapshot
  /\ equipment_data (@update_equipment_data Sample.library Sample.cookie_lib
         (Sample.world false Sample.page_with_short_row) Sample.published)
       = empty_snapshot
  /\ equipment_data (@update_equipment_data Sample.library Sample.cookie_lib
         Sample.world_offline Sample.published)
       = empty_snapshot
  /\ equipment_data (@update_equipment_data Sample.library Sample.cookie_lib
         (Sample.world true Sample.page_without_table) Sample.published)
       = empty_snapshot
  /\ equipment_data (@update_equipment_data Sample.library Sample.cookie_lib
         (Sample.world true Sample.page_without_header) Sample.published)
       = empty_snapshot
  /\ equipment_data (@update_equipment_data Sample.library Sample.cookie_lib
         Sample.world_unconfigured Sample.published)
       = equipment_data Sample.published.
Proof. split_and!; [discriminate|vm_compute; reflexivity..]. Qed.



End PipelineExamples.

(** ** The background executions *)

Section BackgroundFacts.
Import App.

Lemma in_flight_started srv :
  in_flight (start_background_task srv) = S (in_flight srv).
Proof.
  unfold in_flight, start_background_task. cbn.
  rewrite filter_app, length_app, filter_cons_True by done. cbn. lia.
Qed.

(** C2, as stated, fails: with one cycle running, three calls of
    [refresh_data] by a logged-in client leave four running. *)
Lemma triggers_are_not_dropped :
  in_flight Sample.busy = 1
  /\ ~ in_flight (fire [true; true; true] Sample.busy).1 <= 1.
Proof. split; [reflexivity|]. change (~ 4 <= 1). lia. Qed.

(** C2, amended. Every call of [refresh_data] by a logged-in client starts
    one more background execution of [update_equipment_data] and answers
    refresh_started at once, without running the cycle itself and whatever
    is already running; a call by a client that is not logged in is sent to
    the login page and starts nothing. So after any calls the executions
    in flight are more than before by the number of calls from logged-in
    clients, none of which is dropped, the shared data is untouched, and
    each call has its answer. *)
Theorem refresh_data_always_starts_a_cycle callers srv :
  in_flight (fire callers srv).1
    = in_flight srv + length (filter (fun a => a = true) callers)
  /\ shared (fire callers srv).1 = shared srv
  /\ (fire callers srv).2
     = (fun authenticated : bool =>
          if authenticated then Json [("status", "refresh_started")] else ToLogin)
       <$> callers.
Proof.
  revert srv. induction callers as [|authenticated callers IH]; intros srv.
  - cbn. split_and!; [lia|done..].
  - cbn [fire]. unfold refresh_data.
    destruct authenticated.
    + destruct (IH (start_background_task srv)) as (Hcount & Hshared & Hanswers).
      destruct (fire callers (start_background_task srv)) as [srv' answers].
      cbn [fst snd] in *. rewrite in_flight_started in Hcount.
      rewrite filter_cons_True by done. cbn [length].
      split_and!; [lia|done|by rewrite Hanswers].
    + destruct (IH srv) as (Hcount & Hshared & Hanswers).
      destruct (fire callers srv) as [srv' answers].
      cbn [fst snd] in *. rewrite filter_cons_False by done.
      split_and!; [lia|done|by rewrite Hanswers].
Qed.

(** An execution that was started runs the whole cycle on the shared
    data when it comes to its end. *)
Lemma started_cycle_runs `{Library} `{CookieLib} w i srv :
  background srv !! i = Some InFlight ->
  shared (complete w i srv) = update_equipment_data w (shared srv).
Proof. intros Hi. unfold complete. by rewrite Hi. Qed.

End BackgroundFacts.

(* ================================================================== *)
(** * Further properties *)

(** ** Dictionaries without repeated keys *)

Section DictKeys.
Context {V : Type}.
Implicit Types (d : PyDict.dict V) (k : string) (v : V).

Lemma keys_set_elem d k v k' :
  k' ∈ PyDict.keys (PyDict.set d k v) <-> k' = k \/ k' ∈ PyDict.keys d.
Proof.
  rewrite keys_set. unfold PyDict.mem.
  destruct (PyDict.get d k) as [v0|] eqn:Hget.
  - split; [by right|]. intros [->|?]; [|done].
    destruct (decide (k ∈ PyDict.keys d)) as [|Hnin]; [done|].
    apply get_None_keys in Hnin. congruence.
  - rewrite elem_of_app, list_elem_of_singleton. tauto.
Qed.

Lemma keys_set_NoDup d k v :
  NoDup (PyDict.keys d) -> NoDup (PyDict.keys (PyDict.set d k v)).
Proof.
  intros Hnd. rewrite keys_set. unfold PyDict.mem.
  destruct (PyDict.get d k) as [v0|] eqn:Hget; [done|].
  apply get_None_keys in Hget.
  apply NoDup_app. split_and!; [done| |apply NoDup_singleton].
  intros x Hx ->%list_elem_of_singleton. done.
Qed.

Lemma assign_all_keys (pairs : list (string * V)) d k :
  k ∈ PyDict.keys (foldl (fun d kv => PyDict.set d kv.1 kv.2) d pairs)
  <-> k ∈ PyDict.keys d \/ k ∈ pairs.*1.
Proof.
  revert d. induction pairs as [|[k0 v0] pairs IH]; intros d; simpl.
  - rewrite elem_of_nil. tauto.
  - rewrite IH, keys_set_elem, elem_of_cons. tauto.
Qed.

Lemma assign_all_NoDup (pairs : list (string * V)) d :
  NoDup (PyDict.keys d) ->
  NoDup (PyDict.keys (foldl (fun d kv => PyDict.set d kv.1 kv.2) d pairs)).
Proof.
  revert d. induction pairs as [|[k0 v0] pairs IH]; intros d Hnd; simpl; [done|].
  by apply IH, keys_set_NoDup.
Qed.

End DictKeys.

(** ** The cookie methods *)

Section CookieFacts.
Import Soup Http Scraper Cookies.
Context `{CookieLib}.

Lemma add_cookie_run name value s :
  add_cookie name value s =
  let cs := PyDict.set (cookies (self s)) name value in
  let kept :=
    State (Scraper_ (session (self s)) cs (current_url (self s))
                    (current_response (self s)))
          (cookie_file s) in
  match session (self s) with
  | Some ss =>
      if closed ss then (Ok tt, kept)
      else if legal_key name then
        (Ok tt,
         State (Scraper_ (Some (Session false (jar_update (cookie_jar ss) name value)))
                         cs (current_url (self s)) (current_response (self s)))
               (cookie_file s))
      else (Raise, kept)
  | None => (Ok tt, kept)
  end.
Proof.
  unfold add_cookie, bindM, get_self, put_self, ret, raise. cbn.
  destruct (session (self s)) as [[[] jar]|]; cbn; [done| |done].
  by destruct (legal_key name).
Qed.

Local Ltac fields :=
  cbv zeta;
  cbn [self session closed cookie_jar cookies current_url current_response
       cookie_file].

Lemma create_session_run s :
  create_session s =
  if is_open s then (Ok tt, s)
  else
    match load_jar new_jar (cookies (self s)) with
    | Ok jar =>
        bindM (add_cookie "AWSALB" AWSALB_value)
              (fun _ => add_cookie "AWSALBCORS" AWSALB_value)
              (State (Scraper_ (Some (Session false jar)) (cookies (self s))
                               (current_url (self s)) (current_response (self s)))
                     (cookie_file s))
    | Raise => (Raise, s)
    end.
Proof.
  unfold create_session, is_open. rewrite bindM_run. unfold get_self at 1.
  destruct (session (self s)) as [[[] jar]|]; cbn [closed negb]; [|done|];
    by destruct (load_jar new_jar (cookies (self s))).
Qed.

Lemma load_jar_legal cs jar :
  legal_names cs = true -> exists jar', load_jar jar cs = Ok jar'.
Proof.
  unfold legal_names, PyDict.keys. revert jar.
  induction cs as [|[name value] cs IH]; intros jar; cbn; [by eexists|].
  intros [-> Hrest]%andb_true_iff. by apply IH.
Qed.

Lemma load_jar_illegal cs jar :
  legal_names cs = false -> load_jar jar cs = Raise.
Proof.
  unfold legal_names, PyDict.keys. revert jar.
  induction cs as [|[name value] cs IH]; intros jar; cbn; [done|].
  destruct (legal_key name); cbn; [by apply IH|done].
Qed.

(** A session that [create_session] opened is open. *)
Lemma create_session_opens s s1 :
  create_session s = (Ok tt, s1) -> is_open s1 = true.
Proof.
  rewrite create_session_run.
  destruct (is_open s) eqn:Hopen; [by intros [= <-]|].
  destruct (load_jar new_jar (cookies (self s))) as [jar|]; [|done].
  rewrite bindM_run, add_cookie_run. fields.
  destruct (legal_key "AWSALB"); [|done].
  rewrite add_cookie_run. fields.
  destruct (legal_key "AWSALBCORS"); [|done].
  by intros [= <-].
Qed.

Lemma create_session_illegal file :
  legal_names (default [] file) = false ->
  create_session (init file) = (Raise, init file).
Proof.
  intros Hnames. rewrite create_session_run. cbn.
  by rewrite load_jar_illegal.
Qed.

(** X1. [add_cookie] always records the pair in the dictionary of the
    object and leaves the cookie file alone. It raises exactly when a
    session is open and the name is not a legal cookie key, and then, as
    without an open session, the session is left as it was. Without an
    open session [get_cookies] gives the value under the name
    afterwards. *)
Theorem add_cookie_records_the_cookie s name value :
  PyDict.get (cookies (self (add_cookie name value s).2)) name = Some value
  /\ (forall other, other <> name ->
       PyDict.get (cookies (self (add_cookie name value s).2)) other
       = PyDict.get (cookies (self s)) other)
  /\ cookie_file (add_cookie name value s).2 = cookie_file s
  /\ ((add_cookie name value s).1 = Raise
      <-> is_open s = true /\ legal_key name = false)
  /\ (is_open s && legal_key name = false ->
      session (self (add_cookie name value s).2) = session (self s))
  /\ (is_open s = false ->
      PyDict.get (get_cookies (add_cookie name value s).2) name = Some value).
Proof.
  rewrite add_cookie_run. unfold is_open, get_cookies.
  destruct s as [[[[[] jar]|] cs url resp] file]; fields; cbn [negb andb];
    [|destruct (legal_key name) eqn:Hlegal|];
    cbn [fst snd self session cookies closed cookie_file negb andb];
    (split_and!;
       [apply get_set_eq
       |intros other Hne; by apply get_set_ne
       |done
       |split; [done|intros [? ?]; done]
       |done
       |try done; intros _; apply get_set_eq]).
Qed.

(** X2. [create_session] leaves an open session as it is. Without an open
    session it builds one when every stored cookie name is a legal key,
    and calling it again then changes nothing; when a stored name is not a
    legal key it raises and leaves the object without the session, as it
    was. The cookie file is not touched. *)
Theorem create_session_once s :
  legal_key "AWSALB" = true ->
  legal_key "AWSALBCORS" = true ->
  if is_open s then create_session s = (Ok tt, s)
  else if legal_names (cookies (self s)) then
    exists s1,
      create_session s = (Ok tt, s1)
      /\ is_open s1 = true
      /\ create_session s1 = (Ok tt, s1)
      /\ cookie_file s1 = cookie_file s
  else create_session s = (Raise, s).
Proof.
  intros HA HB.
  destruct (is_open s) eqn:Hopen; [by rewrite create_session_run, Hopen|].
  destruct (legal_names (cookies (self s))) eqn:Hnames.
  - destruct (create_session s) as [r s1] eqn:Hrun.
    pose proof (create_session_cookie_file _ _ _ Hrun) as Hfile.
    assert (r = Ok tt) as ->.
    { rewrite create_session_run, Hopen in Hrun.
      destruct (load_jar_legal _ new_jar Hnames) as [jar Hjar].
      rewrite Hjar, bindM_run, add_cookie_run in Hrun. revert Hrun. fields.
      rewrite HA, add_cookie_run. fields. rewrite HB.
      by intros [= <- _]. }
    exists s1. pose proof (create_session_opens _ _ Hrun) as Hopen1.
    split_and!; [done..| |done].
    by rewrite create_session_run, Hopen1.
  - by rewrite create_session_run, Hopen, load_jar_illegal.
Qed.

End CookieFacts.

(** A scraper over a cookie file with a name that is not a legal key, and
    one over a file with a ticket. *)
Lemma create_session_once_witness :
  @Scraper.create_session Sample.cookie_lib
    (Scraper.init (Some [("session id", "0vkq")]))
  = (Raise, Scraper.init (Some [("session id", "0vkq")]))
  /\ exists s1,
      @Scraper.create_session Sample.cookie_lib
        (Scraper.init (Some [(".ASPXAUTH", "6F1A")])) = (Ok tt, s1)
      /\ Cookies.is_open s1 = true
      /\ Scraper.create_session s1 = (Ok tt, s1)
      /\ Scraper.cookie_file s1 = Some [(".ASPXAUTH", "6F1A")].
Proof.
  split.
  - exact (@create_session_once Sample.cookie_lib
             (Scraper.init (Some [("session id", "0vkq")])) eq_refl eq_refl).
  - exact (@create_session_once Sample.cookie_lib
             (Scraper.init (Some [(".ASPXAUTH", "6F1A")])) eq_refl eq_refl).
Defined.

(** ** [scrape_table] and the cookie file *)

Section ScrapeFacts.
Import Soup Http Scraper Cookies.
Context `{CookieLib}.
Variable urljoin : string -> string -> string.
Variable P : portal.

(** X4. A cookie file with a name that is not a legal cookie key stops
    [scrape_table] before any request: the exception of line 62 leaves it
    from [async with], outside its [try], and the cookie file is left as it
    was found. *)
Theorem illegal_cookie_name_stops_the_scrape password_value url table_id file :
  legal_names (default [] file) = false ->
  scrape_table urljoin P password_value url table_id file = (Raise, file).
Proof.
  intros Hnames. apply scrape_table_raises.
  by rewrite create_session_illegal.
Qed.

Lemma send_answer rq s response s' :
  send P rq s = (Ok response, s') ->
  exists jar, (P rq jar).1 = Some response.
Proof.
  unfold send, bindM, get_self, put_self, ret, raise.
  destruct (session (self s)) as [[[] jar]|]; cbn; try by intros [=].
  destruct (P rq jar) as [[resp|] jar'] eqn:HP; cbn; [|by intros [=]].
  intros [= -> _]. exists jar. by rewrite HP.
Qed.

Lemma scrape_table_body_without_page password_value url table_id s r s' :
  (forall jar, match (P (Request GET url []) jar).1 with
               | Some response => status_ok response = false
               | None => True
               end) ->
  scrape_table_body urljoin P password_value url table_id s = (r, s') ->
  r = Ok [] \/ r = Raise.
Proof.
  intros Hpage. unfold scrape_table_body. rewrite bindM_run.
  destruct (check_if_logged_in P s) as [[logged_in|] s1]; [|intros [= <- _]; by right].
  rewrite bindM_run.
  destruct ((if logged_in then ret true else _) s1) as [[proceed|] s2];
    [|intros [= <- _]; by right].
  destruct proceed; cbn [negb]; [|intros [= <- _]; by left].
  rewrite bindM_run.
  destruct (create_session s2) as [[[]|] s3]; [|intros [= <- _]; by right].
  rewrite bindM_run.
  destruct (send P _ s3) as [[response|] s4] eqn:Hsend; [|intros [= <- _]; by right].
  apply send_answer in Hsend as [jar HP].
  specialize (Hpage jar). rewrite HP in Hpage.
  rewrite bindM_run. unfold raise_for_status. rewrite Hpage.
  intros [= <- _]. by right.
Qed.

(** X5. Once the session is open (no stored cookie name is refused), and
    when the equipment page cannot be had (the request raises, or the
    answer has an error status, whatever cookies go with it),
    [scrape_table] returns the empty list; it does not raise. *)
Theorem scrape_table_without_page password_value url table_id file :
  (create_session (init file)).1 = Ok tt ->
  (forall jar, match (P (Request GET url []) jar).1 with
               | Some response => status_ok response = false
               | None => True
               end) ->
  (scrape_table urljoin P password_value url table_id file).1 = Ok [].
Proof.
  intros Hopen Hpage. unfold scrape_table. rewrite bindM_run.
  destruct (create_session (init file)) as [r0 s0] eqn:Hcs.
  cbn [fst] in Hopen. subst r0.
  rewrite bindM_run. unfold catch at 1.
  destruct (scrape_table_body urljoin P password_value url table_id s0)
    as [r1 s1] eqn:Hbody.
  destruct (close_returns s1) as [s2 Hclose].
  apply (scrape_table_body_without_page _ _ _ _ _ _ Hpage) in Hbody as [-> | ->];
    by rewrite bindM_run, Hclose.
Qed.

(** X6. When the stored cookies still open the portal (the probe does not
    end on a URL with a login marker) and the equipment page arrives, no
    login is made: [scrape_table] returns the extraction of that page, and
    the cookie file it leaves holds the cookies of the jar after the two
    exchanges. *)
Theorem scrape_table_with_valid_session password_value url table_id file
    jar0 probe jar1 response jar2 :
  first_jar file = Some jar0 ->
  P (Request GET "https://inet.indsci.com/Dashboard/LandingPage.aspx" []) jar0
    = (Some probe, jar1) ->
  PyStr.contains "login" (PyStr.lower (final_url probe)) = false ->
  PyStr.contains "Login.aspx" (final_url probe) = false ->
  P (Request GET url []) jar1 = (Some response, jar2) ->
  status_ok response = true ->
  exists results,
    Extract.extract_table (page response) table_id = Ok results
    /\ scrape_table urljoin P password_value url table_id file
       = (Ok results, Some (cookie_dict jar2)).
Proof.
  intros Hfirst Hprobe Hm1 Hm2 Hpage Hok.
  assert (exists results, Extract.extract_table (page response) table_id = Ok results)
    as [results Hres].
  { unfold Extract.extract_table.
    destruct (find "table" _ _) as [table|]; [|by eexists].
    destruct (find "tr" _ table) as [header_row|]; [|by eexists].
    rewrite extract_rows_kept. by eexists. }
  exists results. split; [done|].
  unfold first_jar in Hfirst.
  unfold scrape_table. rewrite bindM_run.
  destruct (create_session (init file)) as [[[]|] s0] eqn:Hcs; [|done].
  pose proof (create_session_opens _ _ Hcs) as Hopen.
  unfold is_open in Hopen.
  destruct s0 as [[[[closed0 j0]|] cs0 url0 resp0] file0]; cbn in Hfirst, Hopen;
    [|done].
  injection Hfirst as ->. destruct closed0; [done|]. clear Hopen.
  rewrite bindM_run. unfold catch at 1. unfold scrape_table_body.
  rewrite bindM_run. unfold check_if_logged_in.
  rewrite catch_bind, create_session_run. cbn [is_open self session closed negb].
  rewrite catch_bind. unfold send at 1, bindM at 1, get_self at 1.
  cbn [self session closed cookie_jar]. rewrite Hprobe.
  unfold bindM at 1, put_self at 1, ret at 1.
  rewrite Hm1, Hm2. cbn [orb]. unfold catch at 1, ret at 1.
  rewrite bindM_run. unfold ret at 1. cbn [negb].
  rewrite bindM_run, create_session_run. cbn [is_open self session closed negb].
  rewrite bindM_run. unfold send at 1, bindM at 1, get_self at 1.
  cbn [self session closed cookie_jar]. rewrite Hpage.
  unfold bindM at 1, put_self at 1, ret at 1.
  rewrite bindM_run. unfold raise_for_status. rewrite Hok. unfold ret at 1.
  rewrite Hres. unfold ret at 1.
  rewrite bindM_run. unfold close, bindM, save_cookies, get_self, put_self, ret.
  done.
Qed.

(** X7. The clear-cookies command does not leave the portal without a
    cookie file. When the session opens, [clear_cookies] removes the file
    and [close], on the way out, writes the emptied jar, so the file ends
    as the empty dictionary whatever it held. When the file has a name
    that is not a legal cookie key, the command raises on the way in and
    the file stays as it was. *)
Theorem clear_cookies_async_outcome file :
  (forall jar, jar_items (jar_clear jar) = []) ->
  match (create_session (init file)).1 with
  | Ok _ => clear_cookies_async file = (Ok tt, Some [])
  | Raise => clear_cookies_async file = (Raise, file)
  end.
Proof.
  intros Hclear. unfold clear_cookies_async. rewrite !bindM_run.
  destruct (create_session (init file)) as [[[]|] s0] eqn:Hcs; cbn [fst].
  - pose proof (create_session_opens _ _ Hcs) as Hopen. unfold is_open in Hopen.
    destruct s0 as [[[[closed0 j0]|] cs0 url0 resp0] file0]; cbn in Hopen; [|done].
    unfold clear_cookies, close, bindM, save_cookies, get_self, put_self. cbn.
    unfold cookie_dict. by rewrite Hclear.
  - by apply create_session_cookie_file in Hcs as ->.
Qed.

End ScrapeFacts.

(** The sample portal, met with a cookie file that has a space in a name. *)
Lemma illegal_cookie_name_stops_the_scrape_witness :
  @Scraper.scrape_table Sample.cookie_lib Sample.urljoin
    (Sample.portal (Some "pw") Sample.page_with_short_row) "pw"
    App.equipment_list_url Scraper.default_table_id
    (Some [("session id", "0vkq")])
  = (Raise, Some [("session id", "0vkq")]).
Proof. by apply illegal_cookie_name_stops_the_scrape. Defined.

(** The portal that cannot be reached gives no row. *)
Lemma scrape_table_without_page_witness :
  (@Scraper.scrape_table Sample.cookie_lib Sample.urljoin Sample.unreachable "pw"
     App.equipment_list_url Scraper.default_table_id None).1 = Ok [].
Proof. by apply scrape_table_without_page. Defined.

(** The sample portal, met with its ticket in the cookie file. *)
Lemma scrape_table_with_valid_session_witness :
  exists results,
    Extract.extract_table Sample.page_with_short_row Scraper.default_table_id
      = Ok results
    /\ (@Scraper.scrape_table Sample.cookie_lib Sample.urljoin
          (Sample.portal (Some "pw") Sample.page_with_short_row) "pw"
          App.equipment_list_url Scraper.default_table_id
          (Some [(".ASPXAUTH", "6F1A")])).1 = Ok results.
Proof.
  destruct (@scrape_table_with_valid_session Sample.cookie_lib Sample.urljoin
              (Sample.portal (Some "pw") Sample.page_with_short_row) "pw"
              App.equipment_list_url Scraper.default_table_id
              (Some [(".ASPXAUTH", "6F1A")])
              _
              (Http.Response true Sample.landing_url Sample.dashboard_page)
              _
              (Http.Response true App.equipment_list_url Sample.page_with_short_row)
              _
              eq_refl eq_refl eq_refl eq_refl eq_refl eq_refl)
    as (results & Hres & Hscrape).
  exists results. split; [exact Hres|]. by rewrite Hscrape.
Defined.

(** The sample jar is empty after [clear]; the command over a file with a
    ticket. *)
Lemma clear_cookies_async_outcome_witness :
  @Cookies.clear_cookies_async Sample.cookie_lib (Some [(".ASPXAUTH", "6F1A")])
  = (Ok tt, Some []).
Proof.
  exact (@clear_cookies_async_outcome Sample.cookie_lib
           (Some [(".ASPXAUTH", "6F1A")]) (fun _ => eq_refl)).
Defined.

(** ** The order of strings and of sort keys *)

Section OrderFacts.
Import App Categories.

Lemma nat_of_ascii_inj a b : nat_of_ascii a = nat_of_ascii b -> a = b.
Proof.
  intros Heq. rewrite <- (ascii_nat_embedding a), <- (ascii_nat_embedding b).
  by rewrite Heq.
Qed.

Lemma ltb_irrefl a : PyStr.ltb a a = false.
Proof.
  induction a as [|c a IH]; [done|]. simpl.
  by rewrite Nat.ltb_irrefl.
Qed.

Lemma ltb_trans a b c :
  PyStr.ltb a b = true -> PyStr.ltb b c = true -> PyStr.ltb a c = true.
Proof.
  revert b c. induction a as [|x a IH]; intros [|y b] [|z c]; simpl; try done.
  destruct (nat_of_ascii x <? nat_of_ascii y) eqn:Hxy,
           (nat_of_ascii y <? nat_of_ascii x) eqn:Hyx,
           (nat_of_ascii y <? nat_of_ascii z) eqn:Hyz,
           (nat_of_ascii z <? nat_of_ascii y) eqn:Hzy,
           (nat_of_ascii x <? nat_of_ascii z) eqn:Hxz,
           (nat_of_ascii z <? nat_of_ascii x) eqn:Hzx;
    try done;
    rewrite ?Nat.ltb_lt, ?Nat.ltb_ge in *; try lia.
  apply IH.
Qed.

Lemma ltb_total a b :
  a <> b -> PyStr.ltb a b = true \/ PyStr.ltb b a = true.
Proof.
  revert b. induction a as [|x a IH]; intros [|y b] Hne; simpl; try tauto.
  destruct (nat_of_ascii x <? nat_of_ascii y) eqn:Hxy; [by left|].
  destruct (nat_of_ascii y <? nat_of_ascii x) eqn:Hyx; [by right|].
  rewrite Nat.ltb_ge in *.
  assert (x = y) as -> by (apply nat_of_ascii_inj; lia).
  apply IH. congruence.
Qed.

Lemma key_lt_irrefl k : key_lt k k = false.
Proof. unfold key_lt. by rewrite !ltb_irrefl, andb_false_r. Qed.

Lemma key_lt_trans k1 k2 k3 :
  key_lt k1 k2 = true -> key_lt k2 k3 = true -> key_lt k1 k3 = true.
Proof.
  destruct k1 as [a1 b1], k2 as [a2 b2], k3 as [a3 b3]. unfold key_lt. simpl.
  rewrite !orb_true_iff, !andb_true_iff, !bool_decide_eq_true.
  intros [H12|[-> H12]] [H23|[-> H23]]; eauto using ltb_trans.
Qed.

Lemma key_lt_total k1 k2 :
  k1 <> k2 -> key_lt k1 k2 = true \/ key_lt k2 k1 = true.
Proof.
  destruct k1 as [a1 b1], k2 as [a2 b2]. unfold key_lt. simpl.
  rewrite !orb_true_iff, !andb_true_iff, !bool_decide_eq_true. intros Hne.
  destruct (decide (a1 = a2)) as [->|Ha].
  - destruct (ltb_total b1 b2) as [?|?]; [congruence|tauto..].
  - destruct (ltb_total a1 a2 Ha); tauto.
Qed.

Lemma key_lt_le x y : key_lt (sort_key x) (sort_key y) = true -> key_le x y.
Proof.
  intros Hlt. unfold key_le.
  destruct (key_lt (sort_key y) (sort_key x)) eqn:Hgt; [|done].
  pose proof (key_lt_trans _ _ _ Hlt Hgt) as Hxx.
  by rewrite key_lt_irrefl in Hxx.
Qed.

Lemma key_lt_le_trans x y z :
  key_lt (sort_key x) (sort_key y) = true -> key_le y z ->
  key_lt (sort_key x) (sort_key z) = true.
Proof.
  unfold key_le. intros Hxy Hyz.
  destruct (decide (sort_key y = sort_key z)) as [<-|Hne]; [done|].
  destruct (key_lt_total _ _ Hne) as [Hlt|Hgt]; [|congruence].
  by eapply key_lt_trans.
Qed.

(** Inserting keeps a sorted list sorted. *)
Lemma insert_sorted_sorted x l :
  StronglySorted key_le l -> StronglySorted key_le (insert_sorted x l).
Proof.
  induction 1 as [|y l Hl IH Hy]; simpl.
  - by repeat constructor.
  - destruct (key_lt (sort_key x) (sort_key y)) eqn:Hxy.
    + constructor; [by constructor|]. constructor; [by apply key_lt_le|].
      eapply Forall_impl; [exact Hy|]. intros z Hyz.
      by apply key_lt_le, (key_lt_le_trans x y z).
    + constructor; [done|]. rewrite insert_sorted_perm. by constructor.
Qed.

Lemma sort_by_key_sorted l : StronglySorted key_le (sort_by_key l).
Proof.
  unfold sort_by_key.
  enough (forall acc, StronglySorted key_le acc ->
            StronglySorted key_le (foldl (fun sorted x => insert_sorted x sorted) acc l))
    as Hgen by apply Hgen, SSorted_nil.
  induction l as [|x l IH]; intros acc Hacc; simpl; [done|].
  by apply IH, insert_sorted_sorted.
Qed.

Lemma filter_none {A} (Q : A -> Prop) `{forall x, Decision (Q x)} (l : list A) :
  Forall (fun x => ~ Q x) l -> filter Q l = [].
Proof.
  induction 1 as [|x l Hx _ IH]; [done|]. by rewrite filter_cons_False.
Qed.

(** An element goes behind the elements with its own key. *)
Lemma insert_sorted_stable k x l :
  StronglySorted key_le l ->
  filter (fun y => sort_key y = k) (insert_sorted x l) =
  filter (fun y => sort_key y = k) l ++ filter (fun y => sort_key y = k) [x].
Proof.
  induction 1 as [|y l Hl IH Hy]; [done|].
  simpl. destruct (key_lt (sort_key x) (sort_key y)) eqn:Hxy.
  - destruct (decide (sort_key x = k)) as [Hk|Hk].
    + assert (filter (fun z => sort_key z = k) (y :: l) = []) as Hnone.
      { apply filter_none, Forall_cons. subst k. split.
        - intros Heq. rewrite Heq, key_lt_irrefl in Hxy. done.
        - eapply Forall_impl; [exact Hy|]. intros z Hyz Heq.
          pose proof (key_lt_le_trans x y z Hxy Hyz) as Hxz.
          by rewrite Heq, key_lt_irrefl in Hxz. }
      rewrite (filter_cons_True _ x) by done. rewrite Hnone.
      by rewrite (filter_cons_True _ x []) by done.
    + rewrite (filter_cons_False _ x) by done.
      rewrite (filter_cons_False _ x []) by done. by rewrite app_nil_r.
  - rewrite !(filter_cons _ y), IH. by destruct (decide (sort_key y = k)).
Qed.

Lemma sort_by_key_stable k l :
  filter (fun y => sort_key y = k) (sort_by_key l) =
  filter (fun y => sort_key y = k) l.
Proof.
  unfold sort_by_key.
  enough (forall acc, StronglySorted key_le acc ->
            filter (fun y => sort_key y = k)
                   (foldl (fun sorted x => insert_sorted x sorted) acc l)
            = filter (fun y => sort_key y = k) acc
              ++ filter (fun y => sort_key y = k) l)
    as Hgen by apply (Hgen []), SSorted_nil.
  induction l as [|x l IH]; intros acc Hacc; simpl.
  - by rewrite app_nil_r.
  - rewrite IH by (by apply insert_sorted_sorted).
    rewrite insert_sorted_stable by done.
    rewrite <- app_assoc. f_equal. by rewrite <- filter_app.
Qed.

End OrderFacts.

(** ** What [categorize_equipment] keeps, drops and orders *)

Section PartitionFacts.
Import App Categories.
Context `{Library}.
Variable clock : nat -> datetime.

Lemma annotate_cells_kept row n : cells_kept row (annotate clock row n).1.
Proof. intros key H1 H2 _. by apply annotate_get_raw. Qed.

Lemma dock_cells_kept lookup row station :
  cells_kept row station -> cells_kept row (dock lookup station).
Proof.
  intros Hkept key H1 H2 H3. rewrite dock_get_other by done. by apply Hkept.
Qed.

Lemma cells_kept_text_of row item key :
  key <> "_days_until_calibration" -> key <> "_calibration_status" ->
  key <> "_docked_unit" ->
  cells_kept row item ->
  text_of item key "" = PyDict.get_default row key "".
Proof.
  intros H1 H2 H3 Hkept. unfold text_of, PyDict.get_default.
  rewrite (Hkept key) by done. by destruct (PyDict.get row key).
Qed.

Lemma cells_kept_sort_key row item :
  cells_kept row item ->
  sort_key item = (PyDict.get_default row "Equipment Group" "",
                   PyDict.get_default row "Type" "").
Proof.
  intros Hkept. unfold sort_key. by rewrite !(cells_kept_text_of row).
Qed.

(** The loop of lines 149-195 files every row of the two categories, in
    order, and no other row. *)
Lemma categorize_fold_rows rows : forall instruments docking_stations n I' D' n',
  foldl (categorize_step clock) (instruments, docking_stations, n) rows = (I', D', n') ->
  exists Inew Dnew,
    I' = instruments ++ Inew /\ D' = docking_stations ++ Dnew
    /\ Forall2 cells_kept (filter (is_category "instrument") rows) Inew
    /\ Forall2 cells_kept (filter (is_category "docking station") rows) Dnew.
Proof.
  induction rows as [|row rest IH]; intros I D n I' D' n' Hfold.
  - simpl in Hfold. injection Hfold as <- <- <-.
    exists [], []. by rewrite !app_nil_r.
  - cbn [foldl] in Hfold. unfold categorize_step at 2 in Hfold.
    pose proof (annotate_cells_kept row n) as Hkept.
    destruct (annotate clock row n) as [item n1]. cbn [fst] in Hkept.
    destruct (decide (_ = "instrument")) as [Hi|Hi];
      [|destruct (decide (_ = "docking station")) as [Hd|Hd]];
      apply IH in Hfold as (Inew & Dnew & -> & -> & HI & HD).
    + exists (item :: Inew), Dnew. rewrite <- app_assoc.
      rewrite filter_cons_True by done.
      rewrite (filter_cons_False (is_category "docking station"))
        by (unfold is_category; congruence).
      split_and!; [done..| |done]. by constructor.
    + exists Inew, (item :: Dnew). rewrite <- app_assoc.
      rewrite filter_cons_False by done.
      rewrite (filter_cons_True (is_category "docking station")) by done.
      split_and!; [done..|]. by constructor.
    + exists Inew, Dnew. by rewrite !filter_cons_False by done.
Qed.

(** What [categorize_equipment] returns, from the rows of each category. *)
Lemma categorize_equipment_rows equipment_list n instruments stations n' :
  categorize_equipment clock equipment_list n = (instruments, stations, n') ->
  exists collected docking_stations,
    instruments = sort_by_key collected
    /\ stations = dock (instrument_lookup instruments) <$> docking_stations
    /\ Forall2 cells_kept (filter (is_category "instrument") equipment_list) collected
    /\ Forall2 cells_kept (filter (is_category "docking station") equipment_list)
               docking_stations.
Proof.
  unfold categorize_equipment. destruct equipment_list as [|row rest].
  - intros [= <- <- <-]. exists [], []. split_and!; by try constructor.
  - generalize (row :: rest). clear row rest. intros rows.
    destruct (foldl _ _ rows) as [[I' D'] n1] eqn:Hfold.
    intros [= <- <- <-].
    apply categorize_fold_rows in Hfold as (Inew & Dnew & -> & -> & HI & HD).
    by exists Inew, Dnew.
Qed.

(** X8. [categorize_equipment] files every row whose category, stripped
    and in lower case, is docking station as one docking station, in the
    order of the input and with its cell texts unchanged, and every row
    whose category is instrument as one instrument (in some order); rows
    of any other category are in neither list. *)
Theorem categorize_equipment_partition equipment_list n instruments stations n' :
  categorize_equipment clock equipment_list n = (instruments, stations, n') ->
  Forall2 cells_kept (filter (is_category "docking station") equipment_list) stations
  /\ (exists collected,
       Forall2 cells_kept (filter (is_category "instrument") equipment_list) collected
       /\ instruments ≡ₚ collected)
  /\ length instruments
     = length (filter (is_category "instrument") equipment_list)
  /\ length stations
     = length (filter (is_category "docking station") equipment_list).
Proof.
  intros (collected & docking_stations & -> & -> & HI & HD)%categorize_equipment_rows.
  split_and!.
  - apply Forall2_fmap_r. eapply Forall2_impl; [exact HD|].
    intros row station. apply dock_cells_kept.
  - exists collected. split; [done|]. apply sort_by_key_perm.
  - rewrite sort_by_key_perm. symmetry. by eapply Forall2_length.
  - rewrite length_fmap. symmetry. by eapply Forall2_length.
Qed.

(** X9. The instruments come back in the order of line 198: no instrument
    stands before one with a smaller pair (equipment group, type), a
    missing field counting as the empty text, and instruments with the same
    pair stand in the order of the input. *)
Theorem instruments_sorted_by_group_and_type equipment_list n instruments stations n' :
  categorize_equipment clock equipment_list n = (instruments, stations, n') ->
  StronglySorted key_le instruments
  /\ exists collected,
      Forall2 (fun row item =>
                 cells_kept row item
                 /\ sort_key item = (PyDict.get_default row "Equipment Group" "",
                                    PyDict.get_default row "Type" ""))
              (filter (is_category "instrument") equipment_list) collected
      /\ forall key,
          filter (fun item => sort_key item = key) instruments
          = filter (fun item => sort_key item = key) collected.
Proof.
  intros (collected & docking_stations & -> & _ & HI & _)%categorize_equipment_rows.
  split; [apply sort_by_key_sorted|].
  exists collected. split.
  - eapply Forall2_impl; [exact HI|]. intros row item Hkept.
    split; [done|by apply cells_kept_sort_key].
  - intros key. apply sort_by_key_stable.
Qed.

End PartitionFacts.

Section DerivedFieldFacts.
Import App Categories.
Context `{Library}.
Variable clock : nat -> datetime.

Lemma annotate_derived row n :
  let item := (annotate clock row n).1 in
  (PyDict.get item "_days_until_calibration" = Some VNone
   /\ PyDict.get item "_calibration_status" = Some (VStr "ok"))
  \/ exists days,
      PyDict.get item "_days_until_calibration" = Some (VInt days)
      /\ PyDict.get item "_calibration_status" = Some (VStr (status_of_days days)).
Proof.
  cbn zeta. destruct (annotate_calibration clock row n); eauto.
Qed.

(** X10. Every record [categorize_equipment] returns has both calibration
    fields, and they agree: either the days are [None] and the status is
    ok, or the days are a number and the status is the one of lines
    180-185 for that number. Every docking station has the docked-unit
    field, and when it is not [None] it is the equipment group (or N/A) of
    a returned instrument whose serial number is the station's stripped
    currently-docked text. *)
Theorem derived_fields_are_consistent equipment_list n instruments stations n' :
  categorize_equipment clock equipment_list n = (instruments, stations, n') ->
  (forall item, item ∈ instruments ++ stations ->
     (PyDict.get item "_days_until_calibration" = Some VNone
      /\ PyDict.get item "_calibration_status" = Some (VStr "ok"))
     \/ exists days,
         PyDict.get item "_days_until_calibration" = Some (VInt days)
         /\ PyDict.get item "_calibration_status" = Some (VStr (status_of_days days)))
  /\ (forall station, station ∈ stations ->
       PyDict.get station "_docked_unit" = Some VNone
       \/ exists instr,
           instr ∈ instruments
           /\ PyDict.get instr "Serial Number"
              = Some (VStr (PyStr.strip (text_of station "Instrument Currently Docked" "")))
           /\ PyStr.strip (text_of station "Instrument Currently Docked" "") <> ""
           /\ PyDict.get station "_docked_unit"
              = Some (PyDict.get_default instr "Equipment Group" (VStr "N/A"))).
Proof.
  intros Hcat.
  apply categorize_equipment_parts in Hcat
    as (_ & collected & docking_stations & Hperm & -> & HI & HD).
  split.
  - intros item [Hin|Hin]%elem_of_app.
    + rewrite Hperm in Hin. eapply Forall_forall in HI; [|exact Hin].
      destruct HI as (row & k & _ & _ & _ & -> & _). apply annotate_derived.
    + apply list_elem_of_fmap in Hin as (item0 & -> & Hin).
      eapply Forall_forall in HD; [|exact Hin].
      destruct HD as (row & k & _ & _ & _ & -> & _).
      rewrite !dock_get_other by done. apply annotate_derived.
  - intros station (station0 & -> & _)%list_elem_of_fmap.
    rewrite dock_text_of by done. rewrite dock_docked_unit. cbn zeta.
    set (docked := PyStr.strip (text_of station0 "Instrument Currently Docked" "")).
    destruct (PyStr.truthy docked) eqn:Htruthy; [|by left].
    destruct (instrument_lookup instruments !! docked) as [instr|] eqn:Hl; [|by left].
    right. exists instr. unfold instrument_lookup in Hl.
    apply lookup_fold_sound in Hl as [Hl|(Hin & Ht & Hk)]; [done|].
    split_and!; [done| |by apply truthy_nonempty|done].
    rewrite Hperm in Hin. eapply Forall_forall in HI; [|exact Hin].
    destruct HI as (row & k & _ & _ & _ & -> & _).
    unfold text_of in Hk. rewrite annotate_get_raw in Hk |- * by done.
    destruct (PyDict.get row "Serial Number") as [s|]; simpl in *; [by subst|].
    subst docked. rewrite <- Hk in Htruthy. done.
Qed.

End DerivedFieldFacts.

Section CategorizeWitnesses.
Import App Categories.

(** The sample rows: three instruments, three docking stations, one label
    printer. *)
Lemma categorize_equipment_partition_witness :
  length Sample.instruments = 3 /\ length Sample.stations = 3
  /\ length Sample.equipment_list = 7.
Proof.
  destruct (@categorize_equipment_partition Sample.library Sample.clock
              Sample.equipment_list 0 Sample.instruments Sample.stations 3 eq_refl)
    as (_ & _ & HI & HD).
  rewrite HI, HD. split_and!; vm_compute; reflexivity.
Defined.

(** The sample instruments come back by unit: Unit-0, Unit-2, Unit-7. *)
Lemma instruments_sorted_by_group_and_type_witness :
  StronglySorted key_le Sample.instruments
  /\ (fun item => text_of item "Equipment Group" "") <$> Sample.instruments
     = ["Unit-0"; "Unit-2"; "Unit-7"].
Proof.
  split.
  - exact (proj1 (@instruments_sorted_by_group_and_type Sample.library Sample.clock
                    Sample.equipment_list 0 Sample.instruments Sample.stations 3
                    eq_refl)).
  - vm_compute. reflexivity.
Defined.

(** The sample station DS-1 holds a docked unit, DS-2 holds [None]. *)
Lemma derived_fields_are_consistent_witness :
  (forall station, station ∈ Sample.stations ->
     PyDict.get station "_docked_unit" = Some VNone
     \/ exists instr,
         instr ∈ Sample.instruments
         /\ PyDict.get instr "Serial Number"
            = Some (VStr (PyStr.strip (text_of station "Instrument Currently Docked" "")))
         /\ PyStr.strip (text_of station "Instrument Currently Docked" "") <> ""
         /\ PyDict.get station "_docked_unit"
            = Some (PyDict.get_default instr "Equipment Group" (VStr "N/A")))
  /\ PyDict.get Sample.station_DS1 "_docked_unit" = Some (VStr "Unit-7").
Proof.
  split.
  - exact (proj2 (@derived_fields_are_consistent Sample.library Sample.clock
                    Sample.equipment_list 0 Sample.instruments Sample.stations 3
                    eq_refl)).
  - reflexivity.
Defined.

End CategorizeWitnesses.

(** ** The records of one extraction *)

Section RecordKeys.
Import Soup Extract.

Lemma mem_keys {V} (d : PyDict.dict V) k :
  PyDict.mem d k = bool_decide (k ∈ PyDict.keys d).
Proof.
  unfold PyDict.mem. destruct (PyDict.get d k) as [v|] eqn:Hget.
  - symmetry. apply bool_decide_eq_true.
    destruct (decide (k ∈ PyDict.keys d)) as [|Hnin]; [done|].
    apply get_None_keys in Hnin. congruence.
  - symmetry. apply bool_decide_eq_false. by apply get_None_keys.
Qed.

(** The keys after a run of assignments depend on the keys before and on
    the names assigned, not on the values. *)
Lemma assign_all_same_keys {V} (pairs1 pairs2 : list (string * V)) :
  pairs1.*1 = pairs2.*1 ->
  forall d1 d2,
    PyDict.keys d1 = PyDict.keys d2 ->
    PyDict.keys (foldl (fun d kv => PyDict.set d kv.1 kv.2) d1 pairs1)
    = PyDict.keys (foldl (fun d kv => PyDict.set d kv.1 kv.2) d2 pairs2).
Proof.
  revert pairs2. induction pairs1 as [|[k v1] pairs1 IH];
    intros [|[k2 v2] pairs2] Hnames d1 d2 Hkeys; try done.
  injection Hnames as <- Hnames. simpl. apply IH; [done|].
  by rewrite !keys_set, !mem_keys, Hkeys.
Qed.

(** X11. The records of one extraction have the names of the grid's
    header row as their keys: each record has every header name, and no
    other key, once, in the order in which the names first stand in the
    header row; so all records have the same keys in the same order. *)
Theorem records_share_their_keys soup table_id table header_row results :
  find "table" (id_is table_id) soup = Some table ->
  find "tr" (id_contains "DXHeadersRow0") table = Some header_row ->
  extract_table soup table_id = Ok results ->
  forall record, record ∈ results ->
    NoDup (PyDict.keys record)
    /\ (forall key, key ∈ PyDict.keys record <-> key ∈ extract_headers header_row)
    /\ PyDict.keys record
       = PyDict.keys (PyDict.of_pairs ((fun name => (name, name))
                                         <$> extract_headers header_row))
    /\ forall other, other ∈ results -> PyDict.keys other = PyDict.keys record.
Proof.
  unfold extract_table. intros -> ->.
  rewrite extract_rows_kept. intros [= <-].
  set (headers := extract_headers header_row).
  assert (forall row, kept headers row ->
            (zip headers (get_text_strip <$> cells_of row)).*1 = headers) as Hnames.
  { intros row Hkept. apply fst_zip. rewrite length_fmap.
    unfold kept in Hkept. lia. }
  intros record (row & -> & [Hkept _]%list_elem_of_filter)%list_elem_of_fmap.
  unfold row_record, PyDict.of_pairs. split_and!.
  - apply assign_all_NoDup, NoDup_nil_2.
  - intros key. rewrite assign_all_keys, Hnames by done.
    split; [by intros [?%elem_of_nil|]|by right].
  - apply assign_all_same_keys; [|done].
    rewrite Hnames by done. rewrite <- list_fmap_compose.
    symmetry. apply list_fmap_id.
  - intros other (row' & -> & [Hkept' _]%list_elem_of_filter)%list_elem_of_fmap.
    unfold row_record, PyDict.of_pairs.
    apply assign_all_same_keys; [|done]. by rewrite !Hnames.
Qed.

(** The grid with a short row: both records have the two header names. *)
Lemma records_share_their_keys_witness :
  Forall (fun record =>
            NoDup (PyDict.keys record)
            /\ (forall key,
                  key ∈ PyDict.keys record <-> key ∈ ["Serial Number"; "Category"])
            /\ PyDict.keys record = ["Serial Number"; "Category"]
            /\ forall other,
                other ∈ [[("Serial Number", "ABC123"); ("Category", "Instrument")];
                         [("Serial Number", "DS-1"); ("Category", "Docking Station")]] ->
                PyDict.keys other = PyDict.keys record)
         [[("Serial Number", "ABC123"); ("Category", "Instrument")];
          [("Serial Number", "DS-1"); ("Category", "Docking Station")]].
Proof.
  apply Forall_forall.
  exact (records_share_their_keys Sample.page_with_short_row
           Scraper.default_table_id Sample.grid_with_short_row
           Sample.two_captions _ eq_refl eq_refl eq_refl).
Defined.

End RecordKeys.

(** ** Cycles one after the other *)

Section CycleFacts.
Import App Cycles.
Context `{Library} `{CookieLib}.

(** X12. Without both credentials configured a cycle does nothing but
    read the clock: no request is made (the portal does not matter), the
    cookie file and the snapshot stay, and nothing is emitted. *)
Theorem unconfigured_cycle_does_nothing w st :
  inet_username w = "" \/ inet_password w = "" ->
  update_equipment_data w st
  = State (equipment_data st) (cookie_file st) (S (clock_reads st)) (emitted st).
Proof.
  intros Hcred. unfold update_equipment_data.
  by rewrite scrape_equipment_without_credentials.
Qed.

(** X3. A cookie file with a name that is not a legal cookie key makes
    every cycle fail before its first request, with or without
    credentials: the scraper raises on opening its session, the cycle
    takes the branch of line 241, and so the snapshot, the cookie file and
    the emitted payloads stay as they were; only the clock was read. *)
Theorem illegal_cookie_name_keeps_the_snapshot w st :
  Cookies.legal_names (default [] (cookie_file st)) = false ->
  update_equipment_data w st
  = State (equipment_data st) (cookie_file st) (S (clock_reads st)) (emitted st).
Proof.
  intros Hnames. unfold update_equipment_data.
  rewrite scrape_equipment_without_session; [done|].
  by rewrite create_session_illegal.
Qed.

Lemma update_step w st :
  let st' := update_equipment_data w st in
  clock_reads st < clock_reads st'
  /\ ((equipment_data st' = equipment_data st /\ emitted st' = emitted st)
      \/ (PyDict.keys (equipment_data st')
          = ["instruments"; "docking_stations"; "last_update"]
          /\ emitted st' = emitted st ++ [equipment_data st'])).
Proof.
  cbn zeta. unfold update_equipment_data.
  destruct (scrape_equipment w (cookie_file st)) as [[rows|] file].
  - destruct (categorize_equipment _ _ _) as [[instruments stations] n] eqn:Hcat.
    apply categorize_equipment_parts in Hcat as [Hle _].
    cbn. split; [lia|]. by right.
  - cbn. split; [lia|]. by left.
Qed.

(** X13. Over any run of cycles from the start of the process, each cycle
    after the one before has returned: the snapshot always has the three
    entries instruments, docking_stations and last_update; either nothing
    was ever emitted and the snapshot is the initial one, or the payload
    emitted last is the current snapshot; and every cycle reads the clock,
    and emits at most once. *)
Theorem cycles_keep_snapshot_and_broadcast_in_step ws file :
  let st := run_cycles ws (startup file) in
  PyDict.keys (equipment_data st) = ["instruments"; "docking_stations"; "last_update"]
  /\ ((emitted st = [] /\ equipment_data st = initial_equipment_data)
      \/ last (emitted st) = Some (equipment_data st))
  /\ length ws <= clock_reads st
  /\ length (emitted st) <= length ws.
Proof.
  cbn zeta. unfold run_cycles.
  induction ws as [|w ws IH] using rev_ind.
  - cbn. split_and!; [done|by left|done..].
  - rewrite foldl_app. cbn [foldl].
    set (st := foldl (fun st w => update_equipment_data w st) (startup file) ws) in *.
    destruct IH as (Hkeys & Hlast & Hclock & Hemit).
    destruct (update_step w st) as [Hreads [[Hdata Hsame]|[Hkeys' Hpush]]];
      rewrite length_app; cbn [length].
    + rewrite Hdata, Hsame. split_and!; [done..|lia|lia].
    + rewrite Hpush. split_and!; [done| |lia|].
      * right. by rewrite last_snoc.
      * rewrite length_app. cbn. lia.
Qed.

End CycleFacts.

(** A cycle with credentials against the sample portal, over a cookie
    file that has a space in a name. *)
Lemma illegal_cookie_name_keeps_the_snapshot_witness :
  @App.update_equipment_data Sample.library Sample.cookie_lib
    (Sample.world true Sample.page_with_short_row)
    (App.State (App.equipment_data Sample.published)
               (Some [("session id", "0vkq")]) 0 [])
  = App.State (App.equipment_data Sample.published)
              (Some [("session id", "0vkq")]) 1 [].
Proof. by apply illegal_cookie_name_keeps_the_snapshot. Defined.

(** A cycle without credentials, against the sample portal. *)
Lemma unconfigured_cycle_does_nothing_witness :
  @App.update_equipment_data Sample.library Sample.cookie_lib Sample.world_unconfigured Sample.published
  = App.State (App.equipment_data Sample.published) None 1 [].
Proof. apply unconfigured_cycle_does_nothing. by left. Defined.

(* ================================================================== *)
(** ** The configuration file, the scheduler and the admin pages *)

Section ConfigFacts.
Import Web.
Variable generate_password_hash : nat -> string -> string.
Variable check_password_hash : jval -> option string -> result bool.
Variable parse_int : string -> option Z.
Variable accepts_minutes : Z -> bool.

Local Abbreviation default_config := (Web.default_config generate_password_hash).
Local Abbreviation load_config := (Web.load_config generate_password_hash).
Local Abbreviation schedule_updates :=
  (Web.schedule_updates generate_password_hash accepts_minutes).
Local Abbreviation form_frequency := (Web.form_frequency parse_int).
Local Abbreviation admin_post :=
  (Web.admin_post generate_password_hash parse_int accepts_minutes).
Local Abbreviation admin_get := (Web.admin_get generate_password_hash).
Local Abbreviation admin :=
  (Web.admin generate_password_hash parse_int accepts_minutes).
Local Abbreviation login_post :=
  (Web.login_post generate_password_hash check_password_hash).

Lemma fill_defaults_get defaults config k :
  PyDict.get (fill_defaults defaults config) k =
  match PyDict.get config k with
  | Some v => Some v
  | None => PyDict.get defaults k
  end.
Proof.
  unfold fill_defaults. revert config.
  induction defaults as [|[k0 v0] ds IH]; intros config; simpl.
  - by destruct (PyDict.get config k).
  - rewrite IH. unfold PyDict.mem.
    destruct (PyDict.get config k0) as [w|] eqn:H0;
      destruct (decide (k0 = k)) as [->|Hne].
    + by rewrite H0.
    + done.
    + by rewrite get_set_eq, H0.
    + by rewrite get_set_ne.
Qed.

Lemma fill_defaults_full defaults config :
  Forall (fun k => PyDict.mem config k = true) (PyDict.keys defaults) ->
  fill_defaults defaults config = config.
Proof.
  unfold fill_defaults, PyDict.keys.
  induction defaults as [|[k0 v0] ds IH]; simpl; [done|].
  intros Hall. apply Forall_cons in Hall as [-> Hall]. by apply IH.
Qed.

(** What [load_config] leaves behind: one more hash computed, and the
    defaults written when there was no file. *)
Lemma load_config_site st :
  (load_config st).2 =
  Site (match config_file st with
        | Absent => if writable st then Holds (default_config st) else Absent
        | f => f
        end)
       (writable st) (S (hashes st)) (jobs st) (flashes st) (started st).
Proof.
  destruct st as [f w h js fl n]. unfold Web.load_config, save_config. simpl.
  destruct f; simpl; [|done..]. by destruct w.
Qed.

Lemma load_config_get st k :
  PyDict.get (load_config st).1 k =
  match config_file st with
  | Holds config =>
      match PyDict.get config k with
      | Some v => Some v
      | None => PyDict.get (default_config st) k
      end
  | _ => PyDict.get (default_config st) k
  end.
Proof.
  unfold Web.load_config. destruct st as [f w h js fl n].
  cbn [config_file hashed]. destruct f; cbn [fst]; [done..|].
  apply fill_defaults_get.
Qed.

Lemma default_config_complete st k :
  k ∈ PyDict.keys (default_config st) ->
  is_Some (PyDict.get (default_config st) k).
Proof.
  intros Hin. destruct (PyDict.get (default_config st) k) eqn:Hk; [by eexists|].
  by apply get_None_keys in Hk.
Qed.

Lemma load_config_complete st k :
  k ∈ PyDict.keys (default_config st) ->
  is_Some (PyDict.get (load_config st).1 k).
Proof.
  intros Hin. rewrite load_config_get.
  pose proof (default_config_complete st k Hin) as Hdef.
  destruct (config_file st); [done..|].
  by destruct (PyDict.get config k).
Qed.

(** X14. [load_config] prefers the file: every key the file holds keeps
    the file's value, every other key has its default, and without a
    readable file all values are the defaults. So the five keys of the
    default configuration are always present. *)
Theorem load_config_prefers_the_file st k :
  PyDict.get (load_config st).1 k =
  match config_file st with
  | Holds config =>
      match PyDict.get config k with
      | Some v => Some v
      | None => PyDict.get (default_config st) k
      end
  | _ => PyDict.get (default_config st) k
  end
  /\ Forall (fun k => is_Some (PyDict.get (load_config st).1 k))
       (PyDict.keys (default_config st)).
Proof.
  split; [apply load_config_get|].
  apply Forall_forall. intros k' Hin. by apply load_config_complete.
Qed.

(** X15. a configuration with the five keys that [save_config] wrote is
    what [load_config] returns next, entry for entry and in the same
    order. *)
Theorem saved_config_is_loaded_back config st :
  writable st = true ->
  Forall (fun k => PyDict.mem config k = true) (PyDict.keys (default_config st)) ->
  (save_config config st).1 = true /\
  (load_config (save_config config st).2).1 = config.
Proof.
  intros Hw Hall. unfold save_config. rewrite Hw. split; [done|].
  unfold Web.load_config. cbn [snd fst config_file with_file hashed].
  apply fill_defaults_full. exact Hall.
Qed.

(** X16. [schedule_updates] never leaves two jobs: it ends with the one
    job update_equipment at the configured frequency, or, when the
    trigger cannot be built, raises with no job left. *)
Theorem schedule_updates_leaves_one_job st :
  match schedule_updates st with
  | (Ok _, st') =>
      exists minutes,
        jobs st' = [("update_equipment", minutes)] /\
        PyDict.get (load_config st).1 "update_frequency" = Some (JInt minutes) /\
        accepts_minutes minutes = true
  | (Raise, st') => jobs st' = []
  end.
Proof.
  unfold Web.schedule_updates.
  destruct (load_config st) as [config st0] eqn:Hload.
  assert (Hfreq : is_Some (PyDict.get (load_config st).1 "update_frequency")).
  { apply load_config_complete. unfold PyDict.keys. cbn. set_solver. }
  rewrite Hload in Hfreq. cbn [fst] in Hfreq.
  unfold PyDict.get_default.
  destruct (PyDict.get config "update_frequency") as [[s|m]|] eqn:Hf;
    cbn [default id]; [by destruct st0| |by destruct Hfreq].
  destruct (accepts_minutes m) eqn:Hacc; [|by destruct st0].
  exists m. by destruct st0.
Qed.

(** [schedule_updates] on a configuration file that holds a frequency *)
Lemma schedule_updates_holds st config minutes :
  config_file st = Holds config ->
  PyDict.get config "update_frequency" = Some (JInt minutes) ->
  schedule_updates st =
  (if accepts_minutes minutes then Ok tt else Raise,
   Site (Holds config) (writable st) (S (hashes st))
        (if accepts_minutes minutes then [("update_equipment", minutes)] else [])
        (flashes st) (started st)).
Proof.
  intros Hfile Hfreq. unfold Web.schedule_updates.
  pose proof (load_config_site st) as Hsite.
  pose proof (load_config_get st "update_frequency") as Hget.
  rewrite Hfile in Hsite, Hget. rewrite Hfreq in Hget.
  destruct (load_config st) as [c0 st0]. cbn [fst snd] in Hsite, Hget.
  subst st0. unfold PyDict.get_default. rewrite Hget. cbn [default id].
  by destruct (accepts_minutes minutes).
Qed.

(** The clamp of lines 331-332 *)
Lemma clamp_max n : (if (n <? 1)%Z then 1%Z else n) = Z.max 1 n.
Proof. destruct (Z.ltb_spec n 1); lia. Qed.

(** The POST branch of [admin] up to the call of [schedule_updates], for
    a form whose frequency is a number and a file that can be written:
    what the file holds then. *)
Lemma admin_post_saved form st n :
  writable st = true ->
  form_frequency form = Some n ->
  exists config st1,
    config_file st1 = Holds config /\
    writable st1 = true /\
    started st1 = started st /\
    PyDict.get config "update_frequency" = Some (JInt (Z.max 1 n)) /\
    PyDict.get config "inet_username" =
      Some (JStr (default "" (PyDict.get form "inet_username"))) /\
    PyDict.get config "inet_password" =
      Some (JStr (default "" (PyDict.get form "inet_password"))) /\
    PyDict.get config "admin_password_hash" =
      (if PyStr.truthy (default "" (PyDict.get form "admin_password"))
       then Some (JStr (generate_password_hash (S (hashes st))
                          (default "" (PyDict.get form "admin_password"))))
       else PyDict.get (load_config st).1 "admin_password_hash") /\
    PyDict.get config "admin_username" =
      PyDict.get (load_config st).1 "admin_username" /\
    admin_post form st =
      match schedule_updates st1 with
      | (Ok _, st2) =>
          if PyStr.truthy (default "" (PyDict.get form "inet_username"))
             || PyStr.truthy (default "" (PyDict.get form "inet_password"))
          then (Redirect "admin", start_update st2)
          else (Redirect "admin", st2)
      | (Raise, st2) => (ServerError, st2)
      end.
Proof.
  intros Hw Hfreq. unfold Web.admin_post. rewrite Hfreq.
  pose proof (load_config_site st) as Hsite. rewrite Hw in Hsite.
  destruct (load_config st) as [c0 st0]. cbn [fst snd] in Hsite |- *.
  set (pw := PyDict.get form "admin_password").
  set (edited :=
         match pw with
         | Some new_admin_password =>
             if PyStr.truthy new_admin_password
             then (PyDict.set c0 "admin_password_hash"
                     (JStr (generate_password_hash (hashes st0) new_admin_password)),
                   hashed st0)
             else (c0, st0)
         | None => (c0, st0)
         end).
  assert (Hedited :
    writable edited.2 = true /\ started edited.2 = started st /\
    PyDict.get edited.1 "admin_password_hash" =
      (if PyStr.truthy (default "" pw)
       then Some (JStr (generate_password_hash (S (hashes st)) (default "" pw)))
       else PyDict.get c0 "admin_password_hash") /\
    PyDict.get edited.1 "admin_username" = PyDict.get c0 "admin_username").
  { subst edited st0. destruct pw as [p|]; cbn [default id].
    - destruct (PyStr.truthy p); cbn [fst snd]; [|done].
      split_and!; [done..| |]; [by rewrite get_set_eq|by rewrite get_set_ne].
    - done. }
  destruct edited as [c1 st1]. cbn [fst snd] in Hedited.
  destruct Hedited as (Hw1 & Hs1 & Hhash & Huser).
  rewrite clamp_max. unfold save_config. rewrite Hw1.
  eexists _, _. split_and!; cycle -1.
  - reflexivity.
  - by destruct st1.
  - by destruct st1.
  - by destruct st1.
  - by rewrite get_set_eq.
  - by rewrite get_set_ne, get_set_ne, get_set_eq.
  - by rewrite get_set_ne, get_set_eq.
  - by rewrite !get_set_ne.
  - by rewrite !get_set_ne.
Qed.

(** The whole POST branch of [admin] for such a form. *)
Lemma admin_post_result form st n :
  writable st = true ->
  form_frequency form = Some n ->
  exists config,
    config_file (admin_post form st).2 = Holds config /\
    PyDict.get config "update_frequency" = Some (JInt (Z.max 1 n)) /\
    PyDict.get config "inet_username" =
      Some (JStr (default "" (PyDict.get form "inet_username"))) /\
    PyDict.get config "inet_password" =
      Some (JStr (default "" (PyDict.get form "inet_password"))) /\
    PyDict.get config "admin_password_hash" =
      (if PyStr.truthy (default "" (PyDict.get form "admin_password"))
       then Some (JStr (generate_password_hash (S (hashes st))
                          (default "" (PyDict.get form "admin_password"))))
       else PyDict.get (load_config st).1 "admin_password_hash") /\
    PyDict.get config "admin_username" =
      PyDict.get (load_config st).1 "admin_username" /\
    (admin_post form st).1 =
      (if accepts_minutes (Z.max 1 n) then Redirect "admin" else ServerError) /\
    jobs (admin_post form st).2 =
      (if accepts_minutes (Z.max 1 n)
       then [("update_equipment", Z.max 1 n)] else []) /\
    started (admin_post form st).2 =
      (if accepts_minutes (Z.max 1 n)
          && (PyStr.truthy (default "" (PyDict.get form "inet_username"))
              || PyStr.truthy (default "" (PyDict.get form "inet_password")))
       then S (started st) else started st).
Proof.
  intros Hw Hfreq.
  destruct (admin_post_saved form st n Hw Hfreq)
    as (config & st1 & Hfile & Hw1 & Hs1 & Hf & Hu & Hp & Hh & Ha & Hpost).
  exists config. rewrite Hpost.
  rewrite (schedule_updates_holds st1 config (Z.max 1 n) Hfile Hf).
  destruct (accepts_minutes (Z.max 1 n)); cbn [andb].
  - destruct (PyStr.truthy (default "" (PyDict.get form "inet_username"))
              || PyStr.truthy (default "" (PyDict.get form "inet_password")));
      cbn [fst snd config_file jobs started start_update]; by rewrite ?Hs1.
  - cbn [fst snd config_file jobs started]. by rewrite ?Hs1.
Qed.

(** X17. A POST of the admin form by a logged-in client, with a numeric
    frequency, on a file that can be written and with a trigger that
    accepts the frequency: the file then holds the form's INET credentials
    and the frequency raised to at least one minute, the scheduler has the
    single job update_equipment at that frequency, whatever jobs it had,
    and the answer is a redirect to the admin page. *)
Theorem admin_post_stores_the_form form st n :
  writable st = true ->
  form_frequency form = Some n ->
  accepts_minutes (Z.max 1 n) = true ->
  (admin true (Some form) st).1 = Redirect "admin" /\
  jobs (admin true (Some form) st).2 = [("update_equipment", Z.max 1 n)] /\
  exists config,
    config_file (admin true (Some form) st).2 = Holds config /\
    PyDict.get config "update_frequency" = Some (JInt (Z.max 1 n)) /\
    PyDict.get config "inet_username" =
      Some (JStr (default "" (PyDict.get form "inet_username"))) /\
    PyDict.get config "inet_password" =
      Some (JStr (default "" (PyDict.get form "inet_password"))).
Proof.
  intros Hw Hfreq Hacc. unfold Web.admin.
  destruct (admin_post_result form st n Hw Hfreq)
    as (config & Hfile & Hf & Hu & Hp & _ & _ & Hresp & Hjobs & _).
  rewrite Hacc in Hresp, Hjobs. split_and!; [done..|].
  by exists config.
Qed.

(** X18. After such a POST (logged-in client, numeric frequency that the
    trigger accepts, writable file) one background update is started
    exactly when the form carries a non-empty INET user name or password,
    whether or not they differ from the stored ones; otherwise none. *)
Theorem admin_post_starts_update_on_credentials form st n :
  writable st = true ->
  form_frequency form = Some n ->
  accepts_minutes (Z.max 1 n) = true ->
  started (admin true (Some form) st).2 =
  if PyStr.truthy (default "" (PyDict.get form "inet_username"))
     || PyStr.truthy (default "" (PyDict.get form "inet_password"))
  then S (started st) else started st.
Proof.
  intros Hw Hfreq Hacc. unfold Web.admin.
  destruct (admin_post_result form st n Hw Hfreq)
    as (config & _ & _ & _ & _ & _ & _ & _ & _ & Hstarted).
  by rewrite Hacc in Hstarted.
Qed.

(** X19. A POST of the admin form by a logged-in client on a writable
    file, with a numeric frequency the trigger cannot be built from: the
    frequency is stored all the same, the request fails, and the scheduler
    is left without any job, so the periodic update that was scheduled
    before is gone; no immediate update is started. *)
Theorem rejected_frequency_unschedules_updates form st n :
  writable st = true ->
  form_frequency form = Some n ->
  accepts_minutes (Z.max 1 n) = false ->
  (admin true (Some form) st).1 = ServerError /\
  jobs (admin true (Some form) st).2 = [] /\
  started (admin true (Some form) st).2 = started st /\
  exists config,
    config_file (admin true (Some form) st).2 = Holds config /\
    PyDict.get config "update_frequency" = Some (JInt (Z.max 1 n)).
Proof.
  intros Hw Hfreq Hacc. unfold Web.admin.
  destruct (admin_post_result form st n Hw Hfreq)
    as (config & Hfile & Hf & _ & _ & _ & _ & Hresp & Hjobs & Hstarted).
  rewrite Hacc in Hresp, Hjobs, Hstarted. split_and!; [done..|].
  by exists config.
Qed.

(** X20. A POST of the admin form by a logged-in client whose frequency
    is not a number changes nothing of what the form asked for: the file
    is as [load_config] left it, so neither the new admin password nor the
    INET credentials are stored, the jobs are untouched, no update is
    started, and the last flashed message is the error. *)
Theorem invalid_frequency_stores_nothing form st :
  form_frequency form = None ->
  (admin true (Some form) st).1 = Redirect "admin" /\
  config_file (admin true (Some form) st).2 = config_file (load_config st).2 /\
  jobs (admin true (Some form) st).2 = jobs st /\
  started (admin true (Some form) st).2 = started st /\
  last (flashes (admin true (Some form) st).2)
  = Some ("Invalid update frequency", "danger").
Proof.
  intros Hfreq. unfold Web.admin, Web.admin_post. rewrite Hfreq.
  pose proof (load_config_site st) as Hsite.
  destruct (load_config st) as [c0 st0]. cbn [fst snd] in Hsite |- *.
  destruct (PyDict.get form "admin_password") as [p|];
    [destruct (PyStr.truthy p)|];
    subst st0; cbn [fst snd config_file jobs started flashes flash hashed];
    by rewrite last_snoc.
Qed.

(** What the GET branch of [admin] renders. *)
Lemma admin_get_shows st :
  exists shown,
    (admin_get st).1 = Render "admin.html" shown /\
    (forall k, k ≠ "inet_password" ->
       PyDict.get shown k = PyDict.get (load_config st).1 k) /\
    PyDict.get shown "inet_password" =
      Some (JStr (if truthy (default (JStr "")
                               (PyDict.get (load_config st).1 "inet_password"))
                  then "********" else "")).
Proof.
  unfold Web.admin_get. destruct (load_config st) as [c st0].
  eexists. split; [reflexivity|]. cbn [fst]. split.
  - intros k Hk. by rewrite get_set_ne.
  - by rewrite get_set_eq.
Qed.

(** X21. For a logged-in client, the admin page after a saved form shows
    the user name and the frequency that were stored, and in place of the
    INET password eight asterisks when one was given and the empty text
    otherwise: the stored password is not sent to the template. *)
Theorem admin_page_shows_saved_form form st n :
  writable st = true ->
  form_frequency form = Some n ->
  exists shown,
    (admin true None (admin true (Some form) st).2).1 = Render "admin.html" shown /\
    PyDict.get shown "inet_username" =
      Some (JStr (default "" (PyDict.get form "inet_username"))) /\
    PyDict.get shown "update_frequency" = Some (JInt (Z.max 1 n)) /\
    PyDict.get shown "inet_password" =
      Some (JStr (if PyStr.truthy (default "" (PyDict.get form "inet_password"))
                  then "********" else "")).
Proof.
  intros Hw Hfreq. unfold Web.admin.
  destruct (admin_post_result form st n Hw Hfreq)
    as (config & Hfile & Hf & Hu & Hp & _).
  destruct (admin_get_shows (admin_post form st).2) as (shown & Hshown & Hrest & Hpw).
  exists shown. split; [done|].
  rewrite !Hrest by done. rewrite Hpw.
  rewrite !load_config_get, Hfile, Hf, Hu, Hp. done.
Qed.

(** X22. after a saved form with a new admin password, logging in with
    the stored user name and that password succeeds, for any password
    hashing in which a hash checks against the password it was made
    from. *)
Theorem new_admin_password_logs_in form st n user password login_form :
  (forall salt text,
     check_password_hash (JStr (generate_password_hash salt text)) (Some text)
     = Ok true) ->
  writable st = true ->
  form_frequency form = Some n ->
  PyDict.get form "admin_password" = Some password ->
  PyStr.truthy password = true ->
  PyDict.get (load_config st).1 "admin_username" = Some (JStr user) ->
  PyDict.get login_form "username" = Some user ->
  PyDict.get login_form "password" = Some password ->
  (login_post login_form (admin_post form st).2).1 = (Redirect "admin", true).
Proof.
  intros Hlib Hw Hfreq Hpw Htruthy Huser Hlu Hlp.
  destruct (admin_post_result form st n Hw Hfreq)
    as (config & Hfile & _ & _ & _ & Hh & Ha & _).
  rewrite Hpw in Hh. cbn [default id] in Hh. rewrite Htruthy in Hh.
  rewrite Huser in Ha.
  unfold Web.login_post.
  pose proof (load_config_get (admin_post form st).2 "admin_username") as Hga.
  pose proof (load_config_get (admin_post form st).2 "admin_password_hash") as Hgh.
  rewrite Hfile in Hga, Hgh. rewrite Ha in Hga. rewrite Hh in Hgh.
  destruct (load_config (admin_post form st).2) as [c st'].
  cbn [fst] in Hga, Hgh. rewrite Hga, Hgh, Hlu, Hlp.
  rewrite bool_decide_eq_true_2 by done. by rewrite Hlib.
Qed.

(** X23. a saved form with an empty admin password field leaves the admin
    login as it was: every login attempt is answered after it as it would
    have been before it. *)
Theorem empty_admin_password_keeps_the_login form st n config login_form :
  writable st = true ->
  form_frequency form = Some n ->
  PyStr.truthy (default "" (PyDict.get form "admin_password")) = false ->
  config_file st = Holds config ->
  PyDict.mem config "admin_username" = true ->
  PyDict.mem config "admin_password_hash" = true ->
  (login_post login_form (admin_post form st).2).1 = (login_post login_form st).1.
Proof.
  intros Hw Hfreq Hempty Hfile Hmu Hmh.
  destruct (admin_post_result form st n Hw Hfreq)
    as (config' & Hfile' & _ & _ & _ & Hh & Ha & _).
  rewrite Hempty in Hh.
  unfold Web.login_post.
  pose proof (load_config_get (admin_post form st).2 "admin_username") as Hga.
  pose proof (load_config_get (admin_post form st).2 "admin_password_hash") as Hgh.
  rewrite Hfile' in Hga, Hgh. rewrite Ha in Hga. rewrite Hh in Hgh.
  rewrite (load_config_get st), Hfile in Hga, Hgh.
  unfold PyDict.mem in Hmu, Hmh.
  destruct (PyDict.get config "admin_username") as [u|] eqn:Hu; [|done].
  destruct (PyDict.get config "admin_password_hash") as [h|] eqn:Hh0; [|done].
  pose proof (load_config_get st "admin_username") as Hga0.
  pose proof (load_config_get st "admin_password_hash") as Hgh0.
  rewrite Hfile in Hga0, Hgh0. rewrite Hu in Hga0. rewrite Hh0 in Hgh0.
  destruct (load_config (admin_post form st).2) as [c st'].
  destruct (load_config st) as [c0 st0].
  cbn [fst] in Hga, Hgh, Hga0, Hgh0. rewrite Hga, Hgh, Hga0, Hgh0.
  destruct (bool_decide _); [|done].
  by destruct (check_password_hash h _) as [[]|].
Qed.

End ConfigFacts.

(** The theorems of the admin pages at the sample installation. *)
Section ConfigWitnesses.
Import Web WebSample.

Local Abbreviation admin_post :=
  (Web.admin_post generate_password_hash parse_int accepts_minutes).
Local Abbreviation admin :=
  (Web.admin generate_password_hash parse_int accepts_minutes).
Local Abbreviation load_config := (Web.load_config generate_password_hash).
Local Abbreviation login_post :=
  (Web.login_post generate_password_hash check_password_hash).

Lemma saved_config_is_loaded_back_witness :
  (save_config [("update_frequency", JInt 5); ("inet_password", JStr "hunter2");
                ("inet_username", JStr "operator");
                ("admin_password_hash", JStr "plain$admin");
                ("admin_username", JStr "root")] installed).1 = true /\
  (load_config
     (save_config [("update_frequency", JInt 5); ("inet_password", JStr "hunter2");
                   ("inet_username", JStr "operator");
                   ("admin_password_hash", JStr "plain$admin");
                   ("admin_username", JStr "root")] installed).2).1
  = [("update_frequency", JInt 5); ("inet_password", JStr "hunter2");
     ("inet_username", JStr "operator");
     ("admin_password_hash", JStr "plain$admin");
     ("admin_username", JStr "root")].
Proof.
  apply saved_config_is_loaded_back; [reflexivity|].
  repeat constructor.
Defined.

Lemma admin_post_stores_the_form_witness :
  (admin true (Some credentials_form) installed).1 = Redirect "admin" /\
  jobs (admin true (Some credentials_form) installed).2 = [("update_equipment", 1%Z)] /\
  exists config,
    config_file (admin true (Some credentials_form) installed).2 = Holds config /\
    PyDict.get config "update_frequency" = Some (JInt 1) /\
    PyDict.get config "inet_username" = Some (JStr "operator") /\
    PyDict.get config "inet_password" = Some (JStr "hunter2").
Proof.
  exact (admin_post_stores_the_form generate_password_hash parse_int
           accepts_minutes credentials_form installed 0 eq_refl eq_refl eq_refl).
Defined.

Lemma admin_post_starts_update_on_credentials_witness :
  started (admin true (Some credentials_form) installed).2 = 2 /\
  started (admin true (Some password_form) installed).2 = 1.
Proof.
  split.
  - exact (admin_post_starts_update_on_credentials generate_password_hash
             parse_int accepts_minutes credentials_form installed 0
             eq_refl eq_refl eq_refl).
  - exact (admin_post_starts_update_on_credentials generate_password_hash
             parse_int accepts_minutes password_form installed 15
             eq_refl eq_refl eq_refl).
Defined.

Lemma rejected_frequency_unschedules_updates_witness :
  (admin true (Some huge_form) installed).1 = ServerError /\
  jobs (admin true (Some huge_form) installed).2 = [] /\
  started (admin true (Some huge_form) installed).2 = 1 /\
  exists config,
    config_file (admin true (Some huge_form) installed).2 = Holds config /\
    PyDict.get config "update_frequency" = Some (JInt 9999999999999).
Proof.
  exact (rejected_frequency_unschedules_updates generate_password_hash parse_int
           accepts_minutes huge_form installed 9999999999999
           eq_refl eq_refl eq_refl).
Defined.

Lemma invalid_frequency_stores_nothing_witness :
  (admin true (Some misspelt_form) installed).1 = Redirect "admin" /\
  config_file (admin true (Some misspelt_form) installed).2 = config_file installed /\
  jobs (admin true (Some misspelt_form) installed).2 = [("update_equipment", 60%Z)] /\
  started (admin true (Some misspelt_form) installed).2 = 1 /\
  last (flashes (admin true (Some misspelt_form) installed).2)
  = Some ("Invalid update frequency", "danger").
Proof.
  exact (invalid_frequency_stores_nothing generate_password_hash parse_int
           accepts_minutes misspelt_form installed eq_refl).
Defined.

Lemma admin_page_shows_saved_form_witness :
  exists shown,
    (admin true None (admin true (Some credentials_form) installed).2).1
    = Render "admin.html" shown /\
    PyDict.get shown "inet_username" = Some (JStr "operator") /\
    PyDict.get shown "update_frequency" = Some (JInt 1) /\
    PyDict.get shown "inet_password" = Some (JStr "********").
Proof.
  exact (admin_page_shows_saved_form generate_password_hash parse_int
           accepts_minutes credentials_form installed 0 eq_refl eq_refl).
Defined.

Lemma new_admin_password_logs_in_witness :
  (login_post login_form (admin_post password_form installed).2).1
  = (Redirect "admin", true).
Proof.
  apply (new_admin_password_logs_in generate_password_hash check_password_hash
           parse_int accepts_minutes password_form installed 15 "admin" "s3cret");
    try reflexivity.
  intros salt text. unfold check_password_hash, generate_password_hash.
  by rewrite bool_decide_eq_true_2.
Defined.

Lemma empty_admin_password_keeps_the_login_witness :
  (login_post login_form (admin_post credentials_form installed).2).1
  = (login_post login_form installed).1.
Proof.
  exact (empty_admin_password_keeps_the_login generate_password_hash
           check_password_hash parse_int accepts_minutes credentials_form
           installed 0 _ login_form eq_refl eq_refl eq_refl eq_refl eq_refl
           eq_refl).
Defined.

End ConfigWitnesses.
